(** * The user-story scoring engine of BA_Toolbox

    A shallow embedding of
    [business-analysis-app/shared/userStoryAgent.js] (version 2.0.0):
    the configuration object, the helpers, the two analysis functions, the
    recommendation generator and the entry point [analyzeUserStory], followed
    by the properties the specification states about them.

    JavaScript values are modelled as follows.
    - A string is the list of its UTF-16 code units, so [length] is the
      [.length] of the source.
    - The small integers the engine scores with are [Z]; the two places where
      the source divides are computed on binary64 floats, as JavaScript does.
    - An argument of the entry point is a [JsValue], because the callers pass
      whatever the JSON body holds.
    - A call either completes normally or throws: [Completion].
    - The functions are embedded as functions of their arguments; the
      module [Stateful] embeds them once more with the state of the
      JavaScript module passed through every call, to show that the first
      embedding loses nothing. *)

From Stdlib Require Import ZArith NArith List Bool Lia.
From Stdlib Require Import Ascii String DecimalString.
From Stdlib Require Floats Uint63.
From Stdlib Require QArith Qround.
Import ListNotations.

Local Open Scope Z_scope.

(* ================================================================= *)
(** ** Strings *)

Definition CodeUnit := N.
Definition jsstring := list CodeUnit.

(** A string literal of the source whose characters are all ASCII. *)
Definition lit (s : string) : jsstring :=
  map N_of_ascii (list_ascii_of_string s).
Arguments lit s%_string.

(** [a === b] on two strings. *)
Definition String_eq (a b : jsstring) : bool :=
  if list_eq_dec N.eq_dec a b then true else false.

(** [s.length]. *)
Definition String_length (s : jsstring) : Z := Z.of_nat (List.length s).

(** ECMAScript's LineTerminator code points: LF, CR, LS, PS. *)
Definition isLineTerminator (c : CodeUnit) : bool :=
  existsb (N.eqb c) [0x0A; 0x0D; 0x2028; 0x2029]%N.

(** ECMAScript's WhiteSpace code points (TAB, VT, FF, SP, NBSP, ZWNBSP and
    the category Zs); all of them are single code units. *)
Definition isWhiteSpace (c : CodeUnit) : bool :=
  existsb (N.eqb c)
    [0x09; 0x0B; 0x0C; 0x20; 0xA0; 0xFEFF; 0x1680; 0x202F; 0x205F; 0x3000]%N
  || ((0x2000 <=? c)%N && (c <=? 0x200A)%N).

Definition isTrimmed (c : CodeUnit) : bool :=
  isWhiteSpace c || isLineTerminator c.

Fixpoint trimStart (s : jsstring) : jsstring :=
  match s with
  | [] => []
  | c :: t => if isTrimmed c then trimStart t else s
  end.

Definition trimEnd (s : jsstring) : jsstring := rev (trimStart (rev s)).

(** [s.trim()]. *)
Definition trim (s : jsstring) : jsstring := trimEnd (trimStart s).

(** [s.split(sep)] for a separator of one code unit; the empty string splits
    into one empty piece. *)
Fixpoint split (sep : CodeUnit) (s : jsstring) : list jsstring :=
  match s with
  | [] => [[]]
  | c :: t =>
      if (c =? sep)%N then [] :: split sep t
      else match split sep t with
           | cur :: rest => (c :: cur) :: rest
           | [] => [[c]]
           end
  end.

Fixpoint startsWith (p s : jsstring) : bool :=
  match p, s with
  | [], _ => true
  | _ :: _, [] => false
  | a :: p', b :: s' => (a =? b)%N && startsWith p' s'
  end.

(** [s.includes(kw)]: [kw] occurs in [s] as a run of code units. *)
Fixpoint includes (s kw : jsstring) : bool :=
  startsWith kw s
  || match s with
     | [] => false
     | _ :: t => includes t kw
     end.

(** The case mapping of one code unit under [toLowerCase]. The ASCII
    capitals are lowered; U+0130 and U+212A are the only other characters
    whose lower case contains an ASCII letter. Every other character is kept:
    Unicode maps it to characters outside ASCII, and the engine only asks
    whether the lowered text [includes] one of its ASCII keywords. *)
Definition lowerCodeUnit (c : CodeUnit) : jsstring :=
  if ((0x41 <=? c) && (c <=? 0x5A))%N then [c + 0x20]%N
  else if (c =? 0x130)%N then [0x69; 0x307]%N
  else if (c =? 0x212A)%N then [0x6B]%N
  else [c].

(** [s.toLowerCase()]. *)
Definition toLowerCase (s : jsstring) : jsstring := flat_map lowerCodeUnit s.

(** [arr.join(sep)]. *)
Fixpoint join (sep : jsstring) (arr : list jsstring) : jsstring :=
  match arr with
  | [] => []
  | [x] => x
  | x :: rest => x ++ sep ++ join sep rest
  end.

(** A non-negative integer as a template literal prints it. *)
Definition String_of_nat (n : nat) : jsstring :=
  lit (NilEmpty.string_of_uint (Nat.to_uint n)).

(* ================================================================= *)
(** ** Numbers *)

(** A non-negative integer as a binary64 Number. The engine converts its
    scores and the lengths of its arrays only; they stay far below [2^53],
    where the conversion is exact. *)
Definition Number (n : Z) : PrimFloat.float :=
  PrimFloat.of_uint63 (Uint63.of_Z n).

(** [Math.round(x)] for a finite [x]: the integer nearest to [x], the larger
    one on a tie. [Math.round] returns NaN and the infinities unchanged; they
    have no integer value and the engine never rounds one. *)
Definition Math_round (x : PrimFloat.float) : Z :=
  match FloatOps.Prim2SF x with
  | SpecFloat.S754_finite s m e =>
      let M := if s then Z.neg m else Z.pos m in
      if 0 <=? e then M * 2 ^ e
      else (2 * M + 2 ^ (- e)) / 2 ^ (1 - e)
  | _ => 0
  end.

(* ================================================================= *)
(** ** Regular expressions

    The fragment [CONFIG.STORY_FORMAT_REGEX] is written in: pattern
    characters, an optional character, and the capturing group around a
    greedy dot-star. *)

Inductive RegexNode : Type :=
| RChar (c : CodeUnit)
| ROptChar (c : CodeUnit)
| RGroupDotStar.

Record RegExp : Type := mkRegExp
  { pattern : list RegexNode;
    ignoreCase : bool }.

(** Canonicalize of a code unit under the [i] flag without [u]: upper case,
    except that a character outside ASCII is never mapped into ASCII. The
    pattern characters of the engine are ASCII, so only the ASCII part
    decides a comparison. *)
Definition Canonicalize (ic : bool) (c : CodeUnit) : CodeUnit :=
  if ic && ((0x61 <=? c) && (c <=? 0x7A))%N then (c - 0x20)%N else c.

Definition charMatches (ic : bool) (p c : CodeUnit) : bool :=
  (Canonicalize ic p =? Canonicalize ic c)%N.

(** The greedy dot-star group: take code units up to a line terminator, as many as
    the continuation [k] accepts, longest first. The result is the captured
    text with what [k] returns. *)
Fixpoint dotStar {A : Type} (k : jsstring -> option A) (input : jsstring)
  : option (jsstring * A) :=
  let stop := option_map (fun r => ([], r)) (k input) in
  match input with
  | [] => stop
  | c :: t =>
      if isLineTerminator c then stop
      else match dotStar k t with
           | Some (cap, r) => Some (c :: cap, r)
           | None => stop
           end
  end.

(** The backtracking matcher anchored at the head of [input]: the captures
    of the first successful alternative, in group order. *)
Fixpoint matchHere (ic : bool) (p : list RegexNode) (input : jsstring)
  : option (list jsstring) :=
  match p with
  | [] => Some []
  | RChar c :: p' =>
      match input with
      | x :: t => if charMatches ic c x then matchHere ic p' t else None
      | [] => None
      end
  | ROptChar c :: p' =>
      match input with
      | x :: t =>
          if charMatches ic c x then
            match matchHere ic p' t with
            | Some caps => Some caps
            | None => matchHere ic p' input
            end
          else matchHere ic p' input
      | [] => matchHere ic p' input
      end
  | RGroupDotStar :: p' =>
      option_map (fun '(cap, caps) => cap :: caps)
                 (dotStar (matchHere ic p') input)
  end.

(** The search of a regular expression without the [g] and [y] flags: the
    leftmost start position at which the pattern matches. *)
Fixpoint searchFrom (ic : bool) (p : list RegexNode) (input : jsstring)
  : option (list jsstring) :=
  match matchHere ic p input with
  | Some caps => Some caps
  | None =>
      match input with
      | [] => None
      | _ :: t => searchFrom ic p t
      end
  end.

(** [s.match(re)]: [None] is [null]; [Some caps] is the match array, of which
    the model keeps the capture groups: [caps] holds [m[1]], [m[2]], ... *)
Definition String_match (s : jsstring) (re : RegExp) : option (list jsstring) :=
  searchFrom (ignoreCase re) (pattern re) s.

(** The truthiness of what [match] returns: [null] is falsy, a match array
    is truthy. *)
Definition truthyMatch (m : option (list jsstring)) : bool :=
  match m with
  | Some _ => true
  | None => false
  end.

(** [m[i]] for a capture group index [i >= 1]. *)
Definition group (m : list jsstring) (i : nat) : option jsstring :=
  nth_error m (Nat.pred i).

Definition chars (s : string) : list RegexNode := map RChar (lit s).
Arguments chars s%_string.

(* ================================================================= *)
(** ** Values and completions *)

(** What a caller can pass: the values of a parsed JSON body, and
    [undefined] for a key that is absent. [JsObject] stands for the arrays
    and objects of the body; they carry no methods of their own. *)
Inductive JsValue : Type :=
| JsUndefined
| JsNull
| JsBoolean (b : bool)
| JsNumber (x : PrimFloat.float)
| JsString (s : jsstring)
| JsObject.

(** The truthiness test of [!v] and [if (v)]. *)
Definition ToBoolean (v : JsValue) : bool :=
  match v with
  | JsUndefined | JsNull => false
  | JsBoolean b => b
  | JsNumber x => negb (PrimFloat.eqb x PrimFloat.zero || PrimFloat.is_nan x)
  | JsString s => negb (String_eq s [])
  | JsObject => true
  end.

Inductive JsType : Type :=
| TUndefined | TObject | TBoolean | TNumber | TString.

Definition typeof (v : JsValue) : JsType :=
  match v with
  | JsUndefined => TUndefined
  | JsNull | JsObject => TObject
  | JsBoolean _ => TBoolean
  | JsNumber _ => TNumber
  | JsString _ => TString
  end.

Definition JsType_eqb (a b : JsType) : bool :=
  match a, b with
  | TUndefined, TUndefined | TObject, TObject | TBoolean, TBoolean
  | TNumber, TNumber | TString, TString => true
  | _, _ => false
  end.

Inductive JsError : Type :=
| TypeError.

Inductive Completion (A : Type) : Type :=
| Normal (a : A)
| Throw (e : JsError).
Arguments Normal {A} a.
Arguments Throw {A} e.

Definition bind {A B : Type} (c : Completion A) (k : A -> Completion B)
  : Completion B :=
  match c with
  | Normal a => k a
  | Throw e => Throw e
  end.

Notation "x <- c ;; k" := (bind c (fun x => k))
  (at level 61, c at next level, right associativity).

(** The receiver of a call [v.trim()] or [v.split(...)]: only a string has
    the method; on anything else the call throws a TypeError. *)
Definition thisString (v : JsValue) : Completion jsstring :=
  match v with
  | JsString s => Normal s
  | _ => Throw TypeError
  end.

(** [x.p] where [x] is the result of [Array.prototype.find]: reading a
    property of [undefined] throws a TypeError. *)
Definition getProp {A B : Type} (x : option A) (p : A -> B) : Completion B :=
  match x with
  | Some a => Normal (p a)
  | None => Throw TypeError
  end.

(* ================================================================= *)
(** ** CONFIG *)

Module Band.
Record t : Type := mk
  { score : Z;
    label : jsstring;
    summary : jsstring }.
End Band.

Record Thresholds : Type :=
  { SHORT_STORY_LENGTH : Z;
    LONG_STORY_LENGTH : Z;
    MAX_ACCEPTANCE_CRITERIA : Z }.

Record Keywords : Type :=
  { AMBIGUOUS : list jsstring;
    DEPENDENCIES : list jsstring;
    TECHNICAL : list jsstring;
    TESTABLE_AC : list jsstring }.

Record Scoring : Type :=
  { FORMAT_SUCCESS : Z;
    FORMAT_FAIL : Z;
    CLARITY_BASE : Z;
    CLARITY_BONUS_CONCISE : Z;
    CLARITY_BONUS_SPECIFIC : Z;
    AC_PROVIDED : Z;
    AC_EMPTY : Z;
    AC_MISSING : Z;
    AC_NON_TESTABLE_DEDUCTION : Z;
    INVEST_DEFAULT_HIGH : Z;
    INVEST_DEFAULT_MEDIUM : Z;
    INVEST_DEFAULT_LOW : Z }.

Record Config : Type :=
  { STORY_FORMAT_REGEX : RegExp;
    THRESHOLDS : Thresholds;
    KEYWORDS : Keywords;
    SCORING : Scoring;
    READINESS_CATEGORIES : list Band.t }.

(** The en dash of the four labels. *)
Definition dash : jsstring := [0x2013]%N.

Definition CONFIG : Config :=
  {| STORY_FORMAT_REGEX :=
       mkRegExp
         (chars "As a" ++ [ROptChar 0x6E%N] ++ chars " " ++ [RGroupDotStar]
          ++ chars ", I want " ++ [RGroupDotStar]
          ++ chars ", so that " ++ [RGroupDotStar])
         true;
     THRESHOLDS :=
       {| SHORT_STORY_LENGTH := 25;
          LONG_STORY_LENGTH := 200;
          MAX_ACCEPTANCE_CRITERIA := 7 |};
     KEYWORDS :=
       {| AMBIGUOUS := [lit "should"; lit "could"; lit "might"];
          DEPENDENCIES :=
            [lit "dependent on"; lit "after"; lit "following"; lit "once"];
          TECHNICAL :=
            [lit "database schema"; lit "api endpoint"; lit "react component";
             lit "algorithm"; lit "sql query"];
          TESTABLE_AC :=
            [lit "verify that"; lit "ensure that"; lit "given"; lit "when";
             lit "then"; lit "confirm that"] |};
     SCORING :=
       {| FORMAT_SUCCESS := 10;
          FORMAT_FAIL := 2;
          CLARITY_BASE := 10;
          CLARITY_BONUS_CONCISE := 5;
          CLARITY_BONUS_SPECIFIC := 5;
          AC_PROVIDED := 15;
          AC_EMPTY := 5;
          AC_MISSING := 0;
          AC_NON_TESTABLE_DEDUCTION := 5;
          INVEST_DEFAULT_HIGH := 8;
          INVEST_DEFAULT_MEDIUM := 6;
          INVEST_DEFAULT_LOW := 3 |};
     READINESS_CATEGORIES :=
       [ Band.mk 90
           ([0x2705]%N ++ lit " Excellent " ++ dash
            ++ lit " Ready for Development")
           (lit "Story is well-formed, clear, and meets all INVEST criteria. Minimal or no changes needed.");
         Band.mk 71
           ([0x26A0; 0xFE0F]%N ++ lit " At Standard Expected " ++ dash
            ++ lit " Minor Refinement Needed")
           (lit "Mostly ready with small gaps. Can be addressed quickly.");
         Band.mk 50
           ([0x2757]%N ++ lit " Requires Improvement " ++ dash
            ++ lit " Needs Refinement")
           (lit "Multiple issues present. Not ready for development without rework.");
         Band.mk 0
           ([0xD83D; 0xDEAB]%N ++ lit " Not Ready " ++ dash
            ++ lit " Fundamentally Incomplete")
           (lit "Lacks essential components. Requires major revision or clarification.") ] |}.

(* ================================================================= *)
(** ** Helper functions *)

(** [getReadinessCategory]: [find] returns [undefined] ([None]) when no band
    qualifies. *)
Definition getReadinessCategory (score : Z) : option Band.t :=
  find (fun cat => Band.score cat <=? score) (READINESS_CATEGORIES CONFIG).

Record AcAnalysis : Type :=
  { criteria : list jsstring;
    testableKeywordsFound : bool;
    nonTestableCount : Z }.

Definition noCriteria : AcAnalysis :=
  {| criteria := []; testableKeywordsFound := false; nonTestableCount := 0 |}.

(** One turn of the [forEach] callback of [analyzeAcceptanceCriteria] on the
    two counters it updates, [(nonTestableCount, testableKeywordsFound)]. *)
Definition countCriterion (st : Z * bool) (c : jsstring) : Z * bool :=
  let isTestable :=
    existsb (fun kw => includes (toLowerCase c) kw)
            (TESTABLE_AC (KEYWORDS CONFIG)) in
  if negb isTestable then (fst st + 1, snd st) else (fst st, true).

Definition analyzeAcceptanceCriteria (acceptanceCriteriaText : JsValue)
  : Completion AcAnalysis :=
  if negb (ToBoolean acceptanceCriteriaText) then Normal noCriteria
  else
    text <- thisString acceptanceCriteriaText ;;
    if String_eq (trim text) [] then Normal noCriteria
    else
      let criteria :=
        filter (fun c => negb (String_eq (trim c) [])) (split 0x0A%N text) in
      let counters := fold_left countCriterion criteria (0, false) in
      Normal {| criteria := criteria;
                testableKeywordsFound := snd counters;
                nonTestableCount := fst counters |}.

(** [a.length] of an array. *)
Definition Array_length {A : Type} (a : list A) : Z := Z.of_nat (List.length a).

(* ================================================================= *)
(** ** Core analysis functions *)

Module Clarity.
Record Item : Type := mkItem
  { score : Z;
    feedback : jsstring }.

Record Analysis : Type :=
  { total : Z;
    formatCheck : Item;
    clarityAmbiguity : Item;
    acceptanceCriteria : Item }.
End Clarity.

Module Invest.
Record Item : Type := mkItem
  { score : Z;
    justification : jsstring }.

Record Analysis : Type :=
  { total : Z;
    independent : Item;
    negotiable : Item;
    valuable : Item;
    estimable : Item;
    small : Item;
    testable : Item }.
End Invest.

(** [n > len / 2], the division and the comparison on Numbers. *)
Definition moreThanHalf (n len : Z) : bool :=
  PrimFloat.ltb (PrimFloat.div (Number len) (Number 2)) (Number n).

(** [arr.push(x)] on a local array. *)
Definition push {A : Type} (arr : list A) (x : A) : list A := arr ++ [x].

Definition analyzeClarityAndRequirement
  (story : jsstring) (acceptanceCriteriaText : JsValue)
  : Completion Clarity.Analysis :=
  let formatMatch := String_match story (STORY_FORMAT_REGEX CONFIG) in
  let formatScore :=
    if truthyMatch formatMatch then FORMAT_SUCCESS (SCORING CONFIG)
    else FORMAT_FAIL (SCORING CONFIG) in
  let formatFeedback :=
    if truthyMatch formatMatch then
      lit "Story follows the standard 'As a [persona], I want [goal], so that [value]' format."
    else
      lit "Story does not strictly follow the 'As a [persona], I want [goal], so that [value]' format. This helps ensure role, action, and benefit are clear." in
  (* Clarity & Ambiguity *)
  let clarityScore := CLARITY_BASE (SCORING CONFIG) in
  let clarityFeedbackItems : list jsstring := [] in
  let '(clarityScore, clarityFeedbackItems) :=
    if String_length story <? SHORT_STORY_LENGTH (THRESHOLDS CONFIG) then
      (clarityScore,
       push clarityFeedbackItems
         (lit "Story seems very short, ensure it's sufficiently detailed."))
    else
      (clarityScore + CLARITY_BONUS_CONCISE (SCORING CONFIG),
       clarityFeedbackItems) in
  let hasAmbiguousTerms :=
    existsb (fun term => includes (toLowerCase story) term)
            (AMBIGUOUS (KEYWORDS CONFIG)) in
  let '(clarityScore, clarityFeedbackItems) :=
    if hasAmbiguousTerms then
      (clarityScore,
       push clarityFeedbackItems
         (lit "Avoid ambiguous terms like 'should', 'could', or 'might'. Be specific."))
    else
      (clarityScore + CLARITY_BONUS_SPECIFIC (SCORING CONFIG),
       clarityFeedbackItems) in
  let clarityFinalScore := Z.min 15 clarityScore in
  let clarityFinalFeedback :=
    if 0 <? Array_length clarityFeedbackItems
    then join (lit " ") clarityFeedbackItems
    else lit "Language appears reasonably clear." in
  (* Acceptance Criteria *)
  acAnalysis <- analyzeAcceptanceCriteria acceptanceCriteriaText ;;
  let acScore := AC_MISSING (SCORING CONFIG) in
  let acFeedback :=
    lit "Acceptance criteria are missing. Clear, testable ACs are essential. Consider using the 'Given/When/Then' format." in
  let '(acScore, acFeedback) :=
    if ToBoolean acceptanceCriteriaText then
      if 0 <? Array_length (criteria acAnalysis) then
        let acScore := AC_PROVIDED (SCORING CONFIG) in
        let acFeedback :=
          lit "Acceptance criteria provided ("
          ++ String_of_nat (List.length (criteria acAnalysis))
          ++ lit " criteria found). Ensure they are specific and testable." in
        if moreThanHalf (nonTestableCount acAnalysis)
                        (Array_length (criteria acAnalysis))
        then
          (acScore - AC_NON_TESTABLE_DEDUCTION (SCORING CONFIG),
           acFeedback
           ++ lit " Some ACs may not be easily testable; consider phrasing with keywords like 'Verify that...' or using Gherkin (Given/When/Then).")
        else (acScore, acFeedback)
      else
        (AC_EMPTY (SCORING CONFIG),
         lit "Acceptance criteria section is present but empty. Please define clear, testable acceptance criteria.")
    else (acScore, acFeedback) in
  Normal
    {| Clarity.total := formatScore + clarityFinalScore + acScore;
       Clarity.formatCheck := Clarity.mkItem formatScore formatFeedback;
       Clarity.clarityAmbiguity :=
         Clarity.mkItem clarityFinalScore clarityFinalFeedback;
       Clarity.acceptanceCriteria := Clarity.mkItem acScore acFeedback |}.

(** [formatMatch[3]] inside the template literal of the "valuable"
    justification; the source evaluates it only where [hasClearValue] holds,
    that is where the match and its third group exist. *)
Definition valueClause (formatMatch : option (list jsstring)) : jsstring :=
  match formatMatch with
  | Some m => match group m 3 with Some v => v | None => [] end
  | None => []
  end.

Definition analyzeINVEST
  (story : jsstring) (acceptanceCriteriaText : JsValue)
  : Completion Invest.Analysis :=
  acAnalysis <- analyzeAcceptanceCriteria acceptanceCriteriaText ;;
  let formatMatch := String_match story (STORY_FORMAT_REGEX CONFIG) in
  let HIGH := INVEST_DEFAULT_HIGH (SCORING CONFIG) in
  let MEDIUM := INVEST_DEFAULT_MEDIUM (SCORING CONFIG) in
  let LOW := INVEST_DEFAULT_LOW (SCORING CONFIG) in
  (* Independent *)
  let hasDependencyKeywords :=
    existsb (fun term => includes (toLowerCase story) term)
            (DEPENDENCIES (KEYWORDS CONFIG)) in
  let independent :=
    Invest.mkItem
      (if hasDependencyKeywords then LOW else MEDIUM)
      (if hasDependencyKeywords then
         lit "Story may have dependencies based on keywords. Clarify if it can be worked on without external blockers."
       else
         lit "Assumed to be developable independently. Review for hidden dependencies.") in
  (* Negotiable *)
  let hasTechnicalTerms :=
    existsb (fun term => includes (toLowerCase story) term)
            (TECHNICAL (KEYWORDS CONFIG)) in
  let negotiable :=
    Invest.mkItem
      (if hasTechnicalTerms then LOW else HIGH)
      (if hasTechnicalTerms then
         lit "Story might be too prescriptive with technical details. Focus on user needs, not implementation."
       else
         lit "Story seems to describe 'what' not 'how', allowing for implementation discussion.") in
  (* Valuable *)
  let hasClearValue :=
    match formatMatch with
    | None => false
    | Some m =>
        match group m 3 with
        | None => false
        | Some v => negb (String_eq v []) && (5 <? String_length (trim v))
        end
    end in
  let valuable :=
    Invest.mkItem
      (if hasClearValue then 10 else LOW)
      (if hasClearValue then
         lit "Value proposition '" ++ valueClause formatMatch
         ++ lit "' seems clear."
       else
         lit "The 'so that [value]' part of the story is missing or unclear. State the benefit to the user or business.") in
  (* Estimable *)
  let isEstimable :=
    (0 <? Array_length (criteria acAnalysis))
    && (SHORT_STORY_LENGTH (THRESHOLDS CONFIG) <? String_length story) in
  let estimable :=
    Invest.mkItem
      (if isEstimable then HIGH else MEDIUM)
      (if isEstimable then
         lit "Story and ACs provide a solid basis for estimation."
       else
         lit "Story or ACs may be too vague or missing, making estimation difficult. Please provide more detail.") in
  (* Small *)
  let isLarge :=
    (LONG_STORY_LENGTH (THRESHOLDS CONFIG) <? String_length story)
    || (MAX_ACCEPTANCE_CRITERIA (THRESHOLDS CONFIG)
        <? Array_length (criteria acAnalysis)) in
  let small :=
    Invest.mkItem
      (if isLarge then LOW else HIGH)
      (if isLarge then
         lit "Story or number of ACs seems large. Consider if it can be broken down into smaller, valuable pieces."
       else
         lit "Story appears to be a reasonable size, likely completable within a single sprint.") in
  (* Testable *)
  let testableScore := LOW in
  let testableJustification :=
    lit "Testability cannot be assessed without clear acceptance criteria." in
  let '(testableScore, testableJustification) :=
    if 0 <? Array_length (criteria acAnalysis) then
      let testableScore :=
        if testableKeywordsFound acAnalysis then HIGH else MEDIUM in
      let testableJustification :=
        lit "Acceptance criteria provided. Ensure they are unambiguous and allow for clear pass/fail conditions." in
      if 0 <? nonTestableCount acAnalysis then
        (testableScore,
         testableJustification ++ lit " "
         ++ String_of_nat (Z.to_nat (nonTestableCount acAnalysis))
         ++ lit " AC(s) may benefit from clearer testable language (e.g., using 'Verify that...').")
      else (testableScore, testableJustification)
    else (testableScore, testableJustification) in
  let testable := Invest.mkItem testableScore testableJustification in
  let total :=
    Invest.score independent + Invest.score negotiable
    + Invest.score valuable + Invest.score estimable
    + Invest.score small + Invest.score testable in
  Normal
    {| Invest.total := total;
       Invest.independent := independent;
       Invest.negotiable := negotiable;
       Invest.valuable := valuable;
       Invest.estimable := estimable;
       Invest.small := small;
       Invest.testable := testable |}.

(* ================================================================= *)
(** ** The report *)

Module Overall.
Record ScoreBreakdown : Type :=
  { clarityRequirementAnalysis : Z;
    investCriteriaAssessment : Z }.

Record t : Type :=
  { readinessRating : Z;
    readinessCategory : jsstring;
    summary : jsstring;
    scoreBreakdown : ScoreBreakdown }.
End Overall.

(** The object under [clarityAndRequirementAnalysis]. A property that one
    of the two object literals of the source leaves out is [None]. *)
Module ClaritySection.
Record t : Type :=
  { total : option Z;
    formatCheck : Clarity.Item;
    clarityAmbiguity : Clarity.Item;
    acceptanceCriteria : Clarity.Item;
    totalScore : option Z }.
End ClaritySection.

(** The object under [investCriteriaAssessment], with the same reading of
    [None]. *)
Module InvestSection.
Record t : Type :=
  { total : option Z;
    independent : Invest.Item;
    negotiable : Invest.Item;
    valuable : Invest.Item;
    estimable : Invest.Item;
    small : Invest.Item;
    testable : Invest.Item;
    totalScore : option Z }.
End InvestSection.

Module Report.
Record Recommendations : Type :=
  { suggestedImprovements : jsstring;
    storyDecomposition : list jsstring }.

Record t : Type :=
  { error : option jsstring;
    overallReadinessScore : Overall.t;
    clarityAndRequirementAnalysis : ClaritySection.t;
    investCriteriaAssessment : InvestSection.t;
    outstandingQueriesAndConflicts : list jsstring;
    actionableRecommendations : Recommendations }.
End Report.

(** The three local arrays of [generateQueriesAndRecommendations]. *)
Record Lists : Type :=
  { queries : list jsstring;
    improvements : list jsstring;
    decomposition : list jsstring }.

Definition pushQuery (l : Lists) (x : jsstring) : Lists :=
  {| queries := push (queries l) x;
     improvements := improvements l;
     decomposition := decomposition l |}.

Definition pushImprovement (l : Lists) (x : jsstring) : Lists :=
  {| queries := queries l;
     improvements := push (improvements l) x;
     decomposition := decomposition l |}.

Definition pushDecomposition (l : Lists) (x : jsstring) : Lists :=
  {| queries := queries l;
     improvements := improvements l;
     decomposition := push (decomposition l) x |}.

(** The double quote of the template literal of the first rule. *)
Definition dquote : jsstring := [0x22]%N.

Definition generateQueriesAndRecommendations
  (story : jsstring) (clarityAnalysis : Clarity.Analysis)
  (investAnalysis : Invest.Analysis)
  : list jsstring * Report.Recommendations :=
  let l := {| queries := []; improvements := []; decomposition := [] |} in
  let l :=
    if Clarity.score (Clarity.formatCheck clarityAnalysis)
       <? FORMAT_SUCCESS (SCORING CONFIG)
    then
      pushImprovement l
        (lit "Rephrase story to fit the standard format: " ++ dquote
         ++ lit "As a [persona], I want [goal], so that [value]" ++ dquote
         ++ lit ".")
    else l in
  let l :=
    if Clarity.score (Clarity.acceptanceCriteria clarityAnalysis)
       <? AC_PROVIDED (SCORING CONFIG)
    then
      let l :=
        pushQuery l
          (lit "Could you provide or refine the acceptance criteria to be more specific and testable?") in
      pushImprovement l
        (lit "Refine ACs: "
         ++ Clarity.feedback (Clarity.acceptanceCriteria clarityAnalysis))
    else l in
  let l :=
    if Invest.score (Invest.valuable investAnalysis) <? 10 then
      let l :=
        pushQuery l
          (lit "What is the specific value or benefit this story delivers?") in
      pushImprovement l
        (lit "Clarify value: "
         ++ Invest.justification (Invest.valuable investAnalysis))
    else l in
  let l :=
    if Invest.score (Invest.small investAnalysis)
       <? INVEST_DEFAULT_HIGH (SCORING CONFIG)
    then
      let l :=
        pushQuery l
          (lit "Is this story small enough for one sprint? If not, how can it be split?") in
      let l :=
        pushImprovement l
          (lit "Consider story size: "
           ++ Invest.justification (Invest.small investAnalysis)) in
      pushDecomposition l
        (lit "If the story is too large, consider splitting it by acceptance criteria, or by sub-steps in the user's workflow. Each smaller story should still be valuable and testable.")
    else l in
  let l :=
    if Invest.score (Invest.testable investAnalysis)
       <? INVEST_DEFAULT_HIGH (SCORING CONFIG)
    then
      let l :=
        pushQuery l
          (lit "Are the success conditions clear and testable? How would you verify this story is done?") in
      pushImprovement l
        (lit "Improve testability: "
         ++ Invest.justification (Invest.testable investAnalysis))
    else l in
  let l :=
    if Invest.score (Invest.independent investAnalysis)
       <? INVEST_DEFAULT_MEDIUM (SCORING CONFIG)
    then
      let l :=
        pushQuery l
          (lit "Are there any hidden dependencies? Can this be developed independently?") in
      pushImprovement l
        (lit "Clarify independence: "
         ++ Invest.justification (Invest.independent investAnalysis))
    else l in
  (queries l,
   {| Report.suggestedImprovements :=
        if 0 <? Array_length (improvements l)
        then join [0x0A]%N (improvements l)
        else lit "Story is in good shape. No major improvements suggested.";
      Report.storyDecomposition := decomposition l |}).

(** [generateEmptyReport]; the [error] property is the one the caller adds
    in front of the spread. *)
Definition generateEmptyReport : Completion Report.t :=
  let emptySection := Clarity.mkItem 0 (lit "No story provided.") in
  let emptyInvest := Invest.mkItem 0 (lit "No story provided.") in
  notReady <- getProp (getReadinessCategory 0) Band.label ;;
  Normal
    {| Report.error := None;
       Report.overallReadinessScore :=
         {| Overall.readinessRating := 0;
            Overall.readinessCategory := notReady;
            Overall.summary :=
              lit "Story is empty or missing. Please provide a user story.";
            Overall.scoreBreakdown :=
              {| Overall.clarityRequirementAnalysis := 0;
                 Overall.investCriteriaAssessment := 0 |} |};
       Report.clarityAndRequirementAnalysis :=
         {| ClaritySection.total := None;
            ClaritySection.formatCheck := emptySection;
            ClaritySection.clarityAmbiguity := emptySection;
            ClaritySection.acceptanceCriteria := emptySection;
            ClaritySection.totalScore := None |};
       Report.investCriteriaAssessment :=
         {| InvestSection.total := None;
            InvestSection.independent := emptyInvest;
            InvestSection.negotiable := emptyInvest;
            InvestSection.valuable := emptyInvest;
            InvestSection.estimable := emptyInvest;
            InvestSection.small := emptyInvest;
            InvestSection.testable := emptyInvest;
            InvestSection.totalScore := None |};
       Report.outstandingQueriesAndConflicts :=
         [lit "What is the user story you would like to analyze?"];
       Report.actionableRecommendations :=
         {| Report.suggestedImprovements :=
              lit "Please provide the user story text.";
            Report.storyDecomposition := [] |} |}.

(** [{ error: e, ...r }]. *)
Definition withError (e : jsstring) (r : Report.t) : Report.t :=
  {| Report.error := Some e;
     Report.overallReadinessScore := Report.overallReadinessScore r;
     Report.clarityAndRequirementAnalysis :=
       Report.clarityAndRequirementAnalysis r;
     Report.investCriteriaAssessment := Report.investCriteriaAssessment r;
     Report.outstandingQueriesAndConflicts :=
       Report.outstandingQueriesAndConflicts r;
     Report.actionableRecommendations := Report.actionableRecommendations r |}.

(** [{ ...clarityAnalysis, totalScore: clarityAnalysis.total }]. *)
Definition spreadClarity (a : Clarity.Analysis) : ClaritySection.t :=
  {| ClaritySection.total := Some (Clarity.total a);
     ClaritySection.formatCheck := Clarity.formatCheck a;
     ClaritySection.clarityAmbiguity := Clarity.clarityAmbiguity a;
     ClaritySection.acceptanceCriteria := Clarity.acceptanceCriteria a;
     ClaritySection.totalScore := Some (Clarity.total a) |}.

(** [{ ...investAnalysis, totalScore: investAnalysis.total }]. *)
Definition spreadInvest (a : Invest.Analysis) : InvestSection.t :=
  {| InvestSection.total := Some (Invest.total a);
     InvestSection.independent := Invest.independent a;
     InvestSection.negotiable := Invest.negotiable a;
     InvestSection.valuable := Invest.valuable a;
     InvestSection.estimable := Invest.estimable a;
     InvestSection.small := Invest.small a;
     InvestSection.testable := Invest.testable a;
     InvestSection.totalScore := Some (Invest.total a) |}.

(** [Math.round((actualScore / totalPossibleScore) * 100)]. *)
Definition percentageOf (actualScore totalPossibleScore : Z) : Z :=
  Math_round
    (PrimFloat.mul
       (PrimFloat.div (Number actualScore) (Number totalPossibleScore))
       (Number 100)).

(** The default parameter [acceptanceCriteriaText = ""]. *)
Definition defaultTo (d : jsstring) (v : JsValue) : JsValue :=
  match v with
  | JsUndefined => JsString d
  | _ => v
  end.

(** The guard of [analyzeUserStory],
    [!story || typeof story !== 'string' || story.trim() === ''];
    the result is the story text when the guard lets it through. *)
Definition storyText (story : JsValue) : option jsstring :=
  if negb (ToBoolean story) then None
  else if negb (JsType_eqb (typeof story) TString) then None
  else match story with
       | JsString s => if String_eq (trim s) [] then None else Some s
       | _ => None
       end.

Definition analyzeUserStory (story acceptanceCriteriaText : JsValue)
  : Completion Report.t :=
  let acceptanceCriteriaText := defaultTo [] acceptanceCriteriaText in
  match storyText story with
  | None =>
      r <- generateEmptyReport ;;
      Normal
        (withError
           (lit "Story is empty or missing. Please provide a user story to analyze.")
           r)
  | Some story =>
      clarityAnalysis <-
        analyzeClarityAndRequirement story acceptanceCriteriaText ;;
      investAnalysis <- analyzeINVEST story acceptanceCriteriaText ;;
      let totalPossibleScore := 40 + 60 in
      let actualScore :=
        Clarity.total clarityAnalysis + Invest.total investAnalysis in
      let percentage := percentageOf actualScore totalPossibleScore in
      let categoryInfo := getReadinessCategory percentage in
      label <- getProp categoryInfo Band.label ;;
      summary <- getProp categoryInfo Band.summary ;;
      let overallReadiness :=
        {| Overall.readinessRating := percentage;
           Overall.readinessCategory := label;
           Overall.summary := summary;
           Overall.scoreBreakdown :=
             {| Overall.clarityRequirementAnalysis :=
                  Clarity.total clarityAnalysis;
                Overall.investCriteriaAssessment :=
                  Invest.total investAnalysis |} |} in
      let '(queries, recommendations) :=
        generateQueriesAndRecommendations
          story clarityAnalysis investAnalysis in
      Normal
        {| Report.error := None;
           Report.overallReadinessScore := overallReadiness;
           Report.clarityAndRequirementAnalysis :=
             spreadClarity clarityAnalysis;
           Report.investCriteriaAssessment := spreadInvest investAnalysis;
           Report.outstandingQueriesAndConflicts := queries;
           Report.actionableRecommendations := recommendations |}
  end.

(* ================================================================= *)
(** ** The Netlify function

    [netlify/functions/analyze-story.js], the caller of the engine. The
    parser of the host is a parameter of the handler; the response keeps the
    value that the source hands to [JSON.stringify]. *)

(** A parsed JSON text. *)
#[warnings="-register-all"]
Inductive Json : Type :=
| JNull
| JBool (b : bool)
| JNumber (x : PrimFloat.float)
| JString (s : jsstring)
| JArray (items : list Json)
| JObject (members : list (jsstring * Json)).

(** The parsed value as the engine sees it. *)
Definition valueOf (j : Json) : JsValue :=
  match j with
  | JNull => JsNull
  | JBool b => JsBoolean b
  | JNumber x => JsNumber x
  | JString s => JsString s
  | JArray _ | JObject _ => JsObject
  end.

(** The member of an object under a key; of duplicate keys [JSON.parse]
    keeps the last. *)
Definition member (members : list (jsstring * Json)) (key : jsstring)
  : option Json :=
  option_map snd (find (fun kv => String_eq (fst kv) key) (rev members)).

(** [const { key } = body]: destructuring [null] throws a TypeError; a
    value without the property gives [undefined]. *)
Definition destructure (body : Json) (key : jsstring) : Completion JsValue :=
  match body with
  | JNull => Throw TypeError
  | JObject members =>
      Normal (match member members key with
              | Some j => valueOf j
              | None => JsUndefined
              end)
  | _ => Normal JsUndefined
  end.

(** [event]: the method and the body, [None] for a body that is [null]. *)
Record Event : Type :=
  { httpMethod : jsstring;
    body : option jsstring }.

(** The value a response body is the JSON text of. *)
Inductive Payload : Type :=
| ErrorPayload (error : jsstring)
| FailurePayload (error : jsstring) (details : JsError)
| ReportPayload (report : Report.t).

Record Response : Type := mkResponse
  { statusCode : Z;
    payload : Payload;
    contentType : jsstring }.

Definition respond (status : Z) (p : Payload) : Response :=
  mkResponse status p (lit "application/json").

(** What the [try] block can throw: the SyntaxError of [JSON.parse] or an
    error of the engine. *)
Inductive Thrown : Type :=
| ThrownSyntaxError
| ThrownError (e : JsError).

(** [v || d]. *)
Definition orElse (v : JsValue) (d : JsValue) : JsValue :=
  if ToBoolean v then v else d.

(** The [try] block of the handler. *)
Definition handlerBody (JSON_parse : jsstring -> option Json) (event : Event)
  : Response + Thrown :=
  let text :=
    match body event with
    | Some b => if String_eq b [] then lit "{}" else b
    | None => lit "{}"
    end in
  match JSON_parse text with
  | None => inr ThrownSyntaxError
  | Some body =>
      match destructure body (lit "story"),
            destructure body (lit "acceptanceCriteria") with
      | Throw e, _ | _, Throw e => inr (ThrownError e)
      | Normal story, Normal acceptanceCriteria =>
          match story with
          | JsUndefined | JsNull =>
              inl (respond 400
                     (ErrorPayload (lit "Missing 'story' in request body.")))
          | _ =>
              match analyzeUserStory story
                      (orElse acceptanceCriteria (JsString [])) with
              | Normal analysisResult =>
                  inl (respond 200 (ReportPayload analysisResult))
              | Throw e => inr (ThrownError e)
              end
          end
      end
  end.

(** [exports.handler]. *)
Definition handler (JSON_parse : jsstring -> option Json) (event : Event)
  : Response :=
  if negb (String_eq (httpMethod event) (lit "POST")) then
    respond 405
      (ErrorPayload (lit "Method Not Allowed. Only POST requests are accepted."))
  else
    match handlerBody JSON_parse event with
    | inl response => response
    | inr ThrownSyntaxError =>
        respond 400 (ErrorPayload (lit "Invalid JSON in request body."))
    | inr (ThrownError e) =>
        respond 500 (FailurePayload (lit "Internal Server Error") e)
    end.

(* ================================================================= *)
(** ** Two sibling versions of the engine

    The first version of the file decides the category by a chain of
    comparisons; version 3.0.0 adds two helpers that work on the match of
    the same regular expression. *)

Module V1.
Record Category : Type := mk
  { label : jsstring;
    summary : jsstring }.

Definition getReadinessCategory (score : Z) : Category :=
  if 90 <=? score then
    mk ([0x2705]%N ++ lit " Excellent " ++ dash
        ++ lit " Ready for Development")
       (lit "Story is well-formed, clear, and meets all INVEST criteria. Minimal or no changes needed.")
  else if 71 <=? score then
    mk ([0x26A0; 0xFE0F]%N ++ lit " At Standard Expected " ++ dash
        ++ lit " Minor Refinement Needed")
       (lit "Mostly ready with small gaps. Can be addressed quickly.")
  else if 50 <=? score then
    mk ([0x2757]%N ++ lit " Requires Improvement " ++ dash
        ++ lit " Needs Refinement")
       (lit "Multiple issues present. Not ready for development without rework.")
  else
    mk ([0xD83D; 0xDEAB]%N ++ lit " Not Ready " ++ dash
        ++ lit " Fundamentally Incomplete")
       (lit "Lacks essential components. Requires major revision or clarification.").
End V1.

Module V3.
(** [inferAcceptanceCriteria]: nothing without a match or with an empty
    goal, else three criteria around the goal. *)
Definition inferAcceptanceCriteria (formatMatch : option (list jsstring))
  : list jsstring :=
  match formatMatch with
  | None => []
  | Some m =>
      match group m 2 with
      | None => []
      | Some goal =>
          if String_eq goal [] then []
          else
            [ lit "Given the user is on the relevant page, when they attempt to "
              ++ goal ++ lit ", then the expected outcome occurs.";
              lit "Given the user provides invalid input for '" ++ goal
              ++ lit "', when they submit, then a clear error message is displayed.";
              lit "Verify that the action to '" ++ goal
              ++ lit "' is logged for analytics." ]
      end
  end.

(** A capture inside a template literal; a group that is [undefined]
    prints as that word. *)
Definition printed (g : option jsstring) : jsstring :=
  match g with
  | Some x => x
  | None => lit "undefined"
  end.

(** [suggestDecomposition]: [goal.toLowerCase()] throws when the goal is
    [undefined]. *)
Definition suggestDecomposition (formatMatch : option (list jsstring))
  : Completion (list jsstring) :=
  match formatMatch with
  | None => Normal []
  | Some m =>
      let persona := printed (group m 1) in
      let value := printed (group m 3) in
      goal <- getProp (group m 2) (fun g => g) ;;
      if includes (toLowerCase goal) (lit "manage") then
        Normal
          [ lit "As a " ++ persona
            ++ lit ", I want to create a new item, so that " ++ value
            ++ lit ".";
            lit "As a " ++ persona
            ++ lit ", I want to edit an existing item, so that " ++ value
            ++ lit ".";
            lit "As a " ++ persona
            ++ lit ", I want to delete an item, so that " ++ value
            ++ lit "." ]
      else
        Normal
          [lit "Consider splitting the story by individual acceptance criteria or steps in the user workflow. Each new story should still provide value."]
  end.
End V3.

(* ================================================================= *)
(** ** The state of the module

    [userStoryAgent.js] has one module-level binding, [CONFIG], and exports
    [analyzeUserStory] alone. What a call can leave behind for the next one
    is therefore the object under [CONFIG], with the [lastIndex] of the
    regular expression object it holds. The functions of the engine are
    embedded here a second time, as the source runs them: every function
    takes the state of the module and returns it, every [CONFIG.x] is a
    read of the state at that statement, and [story.match(...)] is the
    built-in that reads and writes [lastIndex]. *)

Module Stateful.

(** The slots of a regular expression object that [RegExp] leaves out: the
    [g] and [y] flags, fixed by the literal, and [lastIndex], which the
    matching built-ins write. *)
Record RegExpSlots : Type := mkSlots
  { global : bool;
    sticky : bool;
    lastIndex : Z }.

(** The state: the object under [CONFIG], and the slots of
    [CONFIG.STORY_FORMAT_REGEX]. *)
Record Store : Type := mkStore
  { config : Config;
    regexSlots : RegExpSlots }.

(** The state after the module is loaded: the object literal of lines
    11-46; the literal [/.../i] has neither [g] nor [y], and a new regular
    expression has [lastIndex] 0. *)
Definition initial : Store :=
  {| config := CONFIG;
     regexSlots := {| global := false; sticky := false; lastIndex := 0 |} |}.

(** *** The matching built-ins (ECMAScript 2017 and later) *)

(** [matchHere] with the input that is left after the match, which tells
    where the match ends. *)
Fixpoint matchEnd (ic : bool) (p : list RegexNode) (input : jsstring)
  : option (list jsstring * jsstring) :=
  match p with
  | [] => Some ([], input)
  | RChar c :: p' =>
      match input with
      | x :: t => if charMatches ic c x then matchEnd ic p' t else None
      | [] => None
      end
  | ROptChar c :: p' =>
      match input with
      | x :: t =>
          if charMatches ic c x then
            match matchEnd ic p' t with
            | Some r => Some r
            | None => matchEnd ic p' input
            end
          else matchEnd ic p' input
      | [] => matchEnd ic p' input
      end
  | RGroupDotStar :: p' =>
      option_map (fun '(cap, (caps, rest)) => (cap :: caps, rest))
                 (dotStar (matchEnd ic p') input)
  end.

(** The loop of RegExpBuiltinExec on the input from [lastIndex] on: try the
    matcher here; when it fails, give up under the [y] flag, else move one
    code unit on, until [lastIndex] passes the end. The result is the input
    from the start of the match, the captures, and the input after it. *)
Fixpoint execLoop (ic : bool) (p : list RegexNode) (y : bool)
  (input : jsstring) : option (jsstring * list jsstring * jsstring) :=
  match matchEnd ic p input with
  | Some (caps, rest) => Some (input, caps, rest)
  | None =>
      if y then None
      else match input with
           | [] => None
           | _ :: t => execLoop ic p y t
           end
  end.

(** ToLength of an integer. *)
Definition ToLength (x : Z) : Z := Z.min (Z.max x 0) (2 ^ 53 - 1).

Definition setLastIndex (R : RegExpSlots) (i : Z) : RegExpSlots :=
  {| global := global R; sticky := sticky R; lastIndex := i |}.

(** RegExpBuiltinExec(R, S): the match, as [m[0]] and the captures, or
    [None] for [null]. [lastIndex] is read, and counts only under [g] or
    [y]; it is written only under [g] or [y]: 0 on failure, the end of the
    match on success. *)
Definition RegExpBuiltinExec (re : RegExp) (R : RegExpSlots) (S : jsstring)
  : option (jsstring * list jsstring) * RegExpSlots :=
  let length := String_length S in
  let lastIndex := ToLength (lastIndex R) in
  let lastIndex :=
    if negb (global R) && negb (sticky R) then 0 else lastIndex in
  let failure :=
    (None, if global R || sticky R then setLastIndex R 0 else R) in
  if length <? lastIndex then failure
  else
    match execLoop (ignoreCase re) (pattern re) (sticky R)
                   (skipn (Z.to_nat lastIndex) S) with
    | None => failure
    | Some (start, caps, rest) =>
        let e := length - String_length rest in
        (Some (firstn (List.length start - List.length rest) start, caps),
         if global R || sticky R then setLastIndex R e else R)
    end.

(** The loop of [RegExp.prototype[Symbol.match]] under the [g] flag: the
    texts of the successive matches; after an empty match [lastIndex] moves
    one code unit on. Every turn moves [lastIndex] forward, so the loop ends
    within [fuel] turns when [fuel] exceeds the length of [S] by two. *)
Fixpoint matchAll (fuel : nat) (re : RegExp) (R : RegExpSlots) (S : jsstring)
  (A : list jsstring) : list jsstring * RegExpSlots :=
  match fuel with
  | O => (A, R)
  | Datatypes.S fuel' =>
      let '(result, R) := RegExpBuiltinExec re R S in
      match result with
      | None => (A, R)
      | Some (matchStr, _) =>
          let A := push A matchStr in
          let R :=
            if String_eq matchStr []
            then setLastIndex R (ToLength (lastIndex R) + 1)
            else R in
          matchAll fuel' re R S A
      end
  end.

(** [RegExp.prototype[Symbol.match]], which [s.match(re)] calls. Without
    the [g] flag it is one RegExpBuiltinExec. As in [String_match], of the
    array that is returned the model keeps the elements from index 1 on. *)
Definition Symbol_match (re : RegExp) (R : RegExpSlots) (S : jsstring)
  : option (list jsstring) * RegExpSlots :=
  if negb (global R) then
    let '(result, R) := RegExpBuiltinExec re R S in
    (option_map snd result, R)
  else
    let R := setLastIndex R 0 in
    let '(A, R) :=
      matchAll (Datatypes.S (Datatypes.S (List.length S))) re R S [] in
    (match A with
     | [] => None
     | _ :: rest => Some rest
     end, R).

(** *** Computations on the state *)

(** A call: from the state before it, how it completes and the state
    after it. *)
Definition M (A : Type) : Type := Store -> Completion A * Store.

Definition ret {A : Type} (a : A) : M A := fun st => (Normal a, st).

Definition bindM {A B : Type} (m : M A) (k : A -> M B) : M B :=
  fun st =>
    match m st with
    | (Normal a, st') => k a st'
    | (Throw e, st') => (Throw e, st')
    end.

Notation "x <~ m ;; k" := (bindM m (fun x => k))
  (at level 61, m at next level, right associativity).

(** A step that does not touch the state. *)
Definition lift {A : Type} (c : Completion A) : M A := fun st => (c, st).

(** The object under [CONFIG], as the state holds it now. *)
Definition readCONFIG : M Config := fun st => (Normal (config st), st).

(** [s.match(CONFIG.STORY_FORMAT_REGEX)]. *)
Definition String_match (s : jsstring) : M (option (list jsstring)) :=
  fun st =>
    let '(m, R) :=
      Symbol_match (STORY_FORMAT_REGEX (config st)) (regexSlots st) s in
    (Normal m, {| config := config st; regexSlots := R |}).

(** [arr.forEach(f)] for a callback that updates the counters [b]. *)
Fixpoint forEach {A B : Type} (f : B -> A -> M B) (arr : list A) (b : B)
  : M B :=
  match arr with
  | [] => ret b
  | x :: rest => b' <~ f b x ;; forEach f rest b'
  end.

(** *** The functions of the engine

    In each body [CONFIG] is the variable bound by the last read of the
    state; it is read again after every call. *)

Definition getReadinessCategory (score : Z) : M (option Band.t) :=
  CONFIG <~ readCONFIG ;;
  ret (find (fun cat => Band.score cat <=? score)
            (READINESS_CATEGORIES CONFIG)).

Definition countCriterion (counters : Z * bool) (c : jsstring)
  : M (Z * bool) :=
  CONFIG <~ readCONFIG ;;
  let isTestable :=
    existsb (fun kw => includes (toLowerCase c) kw)
            (TESTABLE_AC (KEYWORDS CONFIG)) in
  ret (if negb isTestable then (fst counters + 1, snd counters)
       else (fst counters, true)).

Definition analyzeAcceptanceCriteria (acceptanceCriteriaText : JsValue)
  : M AcAnalysis :=
  if negb (ToBoolean acceptanceCriteriaText) then ret noCriteria
  else
    text <~ lift (thisString acceptanceCriteriaText) ;;
    if String_eq (trim text) [] then ret noCriteria
    else
      let criteria :=
        filter (fun c => negb (String_eq (trim c) [])) (split 0x0A%N text) in
      counters <~ forEach countCriterion criteria (0, false) ;;
      ret {| criteria := criteria;
             testableKeywordsFound := snd counters;
             nonTestableCount := fst counters |}.

Definition analyzeClarityAndRequirement
  (story : jsstring) (acceptanceCriteriaText : JsValue)
  : M Clarity.Analysis :=
  formatMatch <~ String_match story ;;
  CONFIG <~ readCONFIG ;;
  let formatScore :=
    if truthyMatch formatMatch then FORMAT_SUCCESS (SCORING CONFIG)
    else FORMAT_FAIL (SCORING CONFIG) in
  let formatFeedback :=
    if truthyMatch formatMatch then
      lit "Story follows the standard 'As a [persona], I want [goal], so that [value]' format."
    else
      lit "Story does not strictly follow the 'As a [persona], I want [goal], so that [value]' format. This helps ensure role, action, and benefit are clear." in
  (* Clarity & Ambiguity *)
  let clarityScore := CLARITY_BASE (SCORING CONFIG) in
  let clarityFeedbackItems : list jsstring := [] in
  let '(clarityScore, clarityFeedbackItems) :=
    if String_length story <? SHORT_STORY_LENGTH (THRESHOLDS CONFIG) then
      (clarityScore,
       push clarityFeedbackItems
         (lit "Story seems very short, ensure it's sufficiently detailed."))
    else
      (clarityScore + CLARITY_BONUS_CONCISE (SCORING CONFIG),
       clarityFeedbackItems) in
  let hasAmbiguousTerms :=
    existsb (fun term => includes (toLowerCase story) term)
            (AMBIGUOUS (KEYWORDS CONFIG)) in
  let '(clarityScore, clarityFeedbackItems) :=
    if hasAmbiguousTerms then
      (clarityScore,
       push clarityFeedbackItems
         (lit "Avoid ambiguous terms like 'should', 'could', or 'might'. Be specific."))
    else
      (clarityScore + CLARITY_BONUS_SPECIFIC (SCORING CONFIG),
       clarityFeedbackItems) in
  let clarityFinalScore := Z.min 15 clarityScore in
  let clarityFinalFeedback :=
    if 0 <? Array_length clarityFeedbackItems
    then join (lit " ") clarityFeedbackItems
    else lit "Language appears reasonably clear." in
  (* Acceptance Criteria *)
  acAnalysis <~ analyzeAcceptanceCriteria acceptanceCriteriaText ;;
  CONFIG <~ readCONFIG ;;
  let acScore := AC_MISSING (SCORING CONFIG) in
  let acFeedback :=
    lit "Acceptance criteria are missing. Clear, testable ACs are essential. Consider using the 'Given/When/Then' format." in
  let '(acScore, acFeedback) :=
    if ToBoolean acceptanceCriteriaText then
      if 0 <? Array_length (criteria acAnalysis) then
        let acScore := AC_PROVIDED (SCORING CONFIG) in
        let acFeedback :=
          lit "Acceptance criteria provided ("
          ++ String_of_nat (List.length (criteria acAnalysis))
          ++ lit " criteria found). Ensure they are specific and testable." in
        if moreThanHalf (nonTestableCount acAnalysis)
                        (Array_length (criteria acAnalysis))
        then
          (acScore - AC_NON_TESTABLE_DEDUCTION (SCORING CONFIG),
           acFeedback
           ++ lit " Some ACs may not be easily testable; consider phrasing with keywords like 'Verify that...' or using Gherkin (Given/When/Then).")
        else (acScore, acFeedback)
      else
        (AC_EMPTY (SCORING CONFIG),
         lit "Acceptance criteria section is present but empty. Please define clear, testable acceptance criteria.")
    else (acScore, acFeedback) in
  ret
    {| Clarity.total := formatScore + clarityFinalScore + acScore;
       Clarity.formatCheck := Clarity.mkItem formatScore formatFeedback;
       Clarity.clarityAmbiguity :=
         Clarity.mkItem clarityFinalScore clarityFinalFeedback;
       Clarity.acceptanceCriteria := Clarity.mkItem acScore acFeedback |}.

Definition analyzeINVEST
  (story : jsstring) (acceptanceCriteriaText : JsValue)
  : M Invest.Analysis :=
  acAnalysis <~ analyzeAcceptanceCriteria acceptanceCriteriaText ;;
  formatMatch <~ String_match story ;;
  CONFIG <~ readCONFIG ;;
  let HIGH := INVEST_DEFAULT_HIGH (SCORING CONFIG) in
  let MEDIUM := INVEST_DEFAULT_MEDIUM (SCORING CONFIG) in
  let LOW := INVEST_DEFAULT_LOW (SCORING CONFIG) in
  (* Independent *)
  let hasDependencyKeywords :=
    existsb (fun term => includes (toLowerCase story) term)
            (DEPENDENCIES (KEYWORDS CONFIG)) in
  let independent :=
    Invest.mkItem
      (if hasDependencyKeywords then LOW else MEDIUM)
      (if hasDependencyKeywords then
         lit "Story may have dependencies based on keywords. Clarify if it can be worked on without external blockers."
       else
         lit "Assumed to be developable independently. Review for hidden dependencies.") in
  (* Negotiable *)
  let hasTechnicalTerms :=
    existsb (fun term => includes (toLowerCase story) term)
            (TECHNICAL (KEYWORDS CONFIG)) in
  let negotiable :=
    Invest.mkItem
      (if hasTechnicalTerms then LOW else HIGH)
      (if hasTechnicalTerms then
         lit "Story might be too prescriptive with technical details. Focus on user needs, not implementation."
       else
         lit "Story seems to describe 'what' not 'how', allowing for implementation discussion.") in
  (* Valuable *)
  let hasClearValue :=
    match formatMatch with
    | None => false
    | Some m =>
        match group m 3 with
        | None => false
        | Some v => negb (String_eq v []) && (5 <? String_length (trim v))
        end
    end in
  let valuable :=
    Invest.mkItem
      (if hasClearValue then 10 else LOW)
      (if hasClearValue then
         lit "Value proposition '" ++ valueClause formatMatch
         ++ lit "' seems clear."
       else
         lit "The 'so that [value]' part of the story is missing or unclear. State the benefit to the user or business.") in
  (* Estimable *)
  let isEstimable :=
    (0 <? Array_length (criteria acAnalysis))
    && (SHORT_STORY_LENGTH (THRESHOLDS CONFIG) <? String_length story) in
  let estimable :=
    Invest.mkItem
      (if isEstimable then HIGH else MEDIUM)
      (if isEstimable then
         lit "Story and ACs provide a solid basis for estimation."
       else
         lit "Story or ACs may be too vague or missing, making estimation difficult. Please provide more detail.") in
  (* Small *)
  let isLarge :=
    (LONG_STORY_LENGTH (THRESHOLDS CONFIG) <? String_length story)
    || (MAX_ACCEPTANCE_CRITERIA (THRESHOLDS CONFIG)
        <? Array_length (criteria acAnalysis)) in
  let small :=
    Invest.mkItem
      (if isLarge then LOW else HIGH)
      (if isLarge then
         lit "Story or number of ACs seems large. Consider if it can be broken down into smaller, valuable pieces."
       else
         lit "Story appears to be a reasonable size, likely completable within a single sprint.") in
  (* Testable *)
  let testableScore := LOW in
  let testableJustification :=
    lit "Testability cannot be assessed without clear acceptance criteria." in
  let '(testableScore, testableJustification) :=
    if 0 <? Array_length (criteria acAnalysis) then
      let testableScore :=
        if testableKeywordsFound acAnalysis then HIGH else MEDIUM in
      let testableJustification :=
        lit "Acceptance criteria provided. Ensure they are unambiguous and allow for clear pass/fail conditions." in
      if 0 <? nonTestableCount acAnalysis then
        (testableScore,
         testableJustification ++ lit " "
         ++ String_of_nat (Z.to_nat (nonTestableCount acAnalysis))
         ++ lit " AC(s) may benefit from clearer testable language (e.g., using 'Verify that...').")
      else (testableScore, testableJustification)
    else (testableScore, testableJustification) in
  let testable := Invest.mkItem testableScore testableJustification in
  let total :=
    Invest.score independent + Invest.score negotiable
    + Invest.score valuable + Invest.score estimable
    + Invest.score small + Invest.score testable in
  ret
    {| Invest.total := total;
       Invest.independent := independent;
       Invest.negotiable := negotiable;
       Invest.valuable := valuable;
       Invest.estimable := estimable;
       Invest.small := small;
       Invest.testable := testable |}.

Definition generateQueriesAndRecommendations
  (story : jsstring) (clarityAnalysis : Clarity.Analysis)
  (investAnalysis : Invest.Analysis)
  : M (list jsstring * Report.Recommendations) :=
  CONFIG <~ readCONFIG ;;
  let l := {| queries := []; improvements := []; decomposition := [] |} in
  let l :=
    if Clarity.score (Clarity.formatCheck clarityAnalysis)
       <? FORMAT_SUCCESS (SCORING CONFIG)
    then
      pushImprovement l
        (lit "Rephrase story to fit the standard format: " ++ dquote
         ++ lit "As a [persona], I want [goal], so that [value]" ++ dquote
         ++ lit ".")
    else l in
  let l :=
    if Clarity.score (Clarity.acceptanceCriteria clarityAnalysis)
       <? AC_PROVIDED (SCORING CONFIG)
    then
      let l :=
        pushQuery l
          (lit "Could you provide or refine the acceptance criteria to be more specific and testable?") in
      pushImprovement l
        (lit "Refine ACs: "
         ++ Clarity.feedback (Clarity.acceptanceCriteria clarityAnalysis))
    else l in
  let l :=
    if Invest.score (Invest.valuable investAnalysis) <? 10 then
      let l :=
        pushQuery l
          (lit "What is the specific value or benefit this story delivers?") in
      pushImprovement l
        (lit "Clarify value: "
         ++ Invest.justification (Invest.valuable investAnalysis))
    else l in
  let l :=
    if Invest.score (Invest.small investAnalysis)
       <? INVEST_DEFAULT_HIGH (SCORING CONFIG)
    then
      let l :=
        pushQuery l
          (lit "Is this story small enough for one sprint? If not, how can it be split?") in
      let l :=
        pushImprovement l
          (lit "Consider story size: "
           ++ Invest.justification (Invest.small investAnalysis)) in
      pushDecomposition l
        (lit "If the story is too large, consider splitting it by acceptance criteria, or by sub-steps in the user's workflow. Each smaller story should still be valuable and testable.")
    else l in
  let l :=
    if Invest.score (Invest.testable investAnalysis)
       <? INVEST_DEFAULT_HIGH (SCORING CONFIG)
    then
      let l :=
        pushQuery l
          (lit "Are the success conditions clear and testable? How would you verify this story is done?") in
      pushImprovement l
        (lit "Improve testability: "
         ++ Invest.justification (Invest.testable investAnalysis))
    else l in
  let l :=
    if Invest.score (Invest.independent investAnalysis)
       <? INVEST_DEFAULT_MEDIUM (SCORING CONFIG)
    then
      let l :=
        pushQuery l
          (lit "Are there any hidden dependencies? Can this be developed independently?") in
      pushImprovement l
        (lit "Clarify independence: "
         ++ Invest.justification (Invest.independent investAnalysis))
    else l in
  ret
    (queries l,
     {| Report.suggestedImprovements :=
          if 0 <? Array_length (improvements l)
          then join [0x0A]%N (improvements l)
          else lit "Story is in good shape. No major improvements suggested.";
        Report.storyDecomposition := decomposition l |}).

Definition generateEmptyReport : M Report.t :=
  let emptySection := Clarity.mkItem 0 (lit "No story provided.") in
  let emptyInvest := Invest.mkItem 0 (lit "No story provided.") in
  band <~ getReadinessCategory 0 ;;
  notReady <~ lift (getProp band Band.label) ;;
  ret
    {| Report.error := None;
       Report.overallReadinessScore :=
         {| Overall.readinessRating := 0;
            Overall.readinessCategory := notReady;
            Overall.summary :=
              lit "Story is empty or missing. Please provide a user story.";
            Overall.scoreBreakdown :=
              {| Overall.clarityRequirementAnalysis := 0;
                 Overall.investCriteriaAssessment := 0 |} |};
       Report.clarityAndRequirementAnalysis :=
         {| ClaritySection.total := None;
            ClaritySection.formatCheck := emptySection;
            ClaritySection.clarityAmbiguity := emptySection;
            ClaritySection.acceptanceCriteria := emptySection;
            ClaritySection.totalScore := None |};
       Report.investCriteriaAssessment :=
         {| InvestSection.total := None;
            InvestSection.independent := emptyInvest;
            InvestSection.negotiable := emptyInvest;
            InvestSection.valuable := emptyInvest;
            InvestSection.estimable := emptyInvest;
            InvestSection.small := emptyInvest;
            InvestSection.testable := emptyInvest;
            InvestSection.totalScore := None |};
       Report.outstandingQueriesAndConflicts :=
         [lit "What is the user story you would like to analyze?"];
       Report.actionableRecommendations :=
         {| Report.suggestedImprovements :=
              lit "Please provide the user story text.";
            Report.storyDecomposition := [] |} |}.

Definition analyzeUserStory (story acceptanceCriteriaText : JsValue)
  : M Report.t :=
  let acceptanceCriteriaText := defaultTo [] acceptanceCriteriaText in
  match storyText story with
  | None =>
      r <~ generateEmptyReport ;;
      ret
        (withError
           (lit "Story is empty or missing. Please provide a user story to analyze.")
           r)
  | Some story =>
      clarityAnalysis <~
        analyzeClarityAndRequirement story acceptanceCriteriaText ;;
      investAnalysis <~ analyzeINVEST story acceptanceCriteriaText ;;
      let totalPossibleScore := 40 + 60 in
      let actualScore :=
        Clarity.total clarityAnalysis + Invest.total investAnalysis in
      let percentage := percentageOf actualScore totalPossibleScore in
      categoryInfo <~ getReadinessCategory percentage ;;
      label <~ lift (getProp categoryInfo Band.label) ;;
      summary <~ lift (getProp categoryInfo Band.summary) ;;
      let overallReadiness :=
        {| Overall.readinessRating := percentage;
           Overall.readinessCategory := label;
           Overall.summary := summary;
           Overall.scoreBreakdown :=
             {| Overall.clarityRequirementAnalysis :=
                  Clarity.total clarityAnalysis;
                Overall.investCriteriaAssessment :=
                  Invest.total investAnalysis |} |} in
      result <~
        generateQueriesAndRecommendations
          story clarityAnalysis investAnalysis ;;
      let '(queries, recommendations) := result in
      ret
        {| Report.error := None;
           Report.overallReadinessScore := overallReadiness;
           Report.clarityAndRequirementAnalysis :=
             spreadClarity clarityAnalysis;
           Report.investCriteriaAssessment := spreadInvest investAnalysis;
           Report.outstandingQueriesAndConflicts := queries;
           Report.actionableRecommendations := recommendations |}
  end.

(** The states the module can be in: the one it is loaded with, and the
    one any call of the exported function leaves. *)
Inductive reachable : Store -> Prop :=
| reachable_initial : reachable initial
| reachable_call (st : Store) (story acceptanceCriteriaText : JsValue) :
    reachable st ->
    reachable (snd (analyzeUserStory story acceptanceCriteriaText st)).

End Stateful.

(* ================================================================= *)
(** * Definitions for the properties *)

(** ** Arguments and reports *)

(** An acceptance-criteria argument that is a text, or is absent. *)
Definition textArg (ac : option jsstring) : JsValue :=
  match ac with
  | Some a => JsString a
  | None => JsUndefined
  end.

(** A story argument that is missing, is not a text, or is blank once
    trimmed. *)
Definition blankStory (story : JsValue) : Prop :=
  match story with
  | JsString s => trim s = []
  | _ => True
  end.

(** The report of the scoring path, from the two analyses and the band. *)
Definition scoredReport (s : jsstring) (cl : Clarity.Analysis)
  (inv : Invest.Analysis) (band : Band.t) : Report.t :=
  {| Report.error := None;
     Report.overallReadinessScore :=
       {| Overall.readinessRating := Clarity.total cl + Invest.total inv;
          Overall.readinessCategory := Band.label band;
          Overall.summary := Band.summary band;
          Overall.scoreBreakdown :=
            {| Overall.clarityRequirementAnalysis := Clarity.total cl;
               Overall.investCriteriaAssessment := Invest.total inv |} |};
     Report.clarityAndRequirementAnalysis := spreadClarity cl;
     Report.investCriteriaAssessment := spreadInvest inv;
     Report.outstandingQueriesAndConflicts :=
       fst (generateQueriesAndRecommendations s cl inv);
     Report.actionableRecommendations :=
       snd (generateQueriesAndRecommendations s cl inv) |}.

(** The text of the label of the lowest band. *)
Definition notReadyLabel : jsstring :=
  [0xD83D; 0xDEAB]%N ++ lit " Not Ready " ++ dash
  ++ lit " Fundamentally Incomplete".

(** The label of the highest band. *)
Definition excellentLabel : jsstring :=
  [0x2705]%N ++ lit " Excellent " ++ dash ++ lit " Ready for Development".

(** ** Scores *)

(** The percentage as the specification writes it,
    [round(100 * (clarity + invest) / 100)], in exact rational arithmetic
    with halves rounded up. *)
Definition exactPercentage (clarity invest : Z) : Z :=
  Qround.Qfloor
    (QArith_base.Qplus
       (QArith_base.Qdiv
          (QArith_base.Qmult (QArith_base.inject_Z 100)
                             (QArith_base.inject_Z (clarity + invest)))
          (QArith_base.inject_Z 100))
       (QArith_base.Qmake 1 2)).

(** What [analyzeClarityAndRequirement] guarantees about the scores of its
    result, whatever the texts are. *)
Definition clarityShape (story : jsstring) (cl : Clarity.Analysis) : Prop :=
  Clarity.total cl
  = Clarity.score (Clarity.formatCheck cl)
    + Clarity.score (Clarity.clarityAmbiguity cl)
    + Clarity.score (Clarity.acceptanceCriteria cl)
  /\ Clarity.score (Clarity.formatCheck cl)
     = (if truthyMatch (String_match story (STORY_FORMAT_REGEX CONFIG))
        then 10 else 2)
  /\ In (Clarity.score (Clarity.clarityAmbiguity cl)) [10; 15]
  /\ In (Clarity.score (Clarity.acceptanceCriteria cl)) [0; 5; 10; 15].

(** The same for [analyzeINVEST]. *)
Definition investShape (inv : Invest.Analysis) : Prop :=
  Invest.total inv
  = Invest.score (Invest.independent inv)
    + Invest.score (Invest.negotiable inv)
    + Invest.score (Invest.valuable inv)
    + Invest.score (Invest.estimable inv)
    + Invest.score (Invest.small inv)
    + Invest.score (Invest.testable inv)
  /\ In (Invest.score (Invest.independent inv)) [3; 6]
  /\ In (Invest.score (Invest.negotiable inv)) [3; 8]
  /\ In (Invest.score (Invest.valuable inv)) [3; 10]
  /\ In (Invest.score (Invest.estimable inv)) [6; 8]
  /\ In (Invest.score (Invest.small inv)) [3; 8]
  /\ In (Invest.score (Invest.testable inv)) [3; 6; 8].

(** The acceptance-criteria sub-score is decided by the second argument
    alone. *)
Definition acSubScore (v : JsValue) (acA : AcAnalysis) : Z :=
  if ToBoolean v then
    if 0 <? Array_length (criteria acA) then
      if moreThanHalf (nonTestableCount acA) (Array_length (criteria acA))
      then 10 else 15
    else 5
  else 0.

(** The two acceptance-criteria texts of the specification's example. *)
Definition gherkinCriteria : jsstring :=
  lit "Given X" ++ [0x0A]%N ++ lit "When Y" ++ [0x0A]%N ++ lit "Then Z".

Definition vagueCriteria : jsstring :=
  lit "It should just work" ++ [0x0A]%N ++ lit "Make it nice".

(** The band that [find] selects is the first of the list whose threshold
    the score reaches. *)
Definition firstBandMet (p : Z) (band : Band.t) : Prop :=
  exists before after,
    READINESS_CATEGORIES CONFIG = before ++ band :: after
    /\ Band.score band <= p
    /\ Forall (fun b => p < Band.score b) before.

(** ** The template *)

(** A text without a line terminator: what a dot-star group can capture. *)
Definition oneLine (s : jsstring) : Prop :=
  Forall (fun c => isLineTerminator c = false) s.

(** The texts a pattern matches, without reference to a search order. *)
Inductive Matches (ic : bool) : list RegexNode -> jsstring -> Prop :=
| Matches_nil : Matches ic [] []
| Matches_char (c x : CodeUnit) (p : list RegexNode) (m : jsstring) :
    charMatches ic c x = true -> Matches ic p m ->
    Matches ic (RChar c :: p) (x :: m)
| Matches_opt_one (c x : CodeUnit) (p : list RegexNode) (m : jsstring) :
    charMatches ic c x = true -> Matches ic p m ->
    Matches ic (ROptChar c :: p) (x :: m)
| Matches_opt_none (c : CodeUnit) (p : list RegexNode) (m : jsstring) :
    Matches ic p m -> Matches ic (ROptChar c :: p) m
| Matches_group (cap : jsstring) (p : list RegexNode) (m : jsstring) :
    oneLine cap -> Matches ic p m ->
    Matches ic (RGroupDotStar :: p) (cap ++ m).

(** Two texts equal up to the case of their ASCII letters. *)
Definition sameIgnoringCase (a b : jsstring) : Prop :=
  map (Canonicalize true) a = map (Canonicalize true) b.

(** The canonical template, as the specification words it: somewhere in
    the story come "As a " or "As an ", a persona, ", I want ", a goal,
    ", so that " and a value, the fixed words in any case and each of the
    three parts on one line. *)
Definition followsTemplate (story : jsstring) : Prop :=
  exists before article persona want goal sothat value after,
    story
    = before ++ article ++ persona ++ want ++ goal ++ sothat ++ value ++ after
    /\ (sameIgnoringCase article (lit "As a ")
        \/ sameIgnoringCase article (lit "As an "))
    /\ oneLine persona
    /\ sameIgnoringCase want (lit ", I want ")
    /\ oneLine goal
    /\ sameIgnoringCase sothat (lit ", so that ")
    /\ oneLine value.

(** ** Further definitions *)

(** A second argument the engine can work with: a falsy value or a text. *)
Definition falsyOrText (v : JsValue) : Prop :=
  ToBoolean v = false \/ exists a, v = JsString a.

(** The test of the [forEach] callback: the criterion holds one of the
    testable keywords, in any case. *)
Definition hasTestableKeyword (c : jsstring) : bool :=
  existsb (fun kw => includes (toLowerCase c) kw)
          (TESTABLE_AC (KEYWORDS CONFIG)).

(** The lines of a text that are not blank: the criteria of the analyzer. *)
Definition nonBlankLines (a : jsstring) : list jsstring :=
  filter (fun c => negb (String_eq (trim c) [])) (split 0x0A%N a).

(** The end of a line: nothing is left, or a line terminator comes next. *)
Definition lineEnd (rest : jsstring) : Prop :=
  match rest with
  | [] => True
  | c :: _ => isLineTerminator c = true
  end.

(** [w] occurs in [x], up to the case of ASCII letters. *)
Definition occursIgnoringCase (w x : jsstring) : Prop :=
  exists x1 w' x2, x = x1 ++ w' ++ x2 /\ sameIgnoringCase w' w.

(** The four tests of the scorers on the story text, as the source names
    them. *)
Definition hasAmbiguousTerms (story : jsstring) : bool :=
  existsb (fun term => includes (toLowerCase story) term)
          (AMBIGUOUS (KEYWORDS CONFIG)).

Definition hasDependencyKeywords (story : jsstring) : bool :=
  existsb (fun term => includes (toLowerCase story) term)
          (DEPENDENCIES (KEYWORDS CONFIG)).

Definition hasTechnicalTerms (story : jsstring) : bool :=
  existsb (fun term => includes (toLowerCase story) term)
          (TECHNICAL (KEYWORDS CONFIG)).

Definition hasClearValue (story : jsstring) : bool :=
  match String_match story (STORY_FORMAT_REGEX CONFIG) with
  | None => false
  | Some m =>
      match group m 3 with
      | None => false
      | Some v => negb (String_eq v []) && (5 <? String_length (trim v))
      end
  end.

(** The scores of the two analyses, read off the tests. *)
Definition clarityScores (s : jsstring) (v : JsValue) (acA : AcAnalysis)
  (cl : Clarity.Analysis) : Prop :=
  Clarity.score (Clarity.formatCheck cl)
  = (if truthyMatch (String_match s (STORY_FORMAT_REGEX CONFIG))
     then 10 else 2)
  /\ Clarity.score (Clarity.clarityAmbiguity cl)
     = (if (String_length s <? 25) && hasAmbiguousTerms s then 10 else 15)
  /\ Clarity.score (Clarity.acceptanceCriteria cl) = acSubScore v acA
  /\ Clarity.total cl
     = Clarity.score (Clarity.formatCheck cl)
       + Clarity.score (Clarity.clarityAmbiguity cl)
       + Clarity.score (Clarity.acceptanceCriteria cl).

Definition investScores (s : jsstring) (acA : AcAnalysis)
  (inv : Invest.Analysis) : Prop :=
  Invest.score (Invest.independent inv)
  = (if hasDependencyKeywords s then 3 else 6)
  /\ Invest.score (Invest.negotiable inv)
     = (if hasTechnicalTerms s then 3 else 8)
  /\ Invest.score (Invest.valuable inv) = (if hasClearValue s then 10 else 3)
  /\ Invest.score (Invest.estimable inv)
     = (if (0 <? Array_length (criteria acA)) && (25 <? String_length s)
        then 8 else 6)
  /\ Invest.score (Invest.small inv)
     = (if (200 <? String_length s) || (7 <? Array_length (criteria acA))
        then 3 else 8)
  /\ Invest.score (Invest.testable inv)
     = (if 0 <? Array_length (criteria acA)
        then if testableKeywordsFound acA then 8 else 6
        else 3)
  /\ Invest.total inv
     = Invest.score (Invest.independent inv)
       + Invest.score (Invest.negotiable inv)
       + Invest.score (Invest.valuable inv)
       + Invest.score (Invest.estimable inv)
       + Invest.score (Invest.small inv)
       + Invest.score (Invest.testable inv).

(** The label of the band of 71 and more. *)
Definition atStandardLabel : jsstring :=
  [0x26A0; 0xFE0F]%N ++ lit " At Standard Expected " ++ dash
  ++ lit " Minor Refinement Needed".

(** The text the recommendation generator writes when no rule fires. *)
Definition goodShapeText : jsstring :=
  lit "Story is in good shape. No major improvements suggested.".

(** The text the engine works on for an acceptance-criteria argument that
    is a text or is absent. *)
Definition acText (ac : option jsstring) : jsstring :=
  match ac with
  | Some a => a
  | None => []
  end.

(** The five queries and the decomposition hint of the recommendation
    generator. *)
Definition queryCriteria : jsstring :=
  lit "Could you provide or refine the acceptance criteria to be more specific and testable?".

Definition queryValue : jsstring :=
  lit "What is the specific value or benefit this story delivers?".

Definition querySize : jsstring :=
  lit "Is this story small enough for one sprint? If not, how can it be split?".

Definition queryTestable : jsstring :=
  lit "Are the success conditions clear and testable? How would you verify this story is done?".

Definition queryDependencies : jsstring :=
  lit "Are there any hidden dependencies? Can this be developed independently?".

Definition decompositionHint : jsstring :=
  lit "If the story is too large, consider splitting it by acceptance criteria, or by sub-steps in the user's workflow. Each smaller story should still be valuable and testable.".
(** Two results of [match] that agree up to the case of ASCII letters:
    both [null], or arrays of captures that agree one by one. *)
Definition sameMatch (m1 m2 : option (list jsstring)) : Prop :=
  match m1, m2 with
  | Some c1, Some c2 => Forall2 sameIgnoringCase c1 c2
  | None, None => True
  | _, _ => False
  end.

(** The six INVEST scores of a report, in the order of the acronym. *)
Definition investScoreList (r : Report.t) : list Z :=
  let i := Report.investCriteriaAssessment r in
  [Invest.score (InvestSection.independent i);
   Invest.score (InvestSection.negotiable i);
   Invest.score (InvestSection.valuable i);
   Invest.score (InvestSection.estimable i);
   Invest.score (InvestSection.small i);
   Invest.score (InvestSection.testable i)].






(** The text the handler parses: [event.body || '{}']. *)
Definition bodyText (event : Event) : jsstring :=
  match body event with
  | Some b => if String_eq b [] then lit "{}" else b
  | None => lit "{}"
  end.

(** The two properties the handler reads off a parsed body that is not
    [null]. *)
Definition storyOf (body : Json) : JsValue :=
  match body with
  | JObject members =>
      match member members (lit "story") with
      | Some j => valueOf j
      | None => JsUndefined
      end
  | _ => JsUndefined
  end.

Definition criteriaOf (body : Json) : JsValue :=
  match body with
  | JObject members =>
      match member members (lit "acceptanceCriteria") with
      | Some j => valueOf j
      | None => JsUndefined
      end
  | _ => JsUndefined
  end.

(** A story property that is absent or [null]. *)
Definition missingStory (story : JsValue) : bool :=
  match story with
  | JsUndefined | JsNull => true
  | _ => false
  end.

(** ** The state of the module *)

(** A state that holds the object the module was loaded with and a regular
    expression without the [g] and [y] flags, whatever its [lastIndex]. *)
Definition asLoaded (st : Stateful.Store) : Prop :=
  Stateful.config st = CONFIG
  /\ Stateful.global (Stateful.regexSlots st) = false
  /\ Stateful.sticky (Stateful.regexSlots st) = false.

(** A computation that leaves such a state as it is and completes as [c]
    does. *)
Definition completesAs {A : Type} (m : Stateful.M A) (c : Completion A)
  : Prop :=
  forall st, asLoaded st -> m st = (c, st).

(** The module with another [lastIndex], or with the [y] flag. *)
Definition withLastIndex (i : Z) : Stateful.Store :=
  {| Stateful.config := CONFIG;
     Stateful.regexSlots := Stateful.mkSlots false false i |}.

Definition withSticky (i : Z) : Stateful.Store :=
  {| Stateful.config := CONFIG;
     Stateful.regexSlots := Stateful.mkSlots false true i |}.

(* ================================================================= *)
(** * Lemmas *)

#[local] Arguments lit : simpl never.

(** ** Numbers *)

Lemma percentage_table :
  forallb (fun a => percentageOf a 100 =? a) (map Z.of_nat (seq 0 101)) = true.
Proof. vm_compute. reflexivity. Qed.

(** On the totals the engine can reach, the binary64 computation
    [Math.round((a / 100) * 100)] gives back [a]. *)
Lemma percentageOf_exact (a : Z) :
  0 <= a <= 100 -> percentageOf a 100 = a.
Proof.
  intros Ha.
  pose proof percentage_table as T.
  rewrite forallb_forall in T.
  apply Z.eqb_eq, T.
  apply in_map_iff. exists (Z.to_nat a). split; [lia|].
  apply in_seq. lia.
Qed.

Lemma exactPercentage_sum (c i : Z) : exactPercentage c i = c + i.
Proof.
  unfold exactPercentage. cbn -[Z.mul Z.add Z.div].
  symmetry. apply Z.div_unique with (r := 100); lia.
Qed.

(** ** Strings and values *)

Lemma String_eq_true (a b : jsstring) : String_eq a b = true <-> a = b.
Proof.
  unfold String_eq. destruct (list_eq_dec N.eq_dec a b); split; congruence.
Qed.

Lemma String_eq_false (a b : jsstring) : String_eq a b = false <-> a <> b.
Proof.
  unfold String_eq. destruct (list_eq_dec N.eq_dec a b); split; congruence.
Qed.

Lemma defaultTo_textArg (ac : option jsstring) :
  exists a, defaultTo [] (textArg ac) = JsString a.
Proof. destruct ac; cbn; eauto. Qed.

(** ** The format matcher *)

Section DotStar.
Context {A : Type} (k : jsstring -> option A).

Lemma dotStar_sound (input cap : jsstring) (r : A) :
  dotStar k input = Some (cap, r) ->
  exists rest, input = cap ++ rest /\ oneLine cap /\ k rest = Some r.
Proof.
  revert cap. induction input as [|c t IH]; intros cap; cbn [dotStar].
  - destruct (k []) eqn:E; cbn [option_map]; [|discriminate].
    intros [= <- <-]. exists []. repeat split; [constructor | assumption].
  - assert (Stop : option_map (fun r0 : A => ([], r0)) (k (c :: t))
                   = Some (cap, r) ->
                   exists rest,
                     c :: t = cap ++ rest /\ oneLine cap /\ k rest = Some r).
    { destruct (k (c :: t)) eqn:E; cbn [option_map]; [|discriminate].
      intros [= <- <-]. exists (c :: t).
      repeat split; [constructor | assumption]. }
    destruct (isLineTerminator c) eqn:L; [exact Stop|].
    destruct (dotStar k t) as [[cap' r']|] eqn:D; [|exact Stop].
    intros [= <- <-].
    destruct (IH _ eq_refl) as (rest & -> & O & K).
    exists rest. repeat split; [constructor|]; assumption.
Qed.

Lemma dotStar_complete (cap rest : jsstring) :
  oneLine cap -> k rest <> None -> dotStar k (cap ++ rest) <> None.
Proof.
  intros O K. induction O as [|c cap L O IH]; cbn [app].
  - destruct rest as [|c t]; cbn [dotStar].
    + destruct (k []); [discriminate | contradiction].
    + destruct (k (c :: t)); [|contradiction]. cbn [option_map].
      destruct (isLineTerminator c); [discriminate|].
      destruct (dotStar k t) as [[? ?]|]; discriminate.
  - cbn [dotStar]. rewrite L.
    destruct (dotStar k (cap ++ rest)) as [[? ?]|]; [discriminate|].
    contradiction.
Qed.
End DotStar.

Lemma matchHere_sound (ic : bool) (p : list RegexNode) :
  forall input caps,
    matchHere ic p input = Some caps ->
    exists m rest, input = m ++ rest /\ Matches ic p m.
Proof.
  induction p as [|[c|c|] p IH]; intros input caps; cbn [matchHere].
  - intros _. exists [], input. split; [reflexivity | constructor].
  - destruct input as [|x t]; [discriminate|].
    destruct (charMatches ic c x) eqn:E; [|discriminate].
    intros H. destruct (IH _ _ H) as (m & rest & -> & M).
    exists (x :: m), rest. split; [reflexivity | now constructor].
  - assert (Skip : matchHere ic p input = Some caps ->
                   exists m rest,
                     input = m ++ rest /\ Matches ic (ROptChar c :: p) m).
    { intros H. destruct (IH _ _ H) as (m & rest & -> & M).
      exists m, rest. split; [reflexivity | now constructor]. }
    destruct input as [|x t]; [exact Skip|].
    destruct (charMatches ic c x) eqn:E; [|exact Skip].
    destruct (matchHere ic p t) as [caps'|] eqn:H; [|exact Skip].
    intros _. destruct (IH _ _ H) as (m & rest & -> & M).
    exists (x :: m), rest. split; [reflexivity | now constructor].
  - destruct (dotStar (matchHere ic p) input) as [[cap caps']|] eqn:D;
      [|discriminate].
    intros _. destruct (dotStar_sound _ _ _ _ D) as (rest & -> & O & H).
    destruct (IH _ _ H) as (m & rest' & -> & M).
    exists (cap ++ m), rest'. split; [now rewrite app_assoc | now constructor].
Qed.

Lemma matchHere_complete (ic : bool) (p : list RegexNode) (m : jsstring) :
  Matches ic p m -> forall rest, matchHere ic p (m ++ rest) <> None.
Proof.
  induction 1 as [ | c x p m E M IH | c x p m E M IH | c p m M IH
                   | cap p m O M IH ]; intros rest; cbn [matchHere app].
  - discriminate.
  - rewrite E. apply IH.
  - rewrite E. specialize (IH rest).
    destruct (matchHere ic p (m ++ rest)); [discriminate | contradiction].
  - specialize (IH rest).
    destruct (m ++ rest) as [|x t]; [exact IH|].
    destruct (charMatches ic c x); [|exact IH].
    destruct (matchHere ic p t); [discriminate | exact IH].
  - rewrite <- app_assoc.
    pose proof (dotStar_complete (matchHere ic p) cap (m ++ rest) O (IH rest))
      as D.
    destruct (dotStar (matchHere ic p) (cap ++ m ++ rest)) as [[? ?]|];
      [discriminate | contradiction].
Qed.

(** [match] finds something exactly when some part of the text is matched
    by the pattern. *)
Lemma searchFrom_spec (ic : bool) (p : list RegexNode) (input : jsstring) :
  searchFrom ic p input <> None
  <-> exists before m rest, input = before ++ m ++ rest /\ Matches ic p m.
Proof.
  split.
  - induction input as [|x t IH]; cbn [searchFrom].
    + destruct (matchHere ic p []) as [caps|] eqn:H; [|contradiction].
      intros _. destruct (matchHere_sound _ _ _ _ H) as (m & rest & E & M).
      exists [], m, rest. split; assumption.
    + destruct (matchHere ic p (x :: t)) as [caps|] eqn:H.
      * intros _. destruct (matchHere_sound _ _ _ _ H) as (m & rest & E & M).
        exists [], m, rest. split; assumption.
      * intros S. destruct (IH S) as (before & m & rest & -> & M).
        exists (x :: before), m, rest. split; [reflexivity | assumption].
  - intros (before & m & rest & -> & M).
    induction before as [|x before IH]; cbn [app].
    + pose proof (matchHere_complete _ _ _ M rest) as H.
      destruct (m ++ rest); cbn [searchFrom];
        destruct (matchHere ic p _); congruence.
    + cbn [searchFrom].
      destruct (matchHere ic p (x :: before ++ m ++ rest));
        [discriminate | exact IH].
Qed.

Lemma charMatches_true (ic : bool) (c x : CodeUnit) :
  charMatches ic c x = true <-> Canonicalize ic x = Canonicalize ic c.
Proof. unfold charMatches. rewrite N.eqb_eq. split; congruence. Qed.

Lemma Matches_chars (ic : bool) (l : jsstring) (p : list RegexNode)
  (m : jsstring) :
  Matches ic (map RChar l ++ p) m
  <-> exists a b,
      m = a ++ b
      /\ map (Canonicalize ic) a = map (Canonicalize ic) l
      /\ Matches ic p b.
Proof.
  revert m. induction l as [|c l IH]; intros m; cbn [map app].
  - split.
    + intros M. exists [], m. repeat split. assumption.
    + intros (a & b & -> & E & M). destruct a; [assumption | discriminate].
  - split.
    + intros M. inversion M as [ | c' x p' m' E M' | | | ]; subst.
      apply IH in M' as (a & b & -> & Ea & Mb).
      exists (x :: a), b. repeat split; [|assumption].
      cbn [map]. apply charMatches_true in E. congruence.
    + intros (a & b & -> & E & M).
      destruct a as [|x a]; [discriminate|].
      cbn [map] in E. injection E as Ex Ea.
      cbn [app]. constructor; [now apply charMatches_true|].
      apply IH. exists a, b. repeat split; assumption.
Qed.

Lemma Matches_opt (ic : bool) (c : CodeUnit) (p : list RegexNode)
  (m : jsstring) :
  Matches ic (ROptChar c :: p) m
  <-> (exists x b,
          m = x :: b /\ Canonicalize ic x = Canonicalize ic c
          /\ Matches ic p b)
      \/ Matches ic p m.
Proof.
  split.
  - intros M. inversion M as [ | | c' x p' m' E M' | c' p' m' M' | ]; subst.
    + left. exists x, m'. apply charMatches_true in E. auto.
    + now right.
  - intros [(x & b & -> & E & M) | M].
    + apply Matches_opt_one; [now apply charMatches_true | assumption].
    + now apply Matches_opt_none.
Qed.

Lemma Matches_group_iff (ic : bool) (p : list RegexNode) (m : jsstring) :
  Matches ic (RGroupDotStar :: p) m
  <-> exists cap b, m = cap ++ b /\ oneLine cap /\ Matches ic p b.
Proof.
  split.
  - intros M. inversion M; subst. eauto.
  - intros (cap & b & -> & O & M). now constructor.
Qed.

Lemma Matches_nil_iff (ic : bool) (m : jsstring) : Matches ic [] m <-> m = [].
Proof.
  split; [intros M; now inversion M | intros ->; constructor].
Qed.

Lemma sameIgnoringCase_app (a1 a2 l1 l2 : jsstring) :
  sameIgnoringCase a1 l1 -> sameIgnoringCase a2 l2 ->
  sameIgnoringCase (a1 ++ a2) (l1 ++ l2).
Proof.
  unfold sameIgnoringCase. intros E1 E2. rewrite !map_app. congruence.
Qed.

Lemma sameIgnoringCase_split (a l1 l2 : jsstring) :
  sameIgnoringCase a (l1 ++ l2) ->
  exists a1 a2,
    a = a1 ++ a2 /\ sameIgnoringCase a1 l1 /\ sameIgnoringCase a2 l2.
Proof.
  unfold sameIgnoringCase. rewrite map_app. intros E.
  apply map_eq_app in E as (a1 & a2 & -> & E1 & E2). eauto.
Qed.

Lemma sameIgnoringCase_one (a : jsstring) (c : CodeUnit) :
  sameIgnoringCase a [c] ->
  exists x, a = [x] /\ Canonicalize true x = Canonicalize true c.
Proof.
  unfold sameIgnoringCase.
  destruct a as [|x [|y a]]; cbn [map]; try discriminate.
  intros [= E]. eauto.
Qed.

(** The texts the pattern of [CONFIG.STORY_FORMAT_REGEX] matches. *)
Lemma template_Matches (m : jsstring) :
  Matches true (pattern (STORY_FORMAT_REGEX CONFIG)) m
  <-> exists article persona want goal sothat value,
      m = article ++ persona ++ want ++ goal ++ sothat ++ value
      /\ (sameIgnoringCase article (lit "As a ")
          \/ sameIgnoringCase article (lit "As an "))
      /\ oneLine persona
      /\ sameIgnoringCase want (lit ", I want ")
      /\ oneLine goal
      /\ sameIgnoringCase sothat (lit ", so that ")
      /\ oneLine value.
Proof.
  change (pattern (STORY_FORMAT_REGEX CONFIG))
    with (map RChar (lit "As a")
          ++ ROptChar 0x6E%N
             :: map RChar (lit " ")
                ++ RGroupDotStar
                   :: map RChar (lit ", I want ")
                      ++ RGroupDotStar
                         :: map RChar (lit ", so that ")
                            ++ [RGroupDotStar]).
  split.
  - intros M.
    apply Matches_chars in M as (a1 & m1 & -> & E1 & M).
    assert (exists art m2,
               m1 = art ++ m2
               /\ (sameIgnoringCase (a1 ++ art) (lit "As a ")
                   \/ sameIgnoringCase (a1 ++ art) (lit "As an "))
               /\ Matches true
                    (RGroupDotStar
                     :: map RChar (lit ", I want ")
                        ++ RGroupDotStar
                           :: map RChar (lit ", so that ")
                              ++ [RGroupDotStar]) m2)
      as (art & m2 & -> & Hart & M2).
    { apply Matches_opt in M as [(x & b & -> & Ex & M) | M];
        apply Matches_chars in M as (a2 & m2 & -> & E2 & M).
      - exists (x :: a2), m2. split; [reflexivity|]. split; [right|assumption].
        change (lit "As an ") with (lit "As a" ++ [0x6E]%N ++ lit " ").
        apply sameIgnoringCase_app; [exact E1|].
        apply (sameIgnoringCase_app [x] a2 [0x6E]%N (lit " ")); [|exact E2].
        unfold sameIgnoringCase. cbn [map]. now rewrite Ex.
      - exists a2, m2. split; [reflexivity|]. split; [left|assumption].
        change (lit "As a ") with (lit "As a" ++ lit " ").
        now apply sameIgnoringCase_app. }
    apply Matches_group_iff in M2 as (persona & m3 & -> & O1 & M3).
    apply Matches_chars in M3 as (want & m4 & -> & E3 & M4).
    apply Matches_group_iff in M4 as (goal & m5 & -> & O2 & M5).
    apply Matches_chars in M5 as (sothat & m6 & -> & E4 & M6).
    apply Matches_group_iff in M6 as (value & m7 & -> & O3 & M7).
    apply Matches_nil_iff in M7 as ->.
    exists (a1 ++ art), persona, want, goal, sothat, value.
    rewrite app_nil_r, <- app_assoc. repeat split; assumption.
  - intros (article & persona & want & goal & sothat & value
            & -> & Hart & O1 & E3 & O2 & E4 & O3).
    assert (Tail : Matches true
                     (RGroupDotStar
                      :: map RChar (lit ", I want ")
                         ++ RGroupDotStar
                            :: map RChar (lit ", so that ")
                               ++ [RGroupDotStar])
                     (persona ++ want ++ goal ++ sothat ++ value)).
    { apply Matches_group_iff. exists persona, (want ++ goal ++ sothat ++ value).
      repeat split; [assumption|].
      apply Matches_chars. exists want, (goal ++ sothat ++ value).
      repeat split; [assumption|].
      apply Matches_group_iff. exists goal, (sothat ++ value).
      repeat split; [assumption|].
      apply Matches_chars. exists sothat, value.
      repeat split; [assumption|].
      apply Matches_group_iff. exists value, [].
      rewrite app_nil_r. repeat split; [assumption | constructor]. }
    destruct Hart as [Hart | Hart].
    + change (lit "As a ") with (lit "As a" ++ lit " ") in Hart.
      apply sameIgnoringCase_split in Hart as (a1 & a2 & -> & E1 & E2).
      rewrite <- app_assoc.
      apply Matches_chars. eexists a1, _. repeat split; [exact E1|].
      apply Matches_opt. right.
      apply Matches_chars. eexists a2, _. repeat split; [exact E2|exact Tail].
    + change (lit "As an ") with (lit "As a" ++ [0x6E]%N ++ lit " ") in Hart.
      apply sameIgnoringCase_split in Hart as (a1 & a' & -> & E1 & Hart).
      apply sameIgnoringCase_split in Hart as (ax & a2 & -> & Ex & E2).
      apply sameIgnoringCase_one in Ex as (x & -> & Ex).
      rewrite <- !app_assoc.
      apply Matches_chars. eexists a1, _. repeat split; [exact E1|].
      apply Matches_opt. left. eexists x, _. repeat split; [exact Ex|].
      apply Matches_chars. eexists a2, _. repeat split; [exact E2|exact Tail].
Qed.

(** The format matcher refines the template: [match] returns an array
    exactly for the stories that follow it. *)
Lemma String_match_template (story : jsstring) :
  truthyMatch (String_match story (STORY_FORMAT_REGEX CONFIG)) = true
  <-> followsTemplate story.
Proof.
  unfold String_match, followsTemplate.
  change (ignoreCase (STORY_FORMAT_REGEX CONFIG)) with true.
  assert (T : forall o : option (list jsstring),
             truthyMatch o = true <-> o <> None)
    by (intros [?|]; cbn; split; congruence).
  rewrite T, searchFrom_spec.
  split.
  - intros (before & m & rest & -> & M).
    apply template_Matches in M
      as (article & persona & want & goal & sothat & value & -> & H).
    exists before, article, persona, want, goal, sothat, value, rest.
    split; [|exact H]. now rewrite <- !app_assoc.
  - intros (before & article & persona & want & goal & sothat & value & after
            & -> & H).
    exists before, (article ++ persona ++ want ++ goal ++ sothat ++ value), after.
    split; [now rewrite <- !app_assoc|].
    apply template_Matches.
    exists article, persona, want, goal, sothat, value. split; [reflexivity|exact H].
Qed.

(** ** The readiness bands *)

Lemma getReadinessCategory_defined (p : Z) :
  0 <= p -> exists band, getReadinessCategory p = Some band.
Proof.
  intros Hp. unfold getReadinessCategory. cbn.
  destruct (90 <=? p); [eauto|].
  destruct (71 <=? p); [eauto|].
  destruct (50 <=? p); [eauto|].
  destruct (0 <=? p) eqn:E; [eauto|]. lia.
Qed.

Lemma getReadinessCategory_first (p : Z) (band : Band.t) :
  getReadinessCategory p = Some band -> firstBandMet p band.
Proof.
  unfold getReadinessCategory, firstBandMet.
  generalize (READINESS_CATEGORIES CONFIG) as l.
  induction l as [|b l IH]; cbn [find]; [discriminate|].
  destruct (Band.score b <=? p) eqn:E.
  - intros [= ->]. exists [], l. repeat split; [lia | constructor].
  - intros H. destruct (IH H) as (before & after & -> & Hp & Hb).
    exists (b :: before), after. repeat split; [assumption|].
    constructor; [lia | assumption].
Qed.

Lemma getReadinessCategory_In (p : Z) (band : Band.t) :
  getReadinessCategory p = Some band -> In band (READINESS_CATEGORIES CONFIG).
Proof. intros H. exact (proj1 (find_some _ _ H)). Qed.

Lemma below_90_not_excellent (p : Z) (band : Band.t) :
  p < 90 -> getReadinessCategory p = Some band ->
  Band.label band <> excellentLabel.
Proof.
  intros Hp. unfold getReadinessCategory. cbn [READINESS_CATEGORIES CONFIG find Band.score].
  destruct (90 <=? p) eqn:E; [lia|].
  destruct (71 <=? p); [intros [= <-]; vm_compute; discriminate|].
  destruct (50 <=? p); [intros [= <-]; vm_compute; discriminate|].
  destruct (0 <=? p); [intros [= <-]; vm_compute; discriminate|discriminate].
Qed.

(** ** The two analyses *)

Lemma analyzeAcceptanceCriteria_text (a : jsstring) :
  exists acA, analyzeAcceptanceCriteria (JsString a) = Normal acA.
Proof.
  unfold analyzeAcceptanceCriteria.
  destruct (negb (ToBoolean (JsString a))); [eauto|].
  cbn [thisString bind].
  destruct (String_eq (trim a) []); eauto.
Qed.

Lemma gherkinCriteria_analysis :
  analyzeAcceptanceCriteria (JsString gherkinCriteria)
  = Normal {| criteria := [lit "Given X"; lit "When Y"; lit "Then Z"];
              testableKeywordsFound := true;
              nonTestableCount := 0 |}.
Proof. vm_compute. reflexivity. Qed.

Lemma vagueCriteria_analysis :
  analyzeAcceptanceCriteria (JsString vagueCriteria)
  = Normal {| criteria := [lit "It should just work"; lit "Make it nice"];
              testableKeywordsFound := false;
              nonTestableCount := 2 |}.
Proof. vm_compute. reflexivity. Qed.

Lemma acceptanceCriteria_score (s : jsstring) (v : JsValue) (acA : AcAnalysis) :
  analyzeAcceptanceCriteria v = Normal acA ->
  exists cl,
    analyzeClarityAndRequirement s v = Normal cl
    /\ Clarity.score (Clarity.acceptanceCriteria cl) = acSubScore v acA.
Proof.
  intros E. unfold analyzeClarityAndRequirement, acSubScore.
  rewrite E. cbn [bind].
  destruct (String_length s <? _), (existsb _ _), (ToBoolean v),
    (0 <? Array_length (criteria acA)),
    (moreThanHalf (nonTestableCount acA) (Array_length (criteria acA)));
    eexists; split; reflexivity.
Qed.

Lemma analyzeClarityAndRequirement_text (s a : jsstring) :
  exists cl,
    analyzeClarityAndRequirement s (JsString a) = Normal cl
    /\ clarityShape s cl.
Proof.
  unfold analyzeClarityAndRequirement, clarityShape.
  destruct (analyzeAcceptanceCriteria_text a) as [acA ->].
  cbn [bind].
  remember (truthyMatch (String_match s (STORY_FORMAT_REGEX CONFIG))) as fm.
  destruct (String_length s <? _), (existsb _ _), (ToBoolean _);
    [ destruct (0 <? _); [ destruct (moreThanHalf _ _) | ] | ..
    | destruct (0 <? _); [ destruct (moreThanHalf _ _) | ] |
    | destruct (0 <? _); [ destruct (moreThanHalf _ _) | ] |
    | destruct (0 <? _); [ destruct (moreThanHalf _ _) | ] | ];
    (eexists; split; [reflexivity|]); cbn; destruct fm; cbn; intuition lia.
Qed.

Lemma clarityShape_range (s : jsstring) (cl : Clarity.Analysis) :
  clarityShape s cl -> 12 <= Clarity.total cl <= 40.
Proof.
  unfold clarityShape. cbn [In].
  destruct (truthyMatch _); intuition lia.
Qed.

Lemma analyzeINVEST_text (s a : jsstring) :
  exists inv, analyzeINVEST s (JsString a) = Normal inv /\ investShape inv.
Proof.
  unfold analyzeINVEST, investShape.
  destruct (analyzeAcceptanceCriteria_text a) as [acA ->].
  cbn [bind].
  destruct (0 <? Array_length (criteria acA));
    [ destruct (0 <? nonTestableCount acA) | ];
    (eexists; split; [reflexivity|]);
    cbn [Invest.total Invest.score Invest.independent Invest.negotiable
         Invest.valuable Invest.estimable Invest.small Invest.testable
         andb orb];
    repeat match goal with
           | |- context [if ?b then _ else _] => destruct b
           end;
    cbn; intuition lia.
Qed.

Lemma investShape_range (inv : Invest.Analysis) :
  investShape inv ->
  21 <= Invest.total inv <= 48 /\ Invest.score (Invest.independent inv) <= 6.
Proof. unfold investShape. cbn [In]. intuition lia. Qed.

(** ** The entry point *)

Lemma storyText_text (s : jsstring) :
  trim s <> [] -> storyText (JsString s) = Some s.
Proof.
  intros H. unfold storyText. cbn.
  destruct (String_eq s []) eqn:E.
  - apply String_eq_true in E. subst s. now destruct H.
  - cbn. apply String_eq_false in H. now rewrite H.
Qed.

(** The guard lets a story through only when it is a text that is not
    blank. *)
Lemma storyText_cases (story : JsValue) :
  storyText story = None
  \/ exists s, story = JsString s /\ trim s <> [] /\ storyText story = Some s.
Proof.
  destruct story as [ | | b | x | s | ]; try (left; unfold storyText; cbn;
    repeat match goal with |- context [if ?b then _ else _] => destruct b end;
    reflexivity).
  destruct (String_eq (trim s) []) eqn:E.
  - left. unfold storyText. cbn. rewrite E.
    now destruct (negb (negb (String_eq s []))).
  - right. exists s. apply String_eq_false in E.
    split; [reflexivity|]. split; [assumption|].
    now apply storyText_text.
Qed.

Lemma blankStory_storyText (story : JsValue) :
  blankStory story -> storyText story = None.
Proof.
  intros B. destruct (storyText_cases story) as [H | (s & -> & Hs & _)];
    [assumption | now destruct Hs].
Qed.

Lemma analyzeUserStory_scored (s : jsstring) (ac : option jsstring) :
  trim s <> [] ->
  exists a cl inv band,
    defaultTo [] (textArg ac) = JsString a
    /\ analyzeClarityAndRequirement s (JsString a) = Normal cl
    /\ clarityShape s cl
    /\ analyzeINVEST s (JsString a) = Normal inv
    /\ investShape inv
    /\ getReadinessCategory (Clarity.total cl + Invest.total inv) = Some band
    /\ analyzeUserStory (JsString s) (textArg ac)
       = Normal (scoredReport s cl inv band).
Proof.
  intros Hs.
  destruct (defaultTo_textArg ac) as [a Ha].
  destruct (analyzeClarityAndRequirement_text s a) as (cl & Hcl & Scl).
  destruct (analyzeINVEST_text s a) as (inv & Hinv & Sinv).
  pose proof (clarityShape_range _ _ Scl) as Rcl.
  pose proof (investShape_range _ Sinv) as [Rinv _].
  destruct (getReadinessCategory_defined (Clarity.total cl + Invest.total inv))
    as [band Hband]; [lia|].
  exists a, cl, inv, band. repeat (split; [assumption|]).
  unfold analyzeUserStory.
  rewrite (storyText_text s Hs), Ha, Hcl, Hinv. cbn [bind].
  change (40 + 60) with 100.
  rewrite percentageOf_exact by lia.
  rewrite Hband. cbn [getProp bind].
  unfold scoredReport.
  now destruct (generateQueriesAndRecommendations s cl inv).
Qed.

Lemma analyzeUserStory_blank (story ac : JsValue) :
  storyText story = None ->
  analyzeUserStory story ac
  = (r <- generateEmptyReport ;;
     Normal
       (withError
          (lit "Story is empty or missing. Please provide a user story to analyze.")
          r)).
Proof. intros H. unfold analyzeUserStory. now rewrite H. Qed.

(** ** The state of the module *)

Lemma dotStar_map {A B : Type} (f : A -> B) (k : jsstring -> option A)
  (k' : jsstring -> option B) (input : jsstring) :
  (forall x, k' x = option_map f (k x)) ->
  dotStar k' input
  = option_map (fun '(cap, r) => (cap, f r)) (dotStar k input).
Proof.
  intros K. induction input as [|c t IH]; cbn [dotStar].
  - rewrite K. now destruct (k []).
  - destruct (isLineTerminator c).
    + rewrite K. now destruct (k (c :: t)).
    + rewrite IH. destruct (dotStar k t) as [[cap r]|]; cbn [option_map].
      * reflexivity.
      * rewrite K. now destruct (k (c :: t)).
Qed.

Lemma matchEnd_captures (ic : bool) (p : list RegexNode) (input : jsstring) :
  matchHere ic p input = option_map fst (Stateful.matchEnd ic p input).
Proof.
  revert input. induction p as [|n p IH]; intros input; [reflexivity|].
  destruct n; cbn [matchHere Stateful.matchEnd].
  - destruct input as [|x t]; [reflexivity|].
    destruct (charMatches ic c x); [apply IH | reflexivity].
  - destruct input as [|x t]; [apply IH|].
    destruct (charMatches ic c x); [|apply IH].
    rewrite (IH t), (IH (x :: t)).
    now destruct (Stateful.matchEnd ic p t).
  - rewrite (dotStar_map fst (Stateful.matchEnd ic p) (matchHere ic p) input IH).
    now destruct (dotStar (Stateful.matchEnd ic p) input) as [[cap [caps rest]]|].
Qed.

Lemma execLoop_search (ic : bool) (p : list RegexNode) (input : jsstring) :
  searchFrom ic p input
  = option_map (fun r => snd (fst r)) (Stateful.execLoop ic p false input).
Proof.
  induction input as [|c t IH]; cbn [searchFrom Stateful.execLoop];
    rewrite matchEnd_captures;
    destruct (Stateful.matchEnd ic p _) as [[caps rest]|]; try reflexivity.
  exact IH.
Qed.

Lemma RegExpBuiltinExec_plain (re : RegExp) (R : Stateful.RegExpSlots)
  (S : jsstring) :
  Stateful.global R = false -> Stateful.sticky R = false ->
  exists result,
    Stateful.RegExpBuiltinExec re R S = (result, R)
    /\ option_map snd result = String_match S re.
Proof.
  intros G Y. unfold Stateful.RegExpBuiltinExec, String_match.
  rewrite G, Y. cbn [negb andb orb].
  replace (String_length S <? 0) with false
    by (symmetry; apply Z.ltb_ge; unfold String_length; lia).
  cbn [Z.to_nat skipn]. rewrite execLoop_search.
  destruct (Stateful.execLoop _ _ false S) as [[[start caps] rest]|];
    eexists; split; reflexivity.
Qed.

Lemma Symbol_match_plain (re : RegExp) (R : Stateful.RegExpSlots)
  (S : jsstring) :
  Stateful.global R = false -> Stateful.sticky R = false ->
  Stateful.Symbol_match re R S = (String_match S re, R).
Proof.
  intros G Y. unfold Stateful.Symbol_match. rewrite G. cbn [negb].
  destruct (RegExpBuiltinExec_plain re R S G Y) as (result & -> & <-).
  reflexivity.
Qed.

Lemma matchEnd_suffix (ic : bool) (p : list RegexNode) :
  forall input caps rest,
    Stateful.matchEnd ic p input = Some (caps, rest) ->
    exists m, input = m ++ rest.
Proof.
  induction p as [|[c|c|] p IH]; intros input caps rest;
    cbn [Stateful.matchEnd].
  - intros [= _ <-]. now exists [].
  - destruct input as [|x t]; [discriminate|].
    destruct (charMatches ic c x); [|discriminate].
    intros H. destruct (IH _ _ _ H) as (m & ->). now exists (x :: m).
  - assert (Skip : Stateful.matchEnd ic p input = Some (caps, rest) ->
                   exists m, input = m ++ rest) by apply IH.
    destruct input as [|x t]; [exact Skip|].
    destruct (charMatches ic c x); [|exact Skip].
    destruct (Stateful.matchEnd ic p t) as [[caps' rest']|] eqn:E;
      [|exact Skip].
    intros [= <- <-]. destruct (IH _ _ _ E) as (m & ->). now exists (x :: m).
  - destruct (dotStar (Stateful.matchEnd ic p) input)
      as [[cap [caps' rest']]|] eqn:D; [|discriminate].
    cbn [option_map]. intros [= _ <-].
    destruct (dotStar_sound _ _ _ _ D) as (r & -> & _ & K).
    destruct (IH _ _ _ K) as (m & ->). exists (cap ++ m).
    now rewrite app_assoc.
Qed.

Lemma execLoop_suffix (ic : bool) (p : list RegexNode) (y : bool)
  (input start rest : jsstring) (caps : list jsstring) :
  Stateful.execLoop ic p y input = Some (start, caps, rest) ->
  exists before m, input = before ++ start /\ start = m ++ rest.
Proof.
  induction input as [|x t IH]; cbn [Stateful.execLoop].
  - destruct (Stateful.matchEnd ic p []) as [[caps' rest']|] eqn:E.
    + intros [= <- <- <-]. destruct (matchEnd_suffix _ _ _ _ _ E) as (m & H).
      now exists [], m.
    + now destruct y.
  - destruct (Stateful.matchEnd ic p (x :: t)) as [[caps' rest']|] eqn:E.
    + intros [= <- <- <-]. destruct (matchEnd_suffix _ _ _ _ _ E) as (m & H).
      now exists [], m.
    + destruct y; [discriminate|]. intros H.
      destruct (IH H) as (before & m & -> & ->).
      now exists (x :: before), m.
Qed.

(** Under the [g] flag a successful RegExpBuiltinExec, followed by the step
    of the loop of [Symbol.match] after an empty match, moves [lastIndex]
    forward. *)
Lemma RegExpBuiltinExec_advances (re : RegExp) (R R' : Stateful.RegExpSlots)
  (S matchStr : jsstring) (caps : list jsstring) :
  String_length S < 2 ^ 53 - 1 ->
  Stateful.global R = true ->
  Stateful.RegExpBuiltinExec re R S = (Some (matchStr, caps), R') ->
  let R'' :=
    if String_eq matchStr []
    then Stateful.setLastIndex R'
           (Stateful.ToLength (Stateful.lastIndex R') + 1)
    else R' in
  Stateful.global R'' = true
  /\ Stateful.ToLength (Stateful.lastIndex R)
     < Stateful.ToLength (Stateful.lastIndex R'') <= String_length S + 1.
Proof.
  intros Len G. unfold Stateful.RegExpBuiltinExec. rewrite G.
  cbn [negb andb orb].
  set (li := Stateful.ToLength (Stateful.lastIndex R)).
  assert (Li : 0 <= li) by (unfold li, Stateful.ToLength; lia).
  destruct (Z.ltb_spec (String_length S) li) as [|Le]; [discriminate|].
  destruct (Stateful.execLoop _ _ _ _) as [[[start caps'] rest]|] eqn:E;
    [|discriminate].
  intros [= <- _ <-].
  destruct (execLoop_suffix _ _ _ _ _ _ _ E) as (before & m & Hs & ->).
  assert (Hl : (List.length (skipn (Z.to_nat li) S)
                = List.length before + List.length (m ++ rest))%nat)
    by (rewrite Hs; apply length_app).
  rewrite length_skipn, length_app in Hl.
  replace (List.length (m ++ rest) - List.length rest)%nat
    with (List.length m) by (rewrite length_app; lia).
  rewrite firstn_app, firstn_all, Nat.sub_diag, firstn_O, app_nil_r.
  unfold String_length in *.
  assert (T : forall x, 0 <= x <= 2 ^ 53 - 1 -> Stateful.ToLength x = x)
    by (intros x Hx; unfold Stateful.ToLength; lia).
  destruct (String_eq m []) eqn:Em.
  - apply String_eq_true in Em. subst m. cbn [List.length] in *.
    cbn [Stateful.setLastIndex Stateful.global Stateful.lastIndex].
    split; [assumption|].
    rewrite (T (Z.of_nat (List.length S) - Z.of_nat (List.length rest)))
      by lia.
    rewrite T by lia. lia.
  - apply String_eq_false in Em.
    assert (0 < List.length m)%nat by (destruct m; [contradiction | cbn; lia]).
    cbn [Stateful.setLastIndex Stateful.global Stateful.lastIndex].
    split; [assumption|]. rewrite T by lia. lia.
Qed.

(** The fuel of [Symbol_match] is never used up: more of it changes
    nothing. *)
Lemma matchAll_fuel (re : RegExp) (S : jsstring) :
  String_length S < 2 ^ 53 - 1 ->
  forall (f f' : nat) (R : Stateful.RegExpSlots) (A : list jsstring),
    Stateful.global R = true ->
    String_length S + 1 - Stateful.ToLength (Stateful.lastIndex R)
    <= Z.of_nat f ->
    (f <= f')%nat ->
    Stateful.matchAll (Datatypes.S f') re R S A
    = Stateful.matchAll (Datatypes.S f) re R S A.
Proof.
  intros Len. induction f as [|f IH]; intros f' R A G M Hf;
    cbn [Stateful.matchAll];
    destruct (Stateful.RegExpBuiltinExec re R S) as [[[matchStr caps]|] R']
      eqn:E; try reflexivity;
    destruct (RegExpBuiltinExec_advances re R R' S matchStr caps Len G E)
      as (G' & Lt & Le).
  - lia.
  - destruct f' as [|f']; [lia|].
    apply IH; [assumption | lia | lia].
Qed.

Lemma Symbol_match_fuel (re : RegExp) (R : Stateful.RegExpSlots)
  (S : jsstring) (n : nat) :
  String_length S < 2 ^ 53 - 1 ->
  Stateful.global R = true ->
  Stateful.matchAll (Datatypes.S (Datatypes.S (List.length S)) + n) re
    (Stateful.setLastIndex R 0) S []
  = Stateful.matchAll (Datatypes.S (Datatypes.S (List.length S))) re
      (Stateful.setLastIndex R 0) S [].
Proof.
  intros Len G.
  apply (matchAll_fuel re S Len (Datatypes.S (List.length S))
           (Datatypes.S (List.length S) + n)
           (Stateful.setLastIndex R 0) []);
    [exact G | | lia].
  cbn [Stateful.setLastIndex Stateful.lastIndex]. unfold String_length.
  change (Stateful.ToLength 0) with 0. lia.
Qed.

(** The built-ins on small inputs: [/a/y] on "ba" from [lastIndex] 1 and
    from 0, and ["ba".match(/a?/g)], whose array is ["", "a", ""]. *)
Example sticky_exec_succeeds :
  Stateful.RegExpBuiltinExec (mkRegExp (chars "a") false)
    (Stateful.mkSlots false true 1) (lit "ba")
  = (Some (lit "a", []), Stateful.mkSlots false true 2).
Proof. reflexivity. Qed.

Example sticky_exec_fails :
  Stateful.RegExpBuiltinExec (mkRegExp (chars "a") false)
    (Stateful.mkSlots false true 0) (lit "ba")
  = (None, Stateful.mkSlots false true 0).
Proof. reflexivity. Qed.

Example global_match_collects :
  Stateful.Symbol_match (mkRegExp [ROptChar 0x61%N] false)
    (Stateful.mkSlots true false 5) (lit "ba")
  = (Some [lit "a"; []], Stateful.mkSlots true false 0).
Proof. reflexivity. Qed.

Lemma completesAs_ret {A : Type} (a : A) :
  completesAs (Stateful.ret a) (Normal a).
Proof. intros st _. reflexivity. Qed.

Lemma completesAs_lift {A : Type} (c : Completion A) :
  completesAs (Stateful.lift c) c.
Proof. intros st _. reflexivity. Qed.

Lemma completesAs_bind {A B : Type} (m : Stateful.M A) (c : Completion A)
  (k : A -> Stateful.M B) (k' : A -> Completion B) :
  completesAs m c -> (forall a, completesAs (k a) (k' a)) ->
  completesAs (Stateful.bindM m k) (bind c k').
Proof.
  intros Hm Hk st G. unfold Stateful.bindM. rewrite (Hm st G).
  destruct c as [a|e]; [exact (Hk a st G) | reflexivity].
Qed.

Lemma completesAs_read {B : Type} (k : Config -> Stateful.M B)
  (c : Completion B) :
  completesAs (k CONFIG) c ->
  completesAs (Stateful.bindM Stateful.readCONFIG k) c.
Proof.
  intros Hk st G. unfold Stateful.bindM, Stateful.readCONFIG.
  destruct G as (C & G). rewrite C. apply Hk. now split.
Qed.

Lemma completesAs_match (s : jsstring) :
  completesAs (Stateful.String_match s)
              (Normal (String_match s (STORY_FORMAT_REGEX CONFIG))).
Proof.
  intros [cfg R] (C & G & Y). cbn in C, G, Y. subst cfg.
  unfold Stateful.String_match. cbn [Stateful.config Stateful.regexSlots].
  now rewrite (Symbol_match_plain _ R s G Y).
Qed.

Lemma completesAs_eq {A : Type} (m : Stateful.M A) (c c' : Completion A) :
  c = c' -> completesAs m c -> completesAs m c'.
Proof. now intros ->. Qed.

Lemma getReadinessCategory_completes (score : Z) :
  completesAs (Stateful.getReadinessCategory score)
              (Normal (getReadinessCategory score)).
Proof. apply completesAs_read, completesAs_ret. Qed.

Lemma forEach_countCriterion (arr : list jsstring) (b : Z * bool) :
  completesAs (Stateful.forEach Stateful.countCriterion arr b)
              (Normal (fold_left countCriterion arr b)).
Proof.
  revert b. induction arr as [|c arr IH]; intros b; cbn [Stateful.forEach fold_left].
  - apply completesAs_ret.
  - apply (completesAs_bind _ (Normal (countCriterion b c)) _
             (fun b' => Normal (fold_left countCriterion arr b'))).
    + apply completesAs_read, completesAs_ret.
    + intros b'. apply IH.
Qed.

Lemma analyzeAcceptanceCriteria_completes (ac : JsValue) :
  completesAs (Stateful.analyzeAcceptanceCriteria ac)
              (analyzeAcceptanceCriteria ac).
Proof.
  unfold Stateful.analyzeAcceptanceCriteria, analyzeAcceptanceCriteria.
  destruct (negb (ToBoolean ac)); [apply completesAs_ret|].
  apply completesAs_bind; [apply completesAs_lift|]. intros text.
  destruct (String_eq (trim text) []); [apply completesAs_ret|].
  cbv zeta.
  eapply completesAs_eq;
    [|eapply completesAs_bind;
      [apply forEach_countCriterion
      |intros counters; apply completesAs_ret]].
  reflexivity.
Qed.

Lemma completesAs_let_pair {A B C : Type} (p : A * B)
  (m : A -> B -> Stateful.M C) (c : A -> B -> Completion C) :
  (forall a b, completesAs (m a b) (c a b)) ->
  completesAs (let '(a, b) := p in m a b) (let '(a, b) := p in c a b).
Proof. intros H. destruct p as [a b]. apply H. Qed.

Lemma analyzeClarityAndRequirement_completes (story : jsstring)
  (ac : JsValue) :
  completesAs (Stateful.analyzeClarityAndRequirement story ac)
              (analyzeClarityAndRequirement story ac).
Proof.
  unfold Stateful.analyzeClarityAndRequirement.
  eapply completesAs_eq;
    [|eapply completesAs_bind;
      [apply completesAs_match
      |intros formatMatch; apply completesAs_read; cbv zeta;
       eapply completesAs_let_pair; intros clarityScore items;
       eapply completesAs_let_pair; intros clarityScore' items';
       eapply completesAs_bind;
       [apply analyzeAcceptanceCriteria_completes
       |intros acAnalysis; apply completesAs_read; cbv zeta;
        eapply completesAs_let_pair; intros acScore acFeedback;
        apply completesAs_ret]]].
  reflexivity.
Qed.

Lemma analyzeINVEST_completes (story : jsstring) (ac : JsValue) :
  completesAs (Stateful.analyzeINVEST story ac) (analyzeINVEST story ac).
Proof.
  unfold Stateful.analyzeINVEST.
  eapply completesAs_eq;
    [|eapply completesAs_bind;
      [apply analyzeAcceptanceCriteria_completes
      |intros acAnalysis; eapply completesAs_bind;
       [apply completesAs_match
       |intros formatMatch; apply completesAs_read; cbv zeta;
        eapply completesAs_let_pair; intros testableScore justification;
        apply completesAs_ret]]].
  reflexivity.
Qed.

Lemma generateQueriesAndRecommendations_completes (story : jsstring)
  (cl : Clarity.Analysis) (inv : Invest.Analysis) :
  completesAs (Stateful.generateQueriesAndRecommendations story cl inv)
              (Normal (generateQueriesAndRecommendations story cl inv)).
Proof. apply completesAs_read, completesAs_ret. Qed.

Lemma generateEmptyReport_completes :
  completesAs Stateful.generateEmptyReport generateEmptyReport.
Proof.
  unfold Stateful.generateEmptyReport.
  eapply completesAs_eq;
    [|cbv zeta; eapply completesAs_bind;
      [apply getReadinessCategory_completes
      |intros band; eapply completesAs_bind;
       [apply completesAs_lift
       |intros notReady; apply completesAs_ret]]].
  reflexivity.
Qed.

Lemma analyzeUserStory_completes (story ac : JsValue) :
  completesAs (Stateful.analyzeUserStory story ac)
              (analyzeUserStory story ac).
Proof.
  unfold Stateful.analyzeUserStory, analyzeUserStory. cbv zeta.
  destruct (storyText story) as [s|].
  - eapply completesAs_eq;
      [|eapply completesAs_bind;
        [apply analyzeClarityAndRequirement_completes
        |intros cl; eapply completesAs_bind;
         [apply analyzeINVEST_completes
         |intros inv; eapply completesAs_bind;
          [apply getReadinessCategory_completes
          |intros categoryInfo; eapply completesAs_bind;
           [apply completesAs_lift
           |intros label; eapply completesAs_bind;
            [apply completesAs_lift
            |intros summary; eapply completesAs_bind;
             [apply generateQueriesAndRecommendations_completes
             |intros result; eapply completesAs_let_pair;
              intros queries recommendations;
              apply completesAs_ret]]]]]]].
    reflexivity.
  - eapply completesAs_bind;
      [apply generateEmptyReport_completes
      |intros r; apply completesAs_ret].
Qed.

Lemma asLoaded_initial : asLoaded Stateful.initial.
Proof. repeat split. Qed.

Lemma reachable_asLoaded (st : Stateful.Store) :
  Stateful.reachable st -> asLoaded st.
Proof.
  induction 1 as [|st story ac _ IH]; [apply asLoaded_initial|].
  now rewrite (analyzeUserStory_completes story ac st IH).
Qed.

Lemma reachable_is_initial (st : Stateful.Store) :
  Stateful.reachable st -> st = Stateful.initial.
Proof.
  induction 1 as [|st story ac R IH]; [reflexivity|].
  rewrite (analyzeUserStory_completes story ac st (reachable_asLoaded st R)).
  exact IH.
Qed.

(* ================================================================= *)
(** * The properties of the specification *)

(** C1. For a story that is not blank and any acceptance-criteria text
    (given or absent) the engine returns a report whose clarity total lies
    in [12,40], whose INVEST total lies in [18,60], and whose readiness
    rating lies in [0,100] and is round(100*(clarity+invest)/100). *)
Theorem score_ranges (s : jsstring) (ac : option jsstring) :
  trim s <> [] ->
  exists r clarity invest,
    analyzeUserStory (JsString s) (textArg ac) = Normal r
    /\ ClaritySection.totalScore (Report.clarityAndRequirementAnalysis r)
       = Some clarity
    /\ InvestSection.totalScore (Report.investCriteriaAssessment r)
       = Some invest
    /\ 12 <= clarity <= 40
    /\ 18 <= invest <= 60
    /\ 0 <= Overall.readinessRating (Report.overallReadinessScore r) <= 100
    /\ Overall.readinessRating (Report.overallReadinessScore r)
       = exactPercentage clarity invest.
Proof.
  intros Hs.
  destruct (analyzeUserStory_scored s ac Hs)
    as (a & cl & inv & band & _ & _ & Scl & _ & Sinv & _ & ->).
  pose proof (clarityShape_range _ _ Scl).
  pose proof (investShape_range _ Sinv) as [? _].
  exists (scoredReport s cl inv band), (Clarity.total cl), (Invest.total inv).
  rewrite exactPercentage_sum. cbn.
  repeat split; lia.
Qed.

Lemma score_ranges_witness :
  exists r clarity invest,
    analyzeUserStory (JsString (lit "x")) (textArg None) = Normal r
    /\ ClaritySection.totalScore (Report.clarityAndRequirementAnalysis r)
       = Some clarity
    /\ InvestSection.totalScore (Report.investCriteriaAssessment r)
       = Some invest
    /\ 12 <= clarity <= 40
    /\ 18 <= invest <= 60
    /\ 0 <= Overall.readinessRating (Report.overallReadinessScore r) <= 100
    /\ Overall.readinessRating (Report.overallReadinessScore r)
       = exactPercentage clarity invest.
Proof.
  apply (score_ranges (lit "x") None). vm_compute. discriminate.
Defined.

(** The claim as the specification words it, for every story text that
    is not empty, fails on the story of one space: the guard of the entry
    point trims the story, so this text gets the report of the empty input,
    which has no total in either section and a breakdown of 0 and 0. *)
Lemma score_ranges_counterexample :
  lit " " <> []
  /\ (exists r,
        analyzeUserStory (JsString (lit " ")) (textArg None) = Normal r
        /\ ClaritySection.totalScore (Report.clarityAndRequirementAnalysis r)
           = None
        /\ InvestSection.totalScore (Report.investCriteriaAssessment r) = None
        /\ Overall.clarityRequirementAnalysis
             (Overall.scoreBreakdown (Report.overallReadinessScore r)) = 0
        /\ Overall.investCriteriaAssessment
             (Overall.scoreBreakdown (Report.overallReadinessScore r)) = 0)
  /\ ~ (exists r clarity invest,
          analyzeUserStory (JsString (lit " ")) (textArg None) = Normal r
          /\ ClaritySection.totalScore (Report.clarityAndRequirementAnalysis r)
             = Some clarity
          /\ InvestSection.totalScore (Report.investCriteriaAssessment r)
             = Some invest
          /\ 12 <= clarity <= 40
          /\ 18 <= invest <= 60
          /\ 0 <= Overall.readinessRating (Report.overallReadinessScore r)
             <= 100
          /\ Overall.readinessRating (Report.overallReadinessScore r)
             = exactPercentage clarity invest).
Proof.
  split; [discriminate|]. split.
  - eexists. split; [vm_compute; reflexivity|]. repeat split.
  - intros (r & clarity & invest & R & C & _).
    vm_compute in R. injection R as <-. discriminate C.
Qed.

(** C2. The worked example of the specification: the password-reset story
    with empty acceptance criteria. *)
Theorem password_reset_example :
  exists r,
    analyzeUserStory
      (JsString
         (lit "As a user, I want to reset my password, so that I can regain access to my account"))
      (JsString [])
    = Normal r
    /\ Clarity.score
         (ClaritySection.formatCheck (Report.clarityAndRequirementAnalysis r))
       = 10
    /\ ClaritySection.acceptanceCriteria (Report.clarityAndRequirementAnalysis r)
       = Clarity.mkItem 0
           (lit "Acceptance criteria are missing. Clear, testable ACs are essential. Consider using the 'Given/When/Then' format.")
    /\ Invest.score (InvestSection.valuable (Report.investCriteriaAssessment r))
       = 10
    /\ Invest.score
         (InvestSection.independent (Report.investCriteriaAssessment r))
       = 6
    /\ Invest.score
         (InvestSection.negotiable (Report.investCriteriaAssessment r))
       = 8
    /\ Invest.score (InvestSection.testable (Report.investCriteriaAssessment r))
       = 3
    /\ Invest.score (InvestSection.small (Report.investCriteriaAssessment r))
       = 8
    /\ Invest.score
         (InvestSection.estimable (Report.investCriteriaAssessment r))
       = 6
    /\ InvestSection.totalScore (Report.investCriteriaAssessment r) = Some 41
    /\ ClaritySection.totalScore (Report.clarityAndRequirementAnalysis r)
       = Some 25
    /\ Overall.readinessRating (Report.overallReadinessScore r) = 66
    /\ Overall.readinessCategory (Report.overallReadinessScore r)
       = [0x2757]%N ++ lit " Requires Improvement " ++ dash
         ++ lit " Needs Refinement".
Proof.
  eexists. split; [vm_compute; reflexivity|].
  vm_compute. repeat split; reflexivity.
Qed.

(** C3. A story argument that is missing, is not a text, or is blank once
    trimmed gives the fixed empty report: rating 0, the Not Ready category
    and the single query asking for the story, whatever the second
    argument is. *)
Theorem blank_story_empty_report (story ac : JsValue) :
  blankStory story ->
  exists r,
    analyzeUserStory story ac = Normal r
    /\ Overall.readinessRating (Report.overallReadinessScore r) = 0
    /\ Overall.readinessCategory (Report.overallReadinessScore r)
       = notReadyLabel
    /\ Report.outstandingQueriesAndConflicts r
       = [lit "What is the user story you would like to analyze?"]
    /\ forall ac' : JsValue, analyzeUserStory story ac' = Normal r.
Proof.
  intros B. apply blankStory_storyText in B.
  eexists. split; [rewrite (analyzeUserStory_blank _ _ B); vm_compute; reflexivity|].
  split; [reflexivity|]. split; [reflexivity|]. split; [reflexivity|].
  intros ac'. rewrite (analyzeUserStory_blank _ _ B). vm_compute. reflexivity.
Qed.

Lemma blank_story_empty_report_witness :
  exists r,
    analyzeUserStory (JsString (lit "   ")) (JsString (lit "Given X")) = Normal r
    /\ Overall.readinessRating (Report.overallReadinessScore r) = 0
    /\ Overall.readinessCategory (Report.overallReadinessScore r)
       = notReadyLabel
    /\ Report.outstandingQueriesAndConflicts r
       = [lit "What is the user story you would like to analyze?"]
    /\ forall ac' : JsValue,
        analyzeUserStory (JsString (lit "   ")) ac' = Normal r.
Proof.
  apply (blank_story_empty_report (JsString (lit "   ")) (JsString (lit "Given X"))).
  reflexivity.
Defined.

(** C4. Whatever the story argument and the acceptance-criteria text, the
    report has a rating of at most 88: the independent score is at most 6
    and the INVEST total at most 48, so the band of 90 and more, Excellent,
    is never the category. *)
Theorem rating_at_most_88 (story : JsValue) (ac : option jsstring) :
  exists r,
    analyzeUserStory story (textArg ac) = Normal r
    /\ Invest.score
         (InvestSection.independent (Report.investCriteriaAssessment r)) <= 6
    /\ Overall.investCriteriaAssessment
         (Overall.scoreBreakdown (Report.overallReadinessScore r)) <= 48
    /\ Overall.readinessRating (Report.overallReadinessScore r) <= 88
    /\ Overall.readinessCategory (Report.overallReadinessScore r)
       <> excellentLabel.
Proof.
  destruct (storyText_cases story) as [B | (s & -> & Hs & _)].
  - eexists.
    split; [rewrite (analyzeUserStory_blank _ _ B); vm_compute; reflexivity|].
    vm_compute. repeat split; discriminate.
  - destruct (analyzeUserStory_scored s ac Hs)
      as (a & cl & inv & band & _ & _ & Scl & _ & Sinv & Hband & ->).
    pose proof (clarityShape_range _ _ Scl).
    pose proof (investShape_range _ Sinv) as [? ?].
    eexists. split; [reflexivity|]. cbn.
    repeat split; try lia.
    eapply below_90_not_excellent; [|exact Hband]. lia.
Qed.

(** C5. On two texts (the second one given or absent) the engine
    completes normally; a story that is not blank gets its partial scores,
    the rating being at least 33. *)
Theorem never_throws_on_text (s : jsstring) (ac : option jsstring) :
  exists r,
    analyzeUserStory (JsString s) (textArg ac) = Normal r
    /\ (trim s <> [] ->
        Report.error r = None
        /\ 33 <= Overall.readinessRating (Report.overallReadinessScore r)).
Proof.
  destruct (storyText_cases (JsString s)) as [B | (s' & [= <-] & Hs & _)].
  - eexists.
    split; [rewrite (analyzeUserStory_blank _ _ B); vm_compute; reflexivity|].
    intros Hs. apply storyText_text in Hs. congruence.
  - destruct (analyzeUserStory_scored s ac Hs)
      as (a & cl & inv & band & _ & _ & Scl & _ & Sinv & Hband & ->).
    pose proof (clarityShape_range _ _ Scl).
    pose proof (investShape_range _ Sinv) as [? ?].
    eexists. split; [reflexivity|]. intros _. cbn. split; [reflexivity | lia].
Qed.

(** The model can throw: acceptance criteria that are a number make the
    call of [trim] fail, and a score below every threshold leaves [find]
    without a band. *)
Example throws_on_number :
  analyzeUserStory (JsString (lit "x")) (JsNumber (Number 1)) = Throw TypeError.
Proof. vm_compute. reflexivity. Qed.

Example no_band_below_zero : getReadinessCategory (-1) = None.
Proof. reflexivity. Qed.

(** C6. In the report of a story that is not blank the format sub-score
    is 10 when the story follows the canonical template, in any case of its
    fixed words, and 2 when it does not; it is never 0. *)
Theorem format_score (s : jsstring) (ac : option jsstring) :
  trim s <> [] ->
  exists r,
    analyzeUserStory (JsString s) (textArg ac) = Normal r
    /\ (followsTemplate s ->
        Clarity.score
          (ClaritySection.formatCheck (Report.clarityAndRequirementAnalysis r))
        = 10)
    /\ (~ followsTemplate s ->
        Clarity.score
          (ClaritySection.formatCheck (Report.clarityAndRequirementAnalysis r))
        = 2)
    /\ Clarity.score
         (ClaritySection.formatCheck (Report.clarityAndRequirementAnalysis r))
       <> 0.
Proof.
  intros Hs.
  destruct (analyzeUserStory_scored s ac Hs)
    as (a & cl & inv & band & _ & _ & (_ & F & _) & _ & _ & _ & ->).
  eexists. split; [reflexivity|].
  cbn [scoredReport Report.clarityAndRequirementAnalysis spreadClarity
       ClaritySection.formatCheck].
  rewrite F.
  pose proof (String_match_template s) as T.
  destruct (truthyMatch (String_match s (STORY_FORMAT_REGEX CONFIG))).
  - repeat split; [ | lia]. intros N. destruct N. now apply T.
  - repeat split; [ | lia]. intros Y. apply T in Y. discriminate.
Qed.

Lemma format_score_witness :
  followsTemplate
    (lit "AS AN admin, i WANT to reset passwords, SO THAT users regain access")
  /\ exists r,
      analyzeUserStory
        (JsString
           (lit "AS AN admin, i WANT to reset passwords, SO THAT users regain access"))
        (textArg None)
      = Normal r
      /\ Clarity.score
           (ClaritySection.formatCheck (Report.clarityAndRequirementAnalysis r))
         = 10.
Proof.
  assert (T : followsTemplate
                (lit "AS AN admin, i WANT to reset passwords, SO THAT users regain access"))
    by (apply String_match_template; vm_compute; reflexivity).
  split; [exact T|].
  destruct (format_score
              (lit "AS AN admin, i WANT to reset passwords, SO THAT users regain access")
              None) as (r & R & Y & _).
  - vm_compute. discriminate.
  - exists r. split; [exact R | exact (Y T)].
Defined.

(** The claim as the specification words it, for every story that is not
    empty, fails on the story of one space: it does not follow the
    template, and its format sub-score is the 0 of the empty report, not
    2. *)
Lemma format_score_counterexample :
  lit " " <> []
  /\ ~ followsTemplate (lit " ")
  /\ exists r,
      analyzeUserStory (JsString (lit " ")) (textArg None) = Normal r
      /\ Clarity.score
           (ClaritySection.formatCheck (Report.clarityAndRequirementAnalysis r))
         = 0.
Proof.
  split; [discriminate|]. split.
  - intros H. apply String_match_template in H. vm_compute in H.
    discriminate.
  - eexists. split; [vm_compute; reflexivity|]. reflexivity.
Qed.

(** The two sides of the template on concrete stories. *)
Example template_followed :
  followsTemplate
    (lit "As a user, I want to reset my password, so that I can regain access to my account").
Proof. apply String_match_template. vm_compute. reflexivity. Qed.

Example template_not_followed_across_lines :
  ~ followsTemplate
      (lit "As a user, I want to reset my password," ++ [0x0A]%N
       ++ lit " so that I can regain access to my account").
Proof.
  intros H. apply String_match_template in H. vm_compute in H. discriminate.
Qed.

(** C7. The three Gherkin lines score 15 as acceptance criteria, all of
    them carrying a testable keyword; the two vague lines score 10, both of
    them lacking one. This holds next to any story text, and so in the
    report of any story that is not blank. *)
Theorem acceptance_criteria_examples (s : jsstring) :
  (exists cl,
      analyzeClarityAndRequirement s (JsString gherkinCriteria) = Normal cl
      /\ Clarity.score (Clarity.acceptanceCriteria cl) = 15)
  /\ (exists cl,
        analyzeClarityAndRequirement s (JsString vagueCriteria) = Normal cl
        /\ Clarity.score (Clarity.acceptanceCriteria cl) = 10)
  /\ (exists acA,
        analyzeAcceptanceCriteria (JsString gherkinCriteria) = Normal acA
        /\ Array_length (criteria acA) = 3 /\ nonTestableCount acA = 0)
  /\ (exists acA,
        analyzeAcceptanceCriteria (JsString vagueCriteria) = Normal acA
        /\ Array_length (criteria acA) = 2 /\ nonTestableCount acA = 2)
  /\ (trim s <> [] ->
      (exists r,
          analyzeUserStory (JsString s) (JsString gherkinCriteria) = Normal r
          /\ Clarity.score
               (ClaritySection.acceptanceCriteria
                  (Report.clarityAndRequirementAnalysis r)) = 15)
      /\ (exists r,
            analyzeUserStory (JsString s) (JsString vagueCriteria) = Normal r
            /\ Clarity.score
                 (ClaritySection.acceptanceCriteria
                    (Report.clarityAndRequirementAnalysis r)) = 10)).
Proof.
  pose proof (acceptanceCriteria_score s _ _ gherkinCriteria_analysis)
    as (cl1 & E1 & S1).
  pose proof (acceptanceCriteria_score s _ _ vagueCriteria_analysis)
    as (cl2 & E2 & S2).
  change (acSubScore _ _) with 15 in S1.
  change (acSubScore _ _) with 10 in S2.
  split; [eauto|]. split; [eauto|].
  split; [rewrite gherkinCriteria_analysis; eexists; repeat split|].
  split; [rewrite vagueCriteria_analysis; eexists; repeat split|].
  intros Hs. split.
  - destruct (analyzeUserStory_scored s (Some gherkinCriteria) Hs)
      as (a & cl & inv & band & [= <-] & Hcl & _ & _ & _ & _ & Hr).
    rewrite E1 in Hcl. injection Hcl as <-.
    eexists. split; [exact Hr | exact S1].
  - destruct (analyzeUserStory_scored s (Some vagueCriteria) Hs)
      as (a & cl & inv & band & [= <-] & Hcl & _ & _ & _ & _ & Hr).
    rewrite E2 in Hcl. injection Hcl as <-.
    eexists. split; [exact Hr | exact S2].
Qed.

(** C8. For the rating of every report the classifier returns the first
    band of the list, whose thresholds are 90, 71, 50 and 0 in this order,
    that the rating reaches: one of the four fixed bands, with its label
    and summary. The report carries the label of that band and, on the
    scoring path, its summary. *)
Theorem readiness_band_selection (story : JsValue) (ac : option jsstring) :
  exists r band,
    analyzeUserStory story (textArg ac) = Normal r
    /\ map Band.score (READINESS_CATEGORIES CONFIG) = [90; 71; 50; 0]
    /\ getReadinessCategory
         (Overall.readinessRating (Report.overallReadinessScore r))
       = Some band
    /\ firstBandMet
         (Overall.readinessRating (Report.overallReadinessScore r)) band
    /\ In band (READINESS_CATEGORIES CONFIG)
    /\ Overall.readinessCategory (Report.overallReadinessScore r)
       = Band.label band
    /\ (storyText story <> None ->
        Overall.summary (Report.overallReadinessScore r) = Band.summary band).
Proof.
  destruct (storyText_cases story) as [B | (s & -> & Hs & _)].
  - destruct (getReadinessCategory_defined 0) as [band Hband]; [lia|].
    eexists. exists band.
    split; [rewrite (analyzeUserStory_blank _ _ B); vm_compute; reflexivity|].
    split; [reflexivity|].
    cbn [Overall.readinessRating Report.overallReadinessScore].
    split; [exact Hband|].
    split; [exact (getReadinessCategory_first _ _ Hband)|].
    split; [exact (getReadinessCategory_In _ _ Hband)|].
    split; [|congruence].
    revert Hband. vm_compute. now intros [= <-].
  - destruct (analyzeUserStory_scored s ac Hs)
      as (a & cl & inv & band & _ & _ & _ & _ & _ & Hband & ->).
    eexists. exists band. split; [reflexivity|].
    split; [reflexivity|].
    cbn [scoredReport Overall.readinessRating Report.overallReadinessScore
         Overall.readinessCategory Overall.summary].
    split; [exact Hband|].
    split; [exact (getReadinessCategory_first _ _ Hband)|].
    split; [exact (getReadinessCategory_In _ _ Hband)|].
    split; reflexivity.
Qed.

(** C9. Two calls of the engine with the same arguments complete in the
    same way, with reports equal in every field, whatever calls came before
    them: from every state the module can reach, a call leaves the state
    as it found it, a second call right after it completes as the first
    did, and both complete as the function [analyzeUserStory] of the other
    properties does. *)
Theorem engine_deterministic (st st' : Stateful.Store) (story ac : JsValue) :
  Stateful.reachable st -> Stateful.reachable st' ->
  fst (Stateful.analyzeUserStory story ac st)
  = fst (Stateful.analyzeUserStory story ac st')
  /\ fst (Stateful.analyzeUserStory story ac
            (snd (Stateful.analyzeUserStory story ac st)))
     = fst (Stateful.analyzeUserStory story ac st)
  /\ snd (Stateful.analyzeUserStory story ac st) = st
  /\ fst (Stateful.analyzeUserStory story ac st) = analyzeUserStory story ac.
Proof.
  intros R R'.
  rewrite (analyzeUserStory_completes story ac st (reachable_asLoaded st R)).
  rewrite (analyzeUserStory_completes story ac st' (reachable_asLoaded st' R')).
  cbn [fst snd].
  rewrite (analyzeUserStory_completes story ac st (reachable_asLoaded st R)).
  repeat split.
Qed.

Lemma engine_deterministic_witness :
  fst (Stateful.analyzeUserStory
         (JsString (lit "As a user, I want to log in, so that I can see my account"))
         (JsString (lit "Given X")) Stateful.initial)
  = fst (Stateful.analyzeUserStory
           (JsString (lit "As a user, I want to log in, so that I can see my account"))
           (JsString (lit "Given X"))
           (snd (Stateful.analyzeUserStory
                   (JsString (lit "As an admin")) JsObject Stateful.initial)))
  /\ fst (Stateful.analyzeUserStory
            (JsString (lit "As a user, I want to log in, so that I can see my account"))
            (JsString (lit "Given X"))
            (snd (Stateful.analyzeUserStory
                    (JsString (lit "As a user, I want to log in, so that I can see my account"))
                    (JsString (lit "Given X")) Stateful.initial)))
     = fst (Stateful.analyzeUserStory
              (JsString (lit "As a user, I want to log in, so that I can see my account"))
              (JsString (lit "Given X")) Stateful.initial)
  /\ snd (Stateful.analyzeUserStory
            (JsString (lit "As a user, I want to log in, so that I can see my account"))
            (JsString (lit "Given X")) Stateful.initial)
     = Stateful.initial
  /\ fst (Stateful.analyzeUserStory
            (JsString (lit "As a user, I want to log in, so that I can see my account"))
            (JsString (lit "Given X")) Stateful.initial)
     = analyzeUserStory
         (JsString (lit "As a user, I want to log in, so that I can see my account"))
         (JsString (lit "Given X")).
Proof.
  apply (engine_deterministic
           Stateful.initial
           (snd (Stateful.analyzeUserStory
                   (JsString (lit "As an admin")) JsObject Stateful.initial))
           (JsString (lit "As a user, I want to log in, so that I can see my account"))
           (JsString (lit "Given X"))).
  - apply Stateful.reachable_initial.
  - apply Stateful.reachable_call, Stateful.reachable_initial.
Defined.

(** The [lastIndex] of the regular expression does not count: without the
    [g] and [y] flags the built-in neither uses nor writes it. *)
Lemma lastIndex_is_ignored (i : Z) (story ac : JsValue) :
  Stateful.analyzeUserStory story ac (withLastIndex i)
  = (analyzeUserStory story ac, withLastIndex i).
Proof. apply analyzeUserStory_completes. repeat split. Qed.

(** What the result rests on. Were the literal [/.../iy], the first
    [match] of a call would leave [lastIndex] at the end of the story and
    the second would start there: a call that throws in between leaves that
    [lastIndex] behind, and the same story and criteria that scored 10 for
    the format before it score 2 after it. *)
Example sticky_flag_would_break_it :
  exists r1 st1 e st2 r3 st3,
    Stateful.analyzeUserStory
      (JsString (lit "As a user, I want to log in, so that I can see my account"))
      (JsString []) (withSticky 0)
    = (Normal r1, st1)
    /\ Stateful.analyzeUserStory
         (JsString (lit "As a user, I want to log in, so that I can see my account"))
         JsObject st1
       = (Throw e, st2)
    /\ Stateful.analyzeUserStory
         (JsString (lit "As a user, I want to log in, so that I can see my account"))
         (JsString []) st2
       = (Normal r3, st3)
    /\ st1 = withSticky 0
    /\ st2 = withSticky 57
    /\ Clarity.score
         (ClaritySection.formatCheck (Report.clarityAndRequirementAnalysis r1))
       = 10
    /\ Clarity.score
         (ClaritySection.formatCheck (Report.clarityAndRequirementAnalysis r3))
       = 2.
Proof.
  do 6 eexists.
  split; [vm_compute; reflexivity|].
  split; [vm_compute; reflexivity|].
  split; [vm_compute; reflexivity|].
  repeat split.
Qed.

(** C10. The report of the empty-input path has neither [totalScore]
    property, while the scoring path sets both. *)
Theorem empty_report_lacks_totalScore :
  (exists r,
      analyzeUserStory (JsString []) (JsString []) = Normal r
      /\ ClaritySection.totalScore (Report.clarityAndRequirementAnalysis r)
         = None
      /\ InvestSection.totalScore (Report.investCriteriaAssessment r) = None)
  /\ (exists r,
        analyzeUserStory (JsString (lit "x")) (JsString []) = Normal r
        /\ ClaritySection.totalScore (Report.clarityAndRequirementAnalysis r)
           = Some 17
        /\ InvestSection.totalScore (Report.investCriteriaAssessment r)
           = Some 34).
Proof.
  split; eexists; (split; [vm_compute; reflexivity|]); split; reflexivity.
Qed.

(* ================================================================= *)
(** * Further properties of the engine *)

(** ** When the engine throws *)

Lemma analyzeAcceptanceCriteria_falsyOrText (v : JsValue) :
  falsyOrText v -> exists acA, analyzeAcceptanceCriteria v = Normal acA.
Proof.
  intros [F | [a ->]]; [|apply analyzeAcceptanceCriteria_text].
  unfold analyzeAcceptanceCriteria. rewrite F. cbn. eauto.
Qed.

Lemma analyzeAcceptanceCriteria_throws (v : JsValue) :
  ~ falsyOrText v -> analyzeAcceptanceCriteria v = Throw TypeError.
Proof.
  intros N. unfold analyzeAcceptanceCriteria.
  destruct (ToBoolean v) eqn:T; [|destruct N; now left].
  destruct v; try reflexivity. destruct N. right. eauto.
Qed.

Lemma analyzeClarityAndRequirement_shape (s : jsstring) (v : JsValue)
  (acA : AcAnalysis) :
  analyzeAcceptanceCriteria v = Normal acA ->
  exists cl, analyzeClarityAndRequirement s v = Normal cl /\ clarityShape s cl.
Proof.
  intros E. unfold analyzeClarityAndRequirement, clarityShape.
  rewrite E. cbn [bind].
  remember (truthyMatch (String_match s (STORY_FORMAT_REGEX CONFIG))) as fm.
  destruct (String_length s <? _), (existsb _ _), (ToBoolean v),
    (0 <? Array_length (criteria acA)),
    (moreThanHalf (nonTestableCount acA) (Array_length (criteria acA)));
    (eexists; split; [reflexivity|]); cbn; destruct fm; cbn; intuition lia.
Qed.

Lemma analyzeINVEST_shape (s : jsstring) (v : JsValue) (acA : AcAnalysis) :
  analyzeAcceptanceCriteria v = Normal acA ->
  exists inv, analyzeINVEST s v = Normal inv /\ investShape inv.
Proof.
  intros E. unfold analyzeINVEST, investShape. rewrite E. cbn [bind].
  destruct (0 <? Array_length (criteria acA));
    [ destruct (0 <? nonTestableCount acA) | ];
    (eexists; split; [reflexivity|]);
    cbn [Invest.total Invest.score Invest.independent Invest.negotiable
         Invest.valuable Invest.estimable Invest.small Invest.testable
         andb orb];
    repeat match goal with
           | |- context [if ?b then _ else _] => destruct b
           end;
    cbn; intuition lia.
Qed.

Lemma falsyOrText_defaultTo (v : JsValue) :
  falsyOrText (defaultTo [] v) <-> falsyOrText v.
Proof.
  destruct v; cbn [defaultTo]; try tauto.
  split; intros _; [now left | right; eauto].
Qed.

Lemma storyText_None_iff (story : JsValue) :
  storyText story = None <-> blankStory story.
Proof.
  split; [|apply blankStory_storyText].
  destruct story as [ | | b | x | s | ]; cbn [blankStory]; trivial.
  intros H. destruct (list_eq_dec N.eq_dec (trim s) []) as [E|E];
    [assumption|].
  rewrite (storyText_text s E) in H. discriminate.
Qed.

Lemma analyzeUserStory_outcome (story ac : JsValue) :
  (analyzeUserStory story ac = Throw TypeError
   <-> ~ blankStory story /\ ~ falsyOrText ac)
  /\ (blankStory story \/ falsyOrText ac ->
      exists r, analyzeUserStory story ac = Normal r).
Proof.
  rewrite <- storyText_None_iff.
  assert (R : storyText story = None \/ falsyOrText ac ->
              exists r, analyzeUserStory story ac = Normal r).
  { intros H.
    destruct (storyText_cases story) as [B | (s & -> & Hs & Es)].
    - rewrite (analyzeUserStory_blank _ _ B). eexists. vm_compute. reflexivity.
    - destruct H as [H | H]; [congruence|].
      apply falsyOrText_defaultTo in H.
      destruct (analyzeAcceptanceCriteria_falsyOrText _ H) as [acA E].
      destruct (analyzeClarityAndRequirement_shape s _ _ E) as (cl & Hcl & Scl).
      destruct (analyzeINVEST_shape s _ _ E) as (inv & Hinv & Sinv).
      pose proof (clarityShape_range _ _ Scl).
      pose proof (investShape_range _ Sinv) as [? _].
      destruct (getReadinessCategory_defined
                  (Clarity.total cl + Invest.total inv)) as [band Hb]; [lia|].
      unfold analyzeUserStory. rewrite Es, Hcl, Hinv. cbn [bind].
      change (40 + 60) with 100. rewrite percentageOf_exact by lia.
      rewrite Hb. cbn [getProp bind].
      destruct (generateQueriesAndRecommendations s cl inv). eauto. }
  split; [|exact R]. split.
  - intros T. split.
    + intros B. destruct (R (or_introl B)) as [r Hr]. congruence.
    + intros F. destruct (R (or_intror F)) as [r Hr]. congruence.
  - intros [Hs N].
    destruct (storyText_cases story) as [B | (s & -> & _ & Es)]; [congruence|].
    unfold analyzeUserStory. rewrite Es.
    unfold analyzeClarityAndRequirement.
    rewrite analyzeAcceptanceCriteria_throws
      by now rewrite falsyOrText_defaultTo.
    now destruct (String_length s <? _), (existsb _ _).
Qed.

(** X1. On the values a parsed JSON body can hold, and [undefined] (the
    values of [JsValue], none of which carries a [trim] method of its own),
    the engine throws exactly when the story is a text that is not blank
    and the second argument is truthy without being a text; the exception
    is then a TypeError, and on every other pair of such values a report is
    returned. *)
Theorem engine_throws_iff (story ac : JsValue) :
  (analyzeUserStory story ac = Throw TypeError
   <-> ~ blankStory story /\ ~ falsyOrText ac)
  /\ (blankStory story \/ falsyOrText ac ->
      exists r, analyzeUserStory story ac = Normal r).
Proof. exact (analyzeUserStory_outcome story ac). Qed.

(** ** The acceptance-criteria analyzer *)

Lemma trimStart_nil_iff (s : jsstring) :
  trimStart s = [] <-> forallb isTrimmed s = true.
Proof.
  induction s as [|c t IH]; cbn [trimStart forallb]; [tauto|].
  destruct (isTrimmed c); cbn [andb]; [exact IH|].
  split; discriminate.
Qed.

Lemma trimStart_head (s : jsstring) (c : CodeUnit) (t : jsstring) :
  trimStart s = c :: t -> isTrimmed c = false.
Proof.
  induction s as [|x s IH]; cbn [trimStart]; [discriminate|].
  destruct (isTrimmed x) eqn:E; [exact IH|].
  now intros [= <- _].
Qed.

Lemma forallb_rev {A : Type} (f : A -> bool) (l : list A) :
  forallb f (rev l) = forallb f l.
Proof.
  induction l as [|x l IH]; [reflexivity|].
  cbn [rev forallb]. rewrite forallb_app, IH. cbn. now rewrite andb_true_r, andb_comm.
Qed.

(** [trim] leaves nothing exactly of the texts made of white space and
    line terminators. *)
Lemma trim_nil_iff (s : jsstring) :
  trim s = [] <-> forallb isTrimmed s = true.
Proof.
  unfold trim, trimEnd. rewrite <- trimStart_nil_iff.
  split.
  - intros H. apply (f_equal (@rev _)) in H. rewrite rev_involutive in H.
    cbn in H. apply trimStart_nil_iff in H. rewrite forallb_rev in H.
    destruct (trimStart s) as [|c t] eqn:E; [reflexivity|].
    apply trimStart_head in E. cbn in H. now rewrite E in H.
  - intros ->. reflexivity.
Qed.

Lemma split_nonempty (sep : CodeUnit) (s : jsstring) : split sep s <> [].
Proof.
  destruct s as [|c t]; cbn [split]; [discriminate|].
  destruct (c =? sep)%N; [discriminate|].
  destruct (split sep t); discriminate.
Qed.

(** Every code unit of a text other than the separator lies in one of
    the pieces, and no piece holds the separator. *)
Lemma split_covers (sep : CodeUnit) (s : jsstring) (c : CodeUnit) :
  In c s -> c <> sep -> exists piece, In piece (split sep s) /\ In c piece.
Proof.
  induction s as [|x t IH]; [contradiction|].
  intros [-> | H] N; cbn [split].
  - destruct (N.eqb_spec c sep) as [E|_]; [contradiction|].
    pose proof (split_nonempty sep t) as NE.
    destruct (split sep t) as [|cur rest]; [contradiction|].
    exists (c :: cur). split; now left.
  - destruct (IH H N) as (piece & Hp & Hc).
    destruct (x =? sep)%N; [exists piece; split; [now right | assumption]|].
    destruct (split sep t) as [|cur rest]; [contradiction|].
    destruct Hp as [<- | Hp].
    + exists (x :: cur). split; [now left | now right].
    + exists piece. split; [now right | assumption].
Qed.

Lemma split_no_separator (sep : CodeUnit) (s piece : jsstring) :
  In piece (split sep s) -> ~ In sep piece.
Proof.
  revert piece. induction s as [|x t IH]; intros piece; cbn [split].
  - intros [<- | []]. intros [].
  - destruct (N.eqb_spec x sep) as [E|E].
    + intros [<- | H]; [intros [] | now apply IH].
    + pose proof (split_nonempty sep t) as NE.
      destruct (split sep t) as [|cur rest]; [contradiction|].
      intros [<- | H].
      * intros [-> | H]; [contradiction|]. apply (IH cur); [now left | assumption].
      * apply IH. now right.
Qed.

Lemma countCriterion_fold (l : list jsstring) (n : Z) (f : bool) :
  fold_left countCriterion l (n, f)
  = (n + Z.of_nat (List.length (filter (fun c => negb (hasTestableKeyword c)) l)),
     f || existsb hasTestableKeyword l).
Proof.
  revert n f. induction l as [|c l IH]; intros n f; cbn [fold_left].
  - cbn. now rewrite Z.add_0_r, orb_false_r.
  - unfold countCriterion at 2. fold (hasTestableKeyword c).
    cbn [fst snd filter existsb].
    destruct (hasTestableKeyword c); cbn [negb]; rewrite IH.
    + now rewrite orb_true_r.
    + cbn [List.length orb]. f_equal. lia.
Qed.

(** What the analyzer computes on a text, in closed form. *)
Lemma analyzeAcceptanceCriteria_run (a : jsstring) :
  analyzeAcceptanceCriteria (JsString a)
  = Normal
      (if String_eq (trim a) [] then noCriteria
       else
         {| criteria := nonBlankLines a;
            testableKeywordsFound :=
              existsb hasTestableKeyword (nonBlankLines a);
            nonTestableCount :=
              Z.of_nat
                (List.length
                   (filter (fun c => negb (hasTestableKeyword c))
                           (nonBlankLines a))) |}).
Proof.
  unfold analyzeAcceptanceCriteria.
  destruct (negb (ToBoolean (JsString a))) eqn:T.
  { cbn in T. apply negb_true_iff, negb_false_iff, String_eq_true in T.
    now subst a. }
  cbn [thisString bind].
  destruct (String_eq (trim a) []); [reflexivity|].
  fold (nonBlankLines a). now rewrite countCriterion_fold.
Qed.

Lemma not_all_trimmed (a : jsstring) :
  trim a <> [] -> exists c, In c a /\ isTrimmed c = false.
Proof.
  intros B. induction a as [|x a IH]; [now destruct B|].
  destruct (isTrimmed x) eqn:Tx.
  - destruct IH as (c & Hc & Nc).
    + intros E. apply B. apply trim_nil_iff. cbn [forallb]. rewrite Tx.
      now apply trim_nil_iff.
    + exists c. split; [now right | assumption].
  - exists x. split; [now left | assumption].
Qed.

(** A text has a line that is not blank exactly when it is not blank
    itself. *)
Lemma nonBlankLines_nil_iff (a : jsstring) :
  nonBlankLines a = [] <-> trim a = [].
Proof.
  split.
  - intros E. destruct (list_eq_dec N.eq_dec (trim a) []) as [B|B];
      [assumption|exfalso].
    destruct (not_all_trimmed a B) as (c & Hc & Nt).
    destruct (split_covers 0x0A%N a c Hc) as (piece & Hp & Hcp).
    { intros ->. discriminate. }
    assert (H : In piece (nonBlankLines a)); [|now rewrite E in H].
    apply filter_In. split; [assumption|].
    apply negb_true_iff, String_eq_false. intros Tp.
    apply trim_nil_iff in Tp. rewrite forallb_forall in Tp.
    specialize (Tp c Hcp). congruence.
  - intros B. unfold nonBlankLines.
    apply trim_nil_iff in B. rewrite forallb_forall in B.
    destruct (filter _ _) as [|piece l] eqn:F; [reflexivity|exfalso].
    assert (Hp : In piece (filter (fun c => negb (String_eq (trim c) []))
                                  (split 0x0A%N a)))
      by (rewrite F; now left).
    apply filter_In in Hp as [Hp Nb].
    apply negb_true_iff, String_eq_false in Nb.
    destruct (not_all_trimmed piece Nb) as (c & Hc & Nt).
    assert (In c a); [|specialize (B c H); congruence].
    clear - Hp Hc. revert piece Hp Hc.
    induction a as [|x t IH]; intros piece; cbn [split].
    + intros [<- | []] [].
    + pose proof (split_nonempty 0x0A%N t) as NE.
      destruct (x =? 0x0A)%N.
      * intros [<- | H] Hc; [destruct Hc | right; eauto].
      * destruct (split 0x0A%N t) as [|cur rest]; [contradiction|].
        intros [<- | H] Hc.
        -- destruct Hc as [-> | Hc]; [now left | right].
           apply (IH cur); [now left | assumption].
        -- right. apply (IH piece); [now right | assumption].
Qed.

Lemma filter_length_lt_iff {A : Type} (f : A -> bool) (l : list A) :
  (List.length (filter f l) < List.length l)%nat
  <-> existsb (fun x => negb (f x)) l = true.
Proof.
  induction l as [|x l IH]; cbn [filter existsb List.length]; [split; [lia|discriminate]|].
  pose proof (filter_length_le f l).
  destruct (f x); cbn [negb orb List.length].
  - rewrite <- IH. lia.
  - split; [reflexivity | lia].
Qed.

(** X2. On a text the analyzer returns the lines that are not blank, in
    order; there is none exactly when the whole text is blank. The counter
    is the number of criteria without a testable keyword, so it stays
    between 0 and the number of criteria, and the flag is set exactly when
    it stays below that number. *)
Theorem acceptance_criteria_invariants (a : jsstring) :
  exists acA,
    analyzeAcceptanceCriteria (JsString a) = Normal acA
    /\ (trim a <> [] -> criteria acA = nonBlankLines a)
    /\ Forall (fun c => trim c <> [] /\ ~ In 0x0A%N c) (criteria acA)
    /\ (criteria acA = [] <-> trim a = [])
    /\ nonTestableCount acA
       = Z.of_nat
           (List.length
              (filter (fun c => negb (hasTestableKeyword c)) (criteria acA)))
    /\ 0 <= nonTestableCount acA <= Array_length (criteria acA)
    /\ (testableKeywordsFound acA = true
        <-> nonTestableCount acA < Array_length (criteria acA)).
Proof.
  rewrite analyzeAcceptanceCriteria_run.
  eexists. split; [reflexivity|].
  destruct (String_eq (trim a) []) eqn:B.
  - apply String_eq_true in B. cbn.
    repeat split; trivial; try lia; try discriminate. contradiction.
  - apply String_eq_false in B.
    cbn [criteria nonTestableCount testableKeywordsFound].
    split; [reflexivity|]. split.
    { apply Forall_forall. intros c Hc. apply filter_In in Hc as [Hc Nb].
      apply negb_true_iff, String_eq_false in Nb.
      split; [assumption | now apply split_no_separator with a]. }
    split; [rewrite nonBlankLines_nil_iff; tauto|].
    split; [reflexivity|].
    pose proof (filter_length_le (fun c => negb (hasTestableKeyword c))
                                 (nonBlankLines a)).
    unfold Array_length. split; [lia|].
    rewrite <- Nat2Z.inj_lt, filter_length_lt_iff.
    assert (E : forall l,
               existsb (fun x => negb (negb (hasTestableKeyword x))) l
               = existsb hasTestableKeyword l)
      by (induction l as [|x l IHl]; cbn [existsb];
          [reflexivity | now rewrite negb_involutive, IHl]).
    now rewrite E.
Qed.

(** ** The captures of the format matcher *)

(** The dot-star group is greedy: no longer capture on the same line
    leaves a rest that the continuation accepts. *)
Lemma dotStar_greedy {A : Type} (k : jsstring -> option A)
  (input cap : jsstring) (r : A) :
  dotStar k input = Some (cap, r) ->
  forall cap' rest',
    input = cap' ++ rest' -> oneLine cap' -> k rest' <> None ->
    (List.length cap' <= List.length cap)%nat.
Proof.
  revert cap. induction input as [|c t IH]; intros cap D cap' rest' E O K.
  - destruct cap'; [cbn; lia | discriminate].
  - destruct cap' as [|c' cap'']; [cbn; lia|].
    cbn [app] in E. injection E as <- ->.
    inversion O as [|? ? L O']; subst.
    cbn [dotStar] in D. rewrite L in D.
    destruct (dotStar k (cap'' ++ rest')) as [[cap0 r0]|] eqn:D0.
    + injection D as <- <-. cbn [List.length].
      specialize (IH _ eq_refl cap'' rest' eq_refl O' K). lia.
    + now destruct (dotStar_complete k cap'' rest' O' K).
Qed.

Lemma matchHere_chars (ic : bool) (l : jsstring) (p : list RegexNode)
  (input : jsstring) (caps : list jsstring) :
  matchHere ic (map RChar l ++ p) input = Some caps ->
  exists a rest,
    input = a ++ rest
    /\ map (Canonicalize ic) a = map (Canonicalize ic) l
    /\ matchHere ic p rest = Some caps.
Proof.
  revert input. induction l as [|c l IH]; intros input; cbn [map app matchHere].
  - intros H. exists [], input. auto.
  - destruct input as [|x t]; [discriminate|].
    destruct (charMatches ic c x) eqn:E; [|discriminate].
    intros H. destruct (IH _ H) as (a & rest & -> & Ea & Hr).
    exists (x :: a), rest. apply charMatches_true in E.
    cbn [map]. repeat split; [congruence | assumption].
Qed.

Lemma matchHere_opt (ic : bool) (c : CodeUnit) (p : list RegexNode)
  (input : jsstring) (caps : list jsstring) :
  matchHere ic (ROptChar c :: p) input = Some caps ->
  (exists x t,
      input = x :: t /\ Canonicalize ic x = Canonicalize ic c
      /\ matchHere ic p t = Some caps)
  \/ matchHere ic p input = Some caps.
Proof.
  cbn [matchHere]. destruct input as [|x t]; [now right|].
  destruct (charMatches ic c x) eqn:E; [|now right].
  destruct (matchHere ic p t) as [caps'|] eqn:H; [|now right].
  intros [= <-]. left. exists x, t. apply charMatches_true in E. auto.
Qed.

Lemma matchHere_group (ic : bool) (p : list RegexNode) (input : jsstring)
  (caps : list jsstring) :
  matchHere ic (RGroupDotStar :: p) input = Some caps ->
  exists cap caps' rest,
    caps = cap :: caps' /\ input = cap ++ rest /\ oneLine cap
    /\ matchHere ic p rest = Some caps'
    /\ forall cap' rest',
        input = cap' ++ rest' -> oneLine cap' ->
        matchHere ic p rest' <> None ->
        (List.length cap' <= List.length cap)%nat.
Proof.
  cbn [matchHere].
  destruct (dotStar (matchHere ic p) input) as [[cap caps']|] eqn:D;
    [|discriminate].
  intros [= <-].
  destruct (dotStar_sound _ _ _ _ D) as (rest & -> & O & H).
  exists cap, caps', rest. repeat split; try assumption.
  exact (dotStar_greedy _ _ _ _ D).
Qed.

Lemma searchFrom_sound (ic : bool) (p : list RegexNode) (input : jsstring)
  (caps : list jsstring) :
  searchFrom ic p input = Some caps ->
  exists before rest,
    input = before ++ rest /\ matchHere ic p rest = Some caps.
Proof.
  induction input as [|x t IH]; cbn [searchFrom].
  - destruct (matchHere ic p []) eqn:H; [|discriminate].
    intros [= <-]. exists [], []. auto.
  - destruct (matchHere ic p (x :: t)) eqn:H.
    + intros [= <-]. exists [], (x :: t). auto.
    + intros S. destruct (IH S) as (before & rest & -> & Hr).
      exists (x :: before), rest. auto.
Qed.

(** Canonicalize only moves the small ASCII letters, so it keeps apart
    what is not a letter. *)
Lemma Canonicalize_isLineTerminator (c d : CodeUnit) :
  Canonicalize true c = Canonicalize true d ->
  isLineTerminator c = isLineTerminator d.
Proof.
  unfold Canonicalize, isLineTerminator. cbn [andb existsb].
  destruct (N.leb_spec 0x61 c), (N.leb_spec c 0x7A),
           (N.leb_spec 0x61 d), (N.leb_spec d 0x7A); cbn [andb];
    intros E; try (subst; reflexivity);
    repeat match goal with
           | |- context [(?a =? ?b)%N] => destruct (N.eqb_spec a b)
           end; try reflexivity; lia.
Qed.

Lemma sameIgnoringCase_oneLine (a l : jsstring) :
  sameIgnoringCase a l -> oneLine l -> oneLine a.
Proof.
  unfold sameIgnoringCase, oneLine. revert l.
  induction a as [|x a IH]; intros [|y l]; cbn [map]; try discriminate;
    [constructor|].
  intros [= Ex Ea] O. inversion O; subst.
  constructor; [|eauto].
  now rewrite (Canonicalize_isLineTerminator x y Ex).
Qed.

Lemma oneLine_app (a b : jsstring) :
  oneLine (a ++ b) <-> oneLine a /\ oneLine b.
Proof. apply Forall_app. Qed.

Lemma oneLine_lit_want : oneLine (lit ", I want ").
Proof. repeat constructor. Qed.

Lemma oneLine_lit_sothat : oneLine (lit ", so that ").
Proof. repeat constructor. Qed.

Lemma sameIgnoringCase_length (a l : jsstring) :
  sameIgnoringCase a l -> List.length a = List.length l.
Proof.
  intros E. apply (f_equal (@List.length _)) in E. now rewrite !length_map in E.
Qed.

(** What a successful [match] of [CONFIG.STORY_FORMAT_REGEX] returns. *)
Lemma String_match_captures (s : jsstring) (caps : list jsstring) :
  String_match s (STORY_FORMAT_REGEX CONFIG) = Some caps ->
  exists before article persona want goal sothat value after,
    caps = [persona; goal; value]
    /\ s = before ++ article ++ persona ++ want ++ goal ++ sothat ++ value
           ++ after
    /\ (sameIgnoringCase article (lit "As a ")
        \/ sameIgnoringCase article (lit "As an "))
    /\ oneLine persona
    /\ sameIgnoringCase want (lit ", I want ")
    /\ oneLine goal
    /\ sameIgnoringCase sothat (lit ", so that ")
    /\ oneLine value
    /\ lineEnd after
    /\ ~ occursIgnoringCase (lit ", I want ") goal
    /\ ~ occursIgnoringCase (lit ", so that ") value.
Proof.
  unfold String_match.
  change (ignoreCase (STORY_FORMAT_REGEX CONFIG)) with true.
  change (pattern (STORY_FORMAT_REGEX CONFIG))
    with (map RChar (lit "As a")
          ++ ROptChar 0x6E%N
             :: map RChar (lit " ")
                ++ RGroupDotStar
                   :: map RChar (lit ", I want ")
                      ++ RGroupDotStar
                         :: map RChar (lit ", so that ")
                            ++ [RGroupDotStar]).
  intros S.
  apply searchFrom_sound in S as (before & m0 & -> & M).
  apply matchHere_chars in M as (a1 & m1 & -> & E1 & M).
  assert (exists art m2,
             m1 = art ++ m2
             /\ (sameIgnoringCase (a1 ++ art) (lit "As a ")
                 \/ sameIgnoringCase (a1 ++ art) (lit "As an "))
             /\ matchHere true
                  (RGroupDotStar
                   :: map RChar (lit ", I want ")
                      ++ RGroupDotStar
                         :: map RChar (lit ", so that ")
                            ++ [RGroupDotStar]) m2 = Some caps)
    as (art & m2 & -> & Hart & M2).
  { apply matchHere_opt in M as [(x & b & -> & Ex & M) | M];
      apply matchHere_chars in M as (a2 & m2 & -> & E2 & M).
    - exists (x :: a2), m2. split; [reflexivity|]. split; [right|assumption].
      change (lit "As an ") with (lit "As a" ++ [0x6E]%N ++ lit " ").
      apply sameIgnoringCase_app; [exact E1|].
      apply (sameIgnoringCase_app [x] a2 [0x6E]%N (lit " ")); [|exact E2].
      unfold sameIgnoringCase. cbn [map]. now rewrite Ex.
    - exists a2, m2. split; [reflexivity|]. split; [left|assumption].
      change (lit "As a ") with (lit "As a" ++ lit " ").
      now apply sameIgnoringCase_app. }
  apply matchHere_group in M2
    as (persona & caps1 & m3 & -> & -> & O1 & M3 & G1).
  apply matchHere_chars in M3 as (want & m4 & -> & E3 & M4).
  apply matchHere_group in M4 as (goal & caps2 & m5 & -> & -> & O2 & M5 & G2).
  apply matchHere_chars in M5 as (sothat & m6 & -> & E4 & M6).
  apply matchHere_group in M6 as (value & caps3 & after & -> & -> & O3 & M7 & G3).
  cbn [matchHere] in M7. injection M7 as <-.
  exists before, (a1 ++ art), persona, want, goal, sothat, value, after.
  split; [reflexivity|].
  split; [now rewrite <- !app_assoc|].
  repeat (split; [assumption|]).
  assert (Ow : oneLine want)
    by exact (sameIgnoringCase_oneLine _ _ E3 oneLine_lit_want).
  assert (Os : oneLine sothat)
    by exact (sameIgnoringCase_oneLine _ _ E4 oneLine_lit_sothat).
  split; [|split].
  - destruct after as [|c after]; [exact I|]. cbn [lineEnd].
    destruct (isLineTerminator c) eqn:L; [reflexivity|exfalso].
    assert (H : (List.length (value ++ [c]) <= List.length value)%nat).
    { apply (G3 (value ++ [c]) after).
      - now rewrite <- app_assoc.
      - apply oneLine_app. split; [assumption | now repeat constructor].
      - cbn [matchHere]. discriminate. }
    rewrite length_app in H. cbn in H. lia.
  - intros (g1 & w' & g2 & -> & Ew).
    assert (H : (List.length (persona ++ want ++ g1) <= List.length persona)%nat).
    { apply oneLine_app in O2 as [Og1 O2]. apply oneLine_app in O2 as [_ Og2].
      apply (G1 (persona ++ want ++ g1)
                (w' ++ g2 ++ sothat ++ value ++ after)).
      - now rewrite <- !app_assoc.
      - rewrite !oneLine_app. auto.
      - replace (w' ++ g2 ++ sothat ++ value ++ after)
          with ((w' ++ g2 ++ sothat ++ value) ++ after)
          by now rewrite <- !app_assoc.
        apply matchHere_complete.
        apply Matches_chars. exists w', (g2 ++ sothat ++ value).
        repeat split; [assumption|].
        apply Matches_group_iff. exists g2, (sothat ++ value).
        repeat split; [assumption|].
        apply Matches_chars. exists sothat, value.
        repeat split; [assumption|].
        apply Matches_group_iff. exists value, [].
        rewrite app_nil_r. repeat split; [assumption | constructor]. }
    rewrite !length_app in H.
    apply sameIgnoringCase_length in E3.
    change (List.length (lit ", I want ")) with 9%nat in E3. lia.
  - intros (v1 & s' & v2 & -> & Es).
    assert (H : (List.length (goal ++ sothat ++ v1) <= List.length goal)%nat).
    { apply oneLine_app in O3 as [Ov1 O3]. apply oneLine_app in O3 as [_ Ov2].
      apply (G2 (goal ++ sothat ++ v1) (s' ++ v2 ++ after)).
      - now rewrite <- !app_assoc.
      - rewrite !oneLine_app. auto.
      - replace (s' ++ v2 ++ after) with ((s' ++ v2) ++ after)
          by now rewrite <- !app_assoc.
        apply matchHere_complete.
        apply Matches_chars. exists s', v2.
        repeat split; [assumption|].
        apply Matches_group_iff. exists v2, [].
        rewrite app_nil_r. repeat split; [assumption | constructor]. }
    rewrite !length_app in H.
    apply sameIgnoringCase_length in E4.
    change (List.length (lit ", so that ")) with 10%nat in E4. lia.
Qed.

(** X3. When the story matches, the three captures split it as before,
    article, persona, ", I want ", goal, ", so that ", value, after. The
    groups are greedy: the value runs to the end of its line and holds no
    further ", so that ", and the goal holds no further ", I want ". *)
Theorem format_captures (s : jsstring) (caps : list jsstring) :
  String_match s (STORY_FORMAT_REGEX CONFIG) = Some caps ->
  exists before article persona want goal sothat value after,
    caps = [persona; goal; value]
    /\ s = before ++ article ++ persona ++ want ++ goal ++ sothat ++ value
           ++ after
    /\ (sameIgnoringCase article (lit "As a ")
        \/ sameIgnoringCase article (lit "As an "))
    /\ oneLine persona
    /\ sameIgnoringCase want (lit ", I want ")
    /\ oneLine goal
    /\ sameIgnoringCase sothat (lit ", so that ")
    /\ oneLine value
    /\ lineEnd after
    /\ ~ occursIgnoringCase (lit ", I want ") goal
    /\ ~ occursIgnoringCase (lit ", so that ") value.
Proof. exact (String_match_captures s caps). Qed.

Lemma format_captures_witness :
  exists before article persona want goal sothat value after,
    [lit "admin, i WANT a, b"; lit "c, so that d"; lit "e"]
    = [persona; goal; value]
    /\ lit "xx AS AN admin, i WANT a, b, I want c, so that d, so that e"
       = before ++ article ++ persona ++ want ++ goal ++ sothat ++ value
         ++ after
    /\ (sameIgnoringCase article (lit "As a ")
        \/ sameIgnoringCase article (lit "As an "))
    /\ oneLine persona
    /\ sameIgnoringCase want (lit ", I want ")
    /\ oneLine goal
    /\ sameIgnoringCase sothat (lit ", so that ")
    /\ oneLine value
    /\ lineEnd after
    /\ ~ occursIgnoringCase (lit ", I want ") goal
    /\ ~ occursIgnoringCase (lit ", so that ") value.
Proof.
  apply (format_captures
           (lit "xx AS AN admin, i WANT a, b, I want c, so that d, so that e")
           [lit "admin, i WANT a, b"; lit "c, so that d"; lit "e"]).
  vm_compute. reflexivity.
Defined.

(** A story with a clear value clause has at least 30 code units. *)
Lemma hasClearValue_length (s : jsstring) :
  hasClearValue s = true ->
  truthyMatch (String_match s (STORY_FORMAT_REGEX CONFIG)) = true
  /\ 30 <= String_length s.
Proof.
  unfold hasClearValue.
  destruct (String_match s (STORY_FORMAT_REGEX CONFIG)) as [caps|] eqn:M;
    [|discriminate].
  destruct (String_match_captures s caps M)
    as (before & article & persona & want & goal & sothat & value & after
        & -> & -> & Hart & _ & Ew & _ & Es & _).
  cbn [group Nat.pred nth_error]. intros H.
  apply andb_true_iff in H as [_ H]. apply Z.ltb_lt in H.
  split; [reflexivity|].
  assert (String_length (trim value) <= String_length value).
  { unfold trim, trimEnd, String_length. rewrite length_rev.
    assert (T : forall x, (List.length (trimStart x) <= List.length x)%nat).
    { induction x as [|c x IH]; cbn [trimStart]; [lia|].
      destruct (isTrimmed c); cbn [List.length]; lia. }
    pose proof (T (rev (trimStart value))) as T1.
    pose proof (T value) as T2. rewrite length_rev in T1. lia. }
  apply sameIgnoringCase_length in Ew, Es.
  change (List.length (lit ", I want ")) with 9%nat in Ew.
  change (List.length (lit ", so that ")) with 10%nat in Es.
  assert (5 <= List.length article)%nat.
  { destruct Hart as [Ha | Ha]; apply sameIgnoringCase_length in Ha.
    - change (List.length (lit "As a ")) with 5%nat in Ha. lia.
    - change (List.length (lit "As an ")) with 6%nat in Ha. lia. }
  unfold String_length in *. rewrite !length_app. lia.
Qed.

(** ** The scores in closed form *)

Lemma analyzeClarityAndRequirement_scores (s : jsstring) (v : JsValue)
  (acA : AcAnalysis) :
  analyzeAcceptanceCriteria v = Normal acA ->
  exists cl,
    analyzeClarityAndRequirement s v = Normal cl /\ clarityScores s v acA cl.
Proof.
  intros E. unfold analyzeClarityAndRequirement, clarityScores, acSubScore,
              hasAmbiguousTerms.
  rewrite E. cbn [bind].
  change (SHORT_STORY_LENGTH (THRESHOLDS CONFIG)) with 25.
  destruct (String_length s <? 25), (existsb _ _), (ToBoolean v),
    (0 <? Array_length (criteria acA)),
    (moreThanHalf (nonTestableCount acA) (Array_length (criteria acA)));
    (eexists; split; [reflexivity|]); cbn;
    destruct (truthyMatch _); repeat split; reflexivity.
Qed.

Lemma analyzeINVEST_scores (s : jsstring) (v : JsValue) (acA : AcAnalysis) :
  analyzeAcceptanceCriteria v = Normal acA ->
  exists inv, analyzeINVEST s v = Normal inv /\ investScores s acA inv.
Proof.
  intros E. unfold analyzeINVEST, investScores, hasDependencyKeywords,
              hasTechnicalTerms, hasClearValue.
  rewrite E. cbn [bind].
  change (SHORT_STORY_LENGTH (THRESHOLDS CONFIG)) with 25.
  change (LONG_STORY_LENGTH (THRESHOLDS CONFIG)) with 200.
  change (MAX_ACCEPTANCE_CRITERIA (THRESHOLDS CONFIG)) with 7.
  destruct (0 <? Array_length (criteria acA));
    [ destruct (0 <? nonTestableCount acA) | ];
    (eexists; split; [reflexivity|]);
    cbn [Invest.total Invest.score Invest.independent Invest.negotiable
         Invest.valuable Invest.estimable Invest.small Invest.testable
         andb orb];
    repeat split.
Qed.

(** The scoring path on a story that is not blank, whatever the second
    argument is, as long as the analyzer accepts it. *)
Lemma analyzeUserStory_run (s : jsstring) (v : JsValue) (acA : AcAnalysis) :
  trim s <> [] ->
  analyzeAcceptanceCriteria (defaultTo [] v) = Normal acA ->
  exists cl inv band,
    analyzeClarityAndRequirement s (defaultTo [] v) = Normal cl
    /\ clarityScores s (defaultTo [] v) acA cl
    /\ analyzeINVEST s (defaultTo [] v) = Normal inv
    /\ investScores s acA inv
    /\ getReadinessCategory (Clarity.total cl + Invest.total inv) = Some band
    /\ 33 <= Clarity.total cl + Invest.total inv <= 88
    /\ analyzeUserStory (JsString s) v = Normal (scoredReport s cl inv band).
Proof.
  intros Hs E.
  destruct (analyzeClarityAndRequirement_scores s _ _ E) as (cl & Hcl & Ccl).
  destruct (analyzeINVEST_scores s _ _ E) as (inv & Hinv & Cinv).
  destruct (analyzeClarityAndRequirement_shape s _ _ E) as (cl' & Hcl' & Scl).
  destruct (analyzeINVEST_shape s _ _ E) as (inv' & Hinv' & Sinv).
  rewrite Hcl in Hcl'. injection Hcl' as <-.
  rewrite Hinv in Hinv'. injection Hinv' as <-.
  pose proof (clarityShape_range _ _ Scl).
  pose proof (investShape_range _ Sinv) as [? _].
  destruct (getReadinessCategory_defined
              (Clarity.total cl + Invest.total inv)) as [band Hb]; [lia|].
  exists cl, inv, band. repeat (split; [assumption|]).
  split; [lia|].
  unfold analyzeUserStory. rewrite (storyText_text s Hs), Hcl, Hinv.
  cbn [bind]. change (40 + 60) with 100. rewrite percentageOf_exact by lia.
  rewrite Hb. cbn [getProp bind]. unfold scoredReport.
  now destruct (generateQueriesAndRecommendations s cl inv).
Qed.

(** ** The sub-scores of the clarity analysis *)

Ltac solve_levels :=
  repeat split; intros;
  repeat match goal with
         | H : _ /\ _ |- _ => destruct H
         | H : _ \/ _ |- _ => destruct H
         end;
  try tauto; try lia; try congruence.

(** X4. The acceptance-criteria sub-score tells three kinds of text
    apart: 0 for the empty text, 5 for a text of white space only, 10 or 15
    for a text with a line that is not blank. *)
Theorem acceptance_criteria_score_levels (s a : jsstring) :
  exists cl,
    analyzeClarityAndRequirement s (JsString a) = Normal cl
    /\ (Clarity.score (Clarity.acceptanceCriteria cl) = 0 <-> a = [])
    /\ (Clarity.score (Clarity.acceptanceCriteria cl) = 5
        <-> a <> [] /\ trim a = [])
    /\ (Clarity.score (Clarity.acceptanceCriteria cl) = 10
        \/ Clarity.score (Clarity.acceptanceCriteria cl) = 15
        <-> trim a <> []).
Proof.
  destruct (analyzeClarityAndRequirement_scores s _ _
              (analyzeAcceptanceCriteria_run a)) as (cl & Hcl & Ccl).
  unfold clarityScores in Ccl. destruct Ccl as (_ & _ & Eac & _).
  exists cl. split; [assumption|]. rewrite Eac. clear Eac Hcl.
  unfold acSubScore. cbn [ToBoolean].
  destruct (String_eq a []) eqn:Ea; cbn [negb].
  - apply String_eq_true in Ea. subst a. cbn. solve_levels.
  - apply String_eq_false in Ea.
    destruct (String_eq (trim a) []) eqn:B.
    + apply String_eq_true in B. cbn. solve_levels.
    + apply String_eq_false in B. cbn [criteria nonTestableCount].
      assert (N : nonBlankLines a <> [])
        by (now rewrite nonBlankLines_nil_iff).
      assert (P : (0 <? Array_length (nonBlankLines a)) = true).
      { apply Z.ltb_lt. unfold Array_length.
        destruct (nonBlankLines a); [contradiction | cbn; lia]. }
      rewrite P.
      destruct (moreThanHalf _ _); solve_levels.
Qed.

(** X5. The cap at 15 makes one passed check enough: the clarity score is
    10 only for a story that is both shorter than 25 code units and
    ambiguous, and 15 otherwise, while the feedback is the all-clear
    sentence only when both checks pass. *)
Theorem clarity_score_cap (s a : jsstring) :
  exists cl,
    analyzeClarityAndRequirement s (JsString a) = Normal cl
    /\ Clarity.score (Clarity.clarityAmbiguity cl)
       = (if (String_length s <? 25) && hasAmbiguousTerms s then 10 else 15)
    /\ (Clarity.feedback (Clarity.clarityAmbiguity cl)
        = lit "Language appears reasonably clear."
        <-> (String_length s <? 25) || hasAmbiguousTerms s = false).
Proof.
  unfold analyzeClarityAndRequirement, hasAmbiguousTerms.
  rewrite analyzeAcceptanceCriteria_run. cbn [bind].
  change (SHORT_STORY_LENGTH (THRESHOLDS CONFIG)) with 25.
  destruct (String_length s <? 25), (existsb _ _);
    match goal with
    | |- context [let '(x, y) := ?t in _] => destruct t
    end;
    (eexists; split; [reflexivity|]); cbn [Clarity.clarityAmbiguity
      Clarity.score Clarity.feedback andb orb];
    (split; [reflexivity|]); split; try discriminate; try reflexivity;
    vm_compute; discriminate.
Qed.

(** ** The recommendation generator *)

Lemma queries_stepI (b : bool) (l : Lists) (x : jsstring) :
  queries (if b then pushImprovement l x else l) = queries l.
Proof. now destruct b. Qed.

Lemma queries_stepQI (b : bool) (l : Lists) (q x : jsstring) :
  queries (if b then pushImprovement (pushQuery l q) x else l)
  = queries l ++ (if b then [q] else []).
Proof. destruct b; cbn; [reflexivity | now rewrite app_nil_r]. Qed.

Lemma queries_stepQID (b : bool) (l : Lists) (q x d : jsstring) :
  queries
    (if b then pushDecomposition (pushImprovement (pushQuery l q) x) d else l)
  = queries l ++ (if b then [q] else []).
Proof. destruct b; cbn; [reflexivity | now rewrite app_nil_r]. Qed.

Lemma decomposition_stepI (b : bool) (l : Lists) (x : jsstring) :
  decomposition (if b then pushImprovement l x else l) = decomposition l.
Proof. now destruct b. Qed.

Lemma decomposition_stepQI (b : bool) (l : Lists) (q x : jsstring) :
  decomposition (if b then pushImprovement (pushQuery l q) x else l)
  = decomposition l.
Proof. now destruct b. Qed.

Lemma decomposition_stepQID (b : bool) (l : Lists) (q x d : jsstring) :
  decomposition
    (if b then pushDecomposition (pushImprovement (pushQuery l q) x) d else l)
  = decomposition l ++ (if b then [d] else []).
Proof. destruct b; cbn; [reflexivity | now rewrite app_nil_r]. Qed.

Lemma improvements_stepI (b : bool) (l : Lists) (x : jsstring) :
  improvements (if b then pushImprovement l x else l)
  = improvements l ++ (if b then [x] else []).
Proof. destruct b; cbn; [reflexivity | now rewrite app_nil_r]. Qed.

Lemma improvements_stepQI (b : bool) (l : Lists) (q x : jsstring) :
  improvements (if b then pushImprovement (pushQuery l q) x else l)
  = improvements l ++ (if b then [x] else []).
Proof. destruct b; cbn; [reflexivity | now rewrite app_nil_r]. Qed.

Lemma improvements_stepQID (b : bool) (l : Lists) (q x d : jsstring) :
  improvements
    (if b then pushDecomposition (pushImprovement (pushQuery l q) x) d else l)
  = improvements l ++ (if b then [x] else []).
Proof. destruct b; cbn; [reflexivity | now rewrite app_nil_r]. Qed.

Lemma generateQueriesAndRecommendations_lists (s : jsstring)
  (cl : Clarity.Analysis) (inv : Invest.Analysis) :
  fst (generateQueriesAndRecommendations s cl inv)
  = (if Clarity.score (Clarity.acceptanceCriteria cl) <? 15
     then [queryCriteria] else [])
    ++ (if Invest.score (Invest.valuable inv) <? 10 then [queryValue] else [])
    ++ (if Invest.score (Invest.small inv) <? 8 then [querySize] else [])
    ++ (if Invest.score (Invest.testable inv) <? 8
        then [queryTestable] else [])
    ++ (if Invest.score (Invest.independent inv) <? 6
        then [queryDependencies] else [])
  /\ Report.storyDecomposition
       (snd (generateQueriesAndRecommendations s cl inv))
     = (if Invest.score (Invest.small inv) <? 8
        then [decompositionHint] else []).
Proof.
  unfold generateQueriesAndRecommendations.
  change (FORMAT_SUCCESS (SCORING CONFIG)) with 10.
  change (AC_PROVIDED (SCORING CONFIG)) with 15.
  change (INVEST_DEFAULT_HIGH (SCORING CONFIG)) with 8.
  change (INVEST_DEFAULT_MEDIUM (SCORING CONFIG)) with 6.
  cbv zeta. cbn [fst snd Report.storyDecomposition].
  rewrite !queries_stepQI, queries_stepQID, !queries_stepQI, queries_stepI.
  rewrite !decomposition_stepQI, decomposition_stepQID, !decomposition_stepQI,
    decomposition_stepI.
  cbn [queries decomposition app]. rewrite <- !app_assoc.
  split; reflexivity.
Qed.

Lemma join_cons (sep x : jsstring) (rest : list jsstring) :
  exists t, join sep (x :: rest) = x ++ t.
Proof.
  destruct rest; cbn [join]; [exists []; now rewrite app_nil_r | eauto].
Qed.

Lemma suggestedImprovements_closed (s : jsstring)
  (cl : Clarity.Analysis) (inv : Invest.Analysis) :
  Report.suggestedImprovements
    (snd (generateQueriesAndRecommendations s cl inv))
  = (let l :=
       (if Clarity.score (Clarity.formatCheck cl) <? 10
        then
          [lit "Rephrase story to fit the standard format: " ++ dquote
           ++ lit "As a [persona], I want [goal], so that [value]" ++ dquote
           ++ lit "."]
        else [])
       ++ (if Clarity.score (Clarity.acceptanceCriteria cl) <? 15
           then
             [lit "Refine ACs: "
              ++ Clarity.feedback (Clarity.acceptanceCriteria cl)]
           else [])
       ++ (if Invest.score (Invest.valuable inv) <? 10
           then
             [lit "Clarify value: "
              ++ Invest.justification (Invest.valuable inv)]
           else [])
       ++ (if Invest.score (Invest.small inv) <? 8
           then
             [lit "Consider story size: "
              ++ Invest.justification (Invest.small inv)]
           else [])
       ++ (if Invest.score (Invest.testable inv) <? 8
           then
             [lit "Improve testability: "
              ++ Invest.justification (Invest.testable inv)]
           else [])
       ++ (if Invest.score (Invest.independent inv) <? 6
           then
             [lit "Clarify independence: "
              ++ Invest.justification (Invest.independent inv)]
           else []) in
     if 0 <? Array_length l then join [0x0A]%N l else goodShapeText).
Proof.
  unfold generateQueriesAndRecommendations.
  change (FORMAT_SUCCESS (SCORING CONFIG)) with 10.
  change (AC_PROVIDED (SCORING CONFIG)) with 15.
  change (INVEST_DEFAULT_HIGH (SCORING CONFIG)) with 8.
  change (INVEST_DEFAULT_MEDIUM (SCORING CONFIG)) with 6.
  cbv zeta. cbn [fst snd Report.suggestedImprovements].
  rewrite !improvements_stepQI, improvements_stepQID, !improvements_stepQI,
    improvements_stepI.
  cbn [improvements app]. rewrite <- !app_assoc. reflexivity.
Qed.

(** A first improvement that does not begin with the letter S keeps the
    joined text apart from the all-clear text. *)
Lemma not_goodShape (x : jsstring) (R : list jsstring) :
  x <> [] -> hd 0%N x <> 0x53%N ->
  (if 0 <? Array_length (x :: R) then join [0x0A]%N (x :: R)
   else goodShapeText) <> goodShapeText.
Proof.
  intros Nx Hx.
  assert (P : (0 <? Array_length (x :: R)) = true)
    by (apply Z.ltb_lt; unfold Array_length; cbn [List.length]; lia).
  rewrite P. destruct (join_cons [0x0A]%N x R) as [t ->].
  intros G. apply (f_equal (hd 0%N)) in G.
  destruct x as [|c x]; [contradiction|]. cbn [app hd] in G, Hx.
  apply Hx. rewrite G. reflexivity.
Qed.

(** The all-clear text is written only when none of the six rules
    fires. *)
Lemma generateQueriesAndRecommendations_goodShape (s : jsstring)
  (cl : Clarity.Analysis) (inv : Invest.Analysis) :
  Report.suggestedImprovements
    (snd (generateQueriesAndRecommendations s cl inv)) = goodShapeText ->
  10 <= Clarity.score (Clarity.formatCheck cl)
  /\ 15 <= Clarity.score (Clarity.acceptanceCriteria cl)
  /\ 10 <= Invest.score (Invest.valuable inv)
  /\ 8 <= Invest.score (Invest.small inv)
  /\ 8 <= Invest.score (Invest.testable inv)
  /\ 6 <= Invest.score (Invest.independent inv).
Proof.
  rewrite suggestedImprovements_closed. cbv zeta.
  repeat match goal with
         | |- context [?a <? ?b] =>
             destruct (Z.ltb_spec a b);
             [ cbn [app]; intros G; exfalso; revert G;
               apply not_goodShape; vm_compute; discriminate
             | cbn [app] ]
         end.
  intros _. auto 10.
Qed.

Lemma criteria_nonBlankLines (a : jsstring) (acA : AcAnalysis) :
  analyzeAcceptanceCriteria (JsString a) = Normal acA ->
  criteria acA = nonBlankLines a.
Proof.
  rewrite analyzeAcceptanceCriteria_run. intros [= <-].
  destruct (String_eq (trim a) []) eqn:B; [|reflexivity].
  apply String_eq_true, nonBlankLines_nil_iff in B. now rewrite B.
Qed.

Lemma defaultTo_acText (ac : option jsstring) :
  defaultTo [] (textArg ac) = JsString (acText ac).
Proof. now destruct ac. Qed.

(** The scoring path on two texts, with the scores in closed form. *)
Lemma analyzeUserStory_text_run (s : jsstring) (ac : option jsstring) :
  trim s <> [] ->
  exists acA cl inv band,
    analyzeAcceptanceCriteria (JsString (acText ac)) = Normal acA
    /\ criteria acA = nonBlankLines (acText ac)
    /\ clarityScores s (JsString (acText ac)) acA cl
    /\ investScores s acA inv
    /\ getReadinessCategory (Clarity.total cl + Invest.total inv) = Some band
    /\ 33 <= Clarity.total cl + Invest.total inv <= 88
    /\ analyzeUserStory (JsString s) (textArg ac)
       = Normal (scoredReport s cl inv band).
Proof.
  intros Hs.
  destruct (analyzeAcceptanceCriteria_text (acText ac)) as [acA E].
  pose proof (criteria_nonBlankLines _ _ E) as C.
  rewrite <- defaultTo_acText in E.
  destruct (analyzeUserStory_run s (textArg ac) acA Hs E)
    as (cl & inv & band & _ & Ccl & _ & Cinv & Hb & R & Hr).
  rewrite defaultTo_acText in E, Ccl.
  exists acA, cl, inv, band. auto 10.
Qed.

Lemma band_of_71_to_89 (p : Z) (band : Band.t) :
  71 <= p < 90 -> getReadinessCategory p = Some band ->
  Band.label band = atStandardLabel.
Proof.
  intros Hp. unfold getReadinessCategory.
  cbn [READINESS_CATEGORIES CONFIG find Band.score].
  destruct (Z.leb_spec 90 p); [lia|].
  destruct (Z.leb_spec 71 p); [|lia].
  now intros [= <-].
Qed.


(** X6. A report that says the story is in good shape has no query and no
    decomposition hint, and its rating is 83 or 88: the category is the
    band of 71, never the band of 90. *)
Theorem good_shape_rating (s : jsstring) (ac : option jsstring)
  (r : Report.t) :
  analyzeUserStory (JsString s) (textArg ac) = Normal r ->
  Report.suggestedImprovements (Report.actionableRecommendations r)
  = goodShapeText ->
  (Overall.readinessRating (Report.overallReadinessScore r) = 83
   \/ Overall.readinessRating (Report.overallReadinessScore r) = 88)
  /\ Overall.readinessCategory (Report.overallReadinessScore r)
     = atStandardLabel
  /\ Report.outstandingQueriesAndConflicts r = []
  /\ Report.storyDecomposition (Report.actionableRecommendations r) = [].
Proof.
  intros Hr G.
  destruct (storyText_cases (JsString s)) as [B | (s' & [= <-] & Hs & _)].
  { rewrite (analyzeUserStory_blank _ _ B) in Hr. vm_compute in Hr.
    injection Hr as <-. vm_compute in G. discriminate. }
  destruct (analyzeUserStory_text_run s ac Hs)
    as (acA & cl & inv & band & E & C & Ccl & Cinv & Hb & _ & Hr').
  rewrite Hr' in Hr. injection Hr as <-.
  cbn [scoredReport Report.actionableRecommendations
       Report.overallReadinessScore Overall.readinessRating
       Overall.readinessCategory Report.outstandingQueriesAndConflicts] in *.
  pose proof (generateQueriesAndRecommendations_goodShape s cl inv G)
    as (F1 & F2 & F3 & F4 & F5 & F6).
  destruct (generateQueriesAndRecommendations_lists s cl inv) as [Q D].
  unfold clarityScores in Ccl. destruct Ccl as (Ef & Ec & Ea & Et).
  unfold investScores in Cinv.
  destruct Cinv as (Ei & En & Ev & Ee & Es & Ett & Eti).
  assert (V : hasClearValue s = true)
    by (destruct (hasClearValue s); [reflexivity | lia]).
  destruct (hasClearValue_length s V) as [M L].
  rewrite M in Ef. rewrite V in Ev.
  assert (P : (0 <? Array_length (criteria acA)) = true).
  { unfold acSubScore in Ea.
    destruct (ToBoolean _), (0 <? Array_length (criteria acA));
      try reflexivity; lia. }
  rewrite P in Ee, Ett.
  assert (L25 : (String_length s <? 25) = false) by (apply Z.ltb_ge; lia).
  assert (G25 : (25 <? String_length s) = true) by (apply Z.ltb_lt; lia).
  rewrite L25 in Ec. rewrite G25 in Ee.
  assert (Hrating : Clarity.total cl + Invest.total inv = 83
                    \/ Clarity.total cl + Invest.total inv = 88).
  { unfold acSubScore in Ea. rewrite P in Ea.
    destruct (ToBoolean (JsString (acText ac))),
      (moreThanHalf (nonTestableCount acA) (Array_length (criteria acA))),
      (hasTechnicalTerms s), (hasDependencyKeywords s),
      (testableKeywordsFound acA),
      ((200 <? String_length s) || (7 <? Array_length (criteria acA)));
      cbn [andb] in *; lia. }
  split; [exact Hrating|].
  split; [eapply band_of_71_to_89; [|exact Hb]; lia|].
  rewrite Q, D.
  destruct (Z.ltb_spec (Clarity.score (Clarity.acceptanceCriteria cl)) 15),
    (Z.ltb_spec (Invest.score (Invest.valuable inv)) 10),
    (Z.ltb_spec (Invest.score (Invest.small inv)) 8),
    (Z.ltb_spec (Invest.score (Invest.testable inv)) 8),
    (Z.ltb_spec (Invest.score (Invest.independent inv)) 6);
    try lia. split; reflexivity.
Qed.

Lemma good_shape_rating_witness :
  exists r,
    analyzeUserStory
      (JsString
         (lit "As a user, I want to reset my password, so that I can regain access to my account"))
      (textArg (Some gherkinCriteria))
    = Normal r
    /\ ((Overall.readinessRating (Report.overallReadinessScore r) = 83
         \/ Overall.readinessRating (Report.overallReadinessScore r) = 88)
        /\ Overall.readinessCategory (Report.overallReadinessScore r)
           = atStandardLabel
        /\ Report.outstandingQueriesAndConflicts r = []
        /\ Report.storyDecomposition (Report.actionableRecommendations r)
           = []).
Proof.
  eexists. split; [vm_compute; reflexivity|].
  eapply (good_shape_rating
            (lit "As a user, I want to reset my password, so that I can regain access to my account")
            (Some gherkinCriteria)).
  - vm_compute. reflexivity.
  - vm_compute. reflexivity.
Defined.
(** X7. The decomposition hint is given exactly when the story is longer
    than 200 code units or the acceptance criteria have more than 7 lines
    that are not blank; it comes with the query about the size, and there is
    never more than this one hint. *)
Theorem decomposition_when_large (s : jsstring) (ac : option jsstring) :
  trim s <> [] ->
  exists r,
    analyzeUserStory (JsString s) (textArg ac) = Normal r
    /\ (Report.storyDecomposition (Report.actionableRecommendations r) <> []
        <-> 200 < String_length s
            \/ 7 < Array_length (nonBlankLines (acText ac)))
    /\ (Report.storyDecomposition (Report.actionableRecommendations r) = []
        \/ Report.storyDecomposition (Report.actionableRecommendations r)
           = [decompositionHint])
    /\ (In querySize (Report.outstandingQueriesAndConflicts r)
        <-> Report.storyDecomposition (Report.actionableRecommendations r)
            <> []).
Proof.
  intros Hs.
  destruct (analyzeUserStory_text_run s ac Hs)
    as (acA & cl & inv & band & E & C & Ccl & Cinv & Hb & _ & ->).
  eexists. split; [reflexivity|].
  cbn [scoredReport Report.actionableRecommendations
       Report.outstandingQueriesAndConflicts].
  destruct (generateQueriesAndRecommendations_lists s cl inv) as [-> ->].
  unfold investScores in Cinv.
  destruct Cinv as (_ & _ & _ & _ & Es & _). rewrite Es, C.
  assert (Q : forall (b1 b2 b4 b5 : bool),
             ~ In querySize
                 ((if b1 then [queryCriteria] else [])
                  ++ (if b2 then [queryValue] else [])
                  ++ []
                  ++ (if b4 then [queryTestable] else [])
                  ++ (if b5 then [queryDependencies] else []))).
  { intros [] [] [] []; cbn [app In]; intros H;
      repeat destruct H as [H|H]; try contradiction;
      vm_compute in H; discriminate. }
  destruct (Z.ltb_spec 200 (String_length s)),
    (Z.ltb_spec 7 (Array_length (nonBlankLines (acText ac))));
    cbn [orb]; change (3 <? 8) with true; change (8 <? 8) with false;
    cbn beta iota.
  1-3: (split; [split; [intros _; lia | discriminate]|];
        split; [now right|];
        split; [discriminate|]; intros _;
        rewrite !in_app_iff; right; right; left; now left).
  split; [split; [intros X; now destruct X | lia]|].
  split; [now left|].
  split; [intros X; now apply Q in X | intros X; now destruct X].
Qed.

Lemma decomposition_when_large_witness :
  exists r,
    analyzeUserStory (JsString (lit "x")) (textArg None) = Normal r
    /\ (Report.storyDecomposition (Report.actionableRecommendations r) <> []
        <-> 200 < String_length (lit "x")
            \/ 7 < Array_length (nonBlankLines (acText None)))
    /\ (Report.storyDecomposition (Report.actionableRecommendations r) = []
        \/ Report.storyDecomposition (Report.actionableRecommendations r)
           = [decompositionHint])
    /\ (In querySize (Report.outstandingQueriesAndConflicts r)
        <-> Report.storyDecomposition (Report.actionableRecommendations r)
            <> []).
Proof.
  apply (decomposition_when_large (lit "x") None). vm_compute. discriminate.
Defined.



(** The bound of 71 is reached: white space as acceptance criteria lifts
    the worked example into the band of 71. *)
Example blank_criteria_reach_71 :
  exists r,
    analyzeUserStory
      (JsString
         (lit "As a user, I want to reset my password, so that I can regain access to my account"))
      (JsString (lit " "))
    = Normal r
    /\ Overall.readinessRating (Report.overallReadinessScore r) = 71
    /\ Overall.readinessCategory (Report.overallReadinessScore r)
       = atStandardLabel.
Proof. eexists. split; [vm_compute; reflexivity|]. split; reflexivity. Qed.
(** ** The case of the story *)

Lemma sameIgnoringCase_cons (x y : CodeUnit) (a b : jsstring) :
  sameIgnoringCase (x :: a) (y :: b)
  <-> Canonicalize true x = Canonicalize true y /\ sameIgnoringCase a b.
Proof.
  unfold sameIgnoringCase. cbn [map]. split.
  - intros [= H1 H2]. auto.
  - intros [-> ->]. reflexivity.
Qed.

Lemma sameIgnoringCase_nil_l (b : jsstring) :
  sameIgnoringCase [] b -> b = [].
Proof. destruct b; [reflexivity | discriminate]. Qed.

Lemma sameIgnoringCase_nil_r (a : jsstring) :
  sameIgnoringCase a [] -> a = [].
Proof. destruct a; [reflexivity | discriminate]. Qed.

Lemma sameIgnoringCase_refl (a : jsstring) : sameIgnoringCase a a.
Proof. reflexivity. Qed.

Lemma Canonicalize_cases (c d : CodeUnit) :
  Canonicalize true c = Canonicalize true d ->
  c = d
  \/ ((0x61 <= c <= 0x7A)%N /\ d = (c - 0x20)%N)
  \/ ((0x61 <= d <= 0x7A)%N /\ c = (d - 0x20)%N).
Proof.
  unfold Canonicalize. cbn [andb].
  destruct (N.leb_spec 0x61 c), (N.leb_spec c 0x7A),
           (N.leb_spec 0x61 d), (N.leb_spec d 0x7A); cbn [andb];
    intros E; try (left; lia); try (right; left; lia); right; right; lia.
Qed.

Lemma Canonicalize_lowerCodeUnit (c d : CodeUnit) :
  Canonicalize true c = Canonicalize true d ->
  lowerCodeUnit c = lowerCodeUnit d.
Proof.
  intros E. apply Canonicalize_cases in E as [-> | [[R ->] | [R ->]]];
    [reflexivity | |];
    unfold lowerCodeUnit;
    repeat match goal with
           | |- context [(?a <=? ?b)%N] => destruct (N.leb_spec a b)
           | |- context [(?a =? ?b)%N] => destruct (N.eqb_spec a b)
           end; cbn [andb]; try lia; try reflexivity; f_equal; lia.
Qed.

Lemma letter_not_trimmed (c : CodeUnit) :
  (0x41 <= c <= 0x7A)%N -> isTrimmed c = false.
Proof.
  intros R. unfold isTrimmed, isWhiteSpace, isLineTerminator.
  cbn [existsb].
  repeat match goal with
         | |- context [(c =? ?k)%N] =>
             replace (c =? k)%N with false
               by (symmetry; apply N.eqb_neq; lia)
         end.
  replace (0x2000 <=? c)%N with false by (symmetry; apply N.leb_gt; lia).
  reflexivity.
Qed.

Lemma Canonicalize_isTrimmed (c d : CodeUnit) :
  Canonicalize true c = Canonicalize true d -> isTrimmed c = isTrimmed d.
Proof.
  intros E. apply Canonicalize_cases in E as [-> | [[R ->] | [R ->]]];
    [reflexivity | |];
    rewrite !letter_not_trimmed; try reflexivity; lia.
Qed.

Lemma toLowerCase_ignores_case (a b : jsstring) :
  sameIgnoringCase a b -> toLowerCase a = toLowerCase b.
Proof.
  revert b. induction a as [|x a IH]; intros [|y b] E;
    try discriminate; [reflexivity|].
  apply sameIgnoringCase_cons in E as [Ex Ea].
  unfold toLowerCase. cbn [flat_map].
  rewrite (Canonicalize_lowerCodeUnit x y Ex). f_equal. now apply IH.
Qed.

Lemma trimStart_ignores_case (a b : jsstring) :
  sameIgnoringCase a b -> sameIgnoringCase (trimStart a) (trimStart b).
Proof.
  revert b. induction a as [|x a IH]; intros [|y b] E;
    try discriminate; [reflexivity|].
  pose proof E as E'. apply sameIgnoringCase_cons in E as [Ex Ea].
  cbn [trimStart]. rewrite (Canonicalize_isTrimmed x y Ex).
  destruct (isTrimmed y); [now apply IH | exact E'].
Qed.

Lemma sameIgnoringCase_rev (a b : jsstring) :
  sameIgnoringCase a b -> sameIgnoringCase (rev a) (rev b).
Proof. unfold sameIgnoringCase. rewrite !map_rev. now intros ->. Qed.

Lemma trim_ignores_case (a b : jsstring) :
  sameIgnoringCase a b -> sameIgnoringCase (trim a) (trim b).
Proof.
  intros E. unfold trim, trimEnd.
  now apply sameIgnoringCase_rev, trimStart_ignores_case,
    sameIgnoringCase_rev, trimStart_ignores_case.
Qed.

Lemma charMatches_ignores_case (c x y : CodeUnit) :
  Canonicalize true x = Canonicalize true y ->
  charMatches true c x = charMatches true c y.
Proof. unfold charMatches. now intros ->. Qed.

Section DotStarCase.
Context {A : Type} (R : A -> A -> Prop) (k1 k2 : jsstring -> option A).
Hypothesis k_same :
  forall a b, sameIgnoringCase a b ->
    match k1 a, k2 b with
    | Some r1, Some r2 => R r1 r2
    | None, None => True
    | _, _ => False
    end.

Lemma dotStar_ignores_case (a b : jsstring) :
  sameIgnoringCase a b ->
  match dotStar k1 a, dotStar k2 b with
  | Some (c1, r1), Some (c2, r2) => sameIgnoringCase c1 c2 /\ R r1 r2
  | None, None => True
  | _, _ => False
  end.
Proof.
  revert b. induction a as [|x a IH]; intros [|y b] E; try discriminate.
  - cbn [dotStar]. specialize (k_same [] [] E).
    destruct (k1 []), (k2 []); cbn [option_map]; try contradiction;
      [split; [reflexivity | assumption] | exact I].
  - pose proof (k_same _ _ E) as K.
    apply sameIgnoringCase_cons in E as [Ex Ea].
    specialize (IH b Ea). cbn [dotStar].
    rewrite (Canonicalize_isLineTerminator x y Ex).
    assert (Stop :
              match option_map (fun r : A => (@nil CodeUnit, r)) (k1 (x :: a)),
                    option_map (fun r : A => (@nil CodeUnit, r)) (k2 (y :: b))
              with
              | Some (c1, r1), Some (c2, r2) => sameIgnoringCase c1 c2 /\ R r1 r2
              | None, None => True
              | _, _ => False
              end).
    { destruct (k1 (x :: a)), (k2 (y :: b)); cbn [option_map];
        try contradiction;
        [split; [reflexivity | assumption] | exact I]. }
    destruct (isLineTerminator y); [exact Stop|].
    destruct (dotStar k1 a) as [[c1 r1]|], (dotStar k2 b) as [[c2 r2]|];
      try contradiction; [|exact Stop].
    destruct IH as [Ec Er]. split; [|assumption].
    apply sameIgnoringCase_cons. auto.
Qed.
End DotStarCase.

Lemma matchHere_ignores_case (p : list RegexNode) (a b : jsstring) :
  sameIgnoringCase a b -> sameMatch (matchHere true p a) (matchHere true p b).
Proof.
  revert a b. induction p as [|[c|c|] p IH]; intros a b E; cbn [matchHere].
  - constructor.
  - destruct a as [|x a], b as [|y b]; try discriminate; [exact I|].
    apply sameIgnoringCase_cons in E as [Ex Ea].
    rewrite (charMatches_ignores_case c x y Ex).
    destruct (charMatches true c y); [now apply IH | exact I].
  - pose proof (IH a b E) as Skip.
    destruct a as [|x a], b as [|y b]; try discriminate; [exact Skip|].
    apply sameIgnoringCase_cons in E as [Ex Ea].
    rewrite (charMatches_ignores_case c x y Ex).
    destruct (charMatches true c y); [|exact Skip].
    pose proof (IH a b Ea) as Take. unfold sameMatch in Take.
    destruct (matchHere true p a), (matchHere true p b);
      try contradiction; [exact Take | exact Skip].
  - pose proof (dotStar_ignores_case (Forall2 sameIgnoringCase)
                  (matchHere true p) (matchHere true p) IH a b E) as D.
    destruct (dotStar (matchHere true p) a) as [[c1 r1]|],
             (dotStar (matchHere true p) b) as [[c2 r2]|];
      cbn [option_map sameMatch]; try contradiction; [|exact I].
    destruct D. now constructor.
Qed.

Lemma String_match_ignores_case (a b : jsstring) :
  sameIgnoringCase a b ->
  sameMatch (String_match a (STORY_FORMAT_REGEX CONFIG))
            (String_match b (STORY_FORMAT_REGEX CONFIG)).
Proof.
  unfold String_match.
  change (ignoreCase (STORY_FORMAT_REGEX CONFIG)) with true.
  generalize (pattern (STORY_FORMAT_REGEX CONFIG)) as p. intros p.
  revert b. induction a as [|x a IH]; intros [|y b] E; try discriminate;
    cbn [searchFrom]; pose proof (matchHere_ignores_case p _ _ E) as M;
    unfold sameMatch in M.
  - destruct (matchHere true p []); exact M.
  - apply sameIgnoringCase_cons in E as [_ Ea].
    destruct (matchHere true p (x :: a)), (matchHere true p (y :: b));
      try contradiction; [exact M | now apply IH].
Qed.

Lemma hasClearValue_ignores_case (a b : jsstring) :
  sameIgnoringCase a b -> hasClearValue a = hasClearValue b.
Proof.
  intros E. apply String_match_ignores_case in E.
  unfold hasClearValue, sameMatch in *.
  destruct (String_match a _) as [c1|], (String_match b _) as [c2|];
    try contradiction; [|reflexivity].
  unfold group. cbn [Nat.pred].
  destruct E as [|v1 v2 ? ? _ E]; [reflexivity|].
  destruct E as [|v1' v2' ? ? _ E]; [reflexivity|].
  destruct E as [|x1 x2 ? ? Ex _]; [reflexivity|].
  cbn [nth_error].
  pose proof (sameIgnoringCase_length _ _ (trim_ignores_case _ _ Ex)) as L.
  unfold String_length. rewrite L. f_equal.
  destruct x1, x2; try discriminate; reflexivity.
Qed.

Lemma analyzeClarityAndRequirement_congr (s1 s2 : jsstring) (v : JsValue) :
  truthyMatch (String_match s1 (STORY_FORMAT_REGEX CONFIG))
  = truthyMatch (String_match s2 (STORY_FORMAT_REGEX CONFIG)) ->
  String_length s1 = String_length s2 ->
  toLowerCase s1 = toLowerCase s2 ->
  analyzeClarityAndRequirement s1 v = analyzeClarityAndRequirement s2 v.
Proof.
  intros H1 H2 H3. unfold analyzeClarityAndRequirement.
  now rewrite H1, H2, H3.
Qed.

Lemma investScores_ignore_case (s1 s2 : jsstring) (acA : AcAnalysis)
  (inv1 inv2 : Invest.Analysis) :
  sameIgnoringCase s1 s2 ->
  investScores s1 acA inv1 -> investScores s2 acA inv2 ->
  Invest.score (Invest.independent inv1) = Invest.score (Invest.independent inv2)
  /\ Invest.score (Invest.negotiable inv1)
     = Invest.score (Invest.negotiable inv2)
  /\ Invest.score (Invest.valuable inv1) = Invest.score (Invest.valuable inv2)
  /\ Invest.score (Invest.estimable inv1)
     = Invest.score (Invest.estimable inv2)
  /\ Invest.score (Invest.small inv1) = Invest.score (Invest.small inv2)
  /\ Invest.score (Invest.testable inv1) = Invest.score (Invest.testable inv2)
  /\ Invest.total inv1 = Invest.total inv2.
Proof.
  intros E (A1 & A2 & A3 & A4 & A5 & A6 & A7) (B1 & B2 & B3 & B4 & B5 & B6 & B7).
  pose proof (toLowerCase_ignores_case _ _ E) as L.
  pose proof (hasClearValue_ignores_case _ _ E) as V.
  pose proof (sameIgnoringCase_length _ _ E) as N.
  unfold hasDependencyKeywords, hasTechnicalTerms, String_length in *.
  rewrite L, V, N in *.
  rewrite A7, B7. repeat split; congruence.
Qed.

(** X9. The scores do not depend on the case of the ASCII letters of
    the story: two stories that differ in case only get the same overall
    readiness, the same clarity section, the same six INVEST scores, the
    same queries and the same decomposition hint. *)
Theorem scores_ignore_case (s1 s2 : jsstring) (ac : option jsstring) :
  sameIgnoringCase s1 s2 -> trim s1 <> [] ->
  exists r1 r2,
    analyzeUserStory (JsString s1) (textArg ac) = Normal r1
    /\ analyzeUserStory (JsString s2) (textArg ac) = Normal r2
    /\ Report.overallReadinessScore r1 = Report.overallReadinessScore r2
    /\ Report.clarityAndRequirementAnalysis r1
       = Report.clarityAndRequirementAnalysis r2
    /\ investScoreList r1 = investScoreList r2
    /\ Report.outstandingQueriesAndConflicts r1
       = Report.outstandingQueriesAndConflicts r2
    /\ Report.storyDecomposition (Report.actionableRecommendations r1)
       = Report.storyDecomposition (Report.actionableRecommendations r2).
Proof.
  intros E H1.
  assert (H2 : trim s2 <> []).
  { intros T. apply H1.
    pose proof (trim_ignores_case _ _ E) as Et. rewrite T in Et.
    now apply sameIgnoringCase_nil_r. }
  destruct (analyzeAcceptanceCriteria_text (acText ac)) as [acA Ea].
  rewrite <- defaultTo_acText in Ea.
  destruct (analyzeUserStory_run s1 (textArg ac) acA H1 Ea)
    as (cl1 & inv1 & band1 & Hc1 & _ & _ & I1 & Hb1 & _ & ->).
  destruct (analyzeUserStory_run s2 (textArg ac) acA H2 Ea)
    as (cl2 & inv2 & band2 & Hc2 & _ & _ & I2 & Hb2 & _ & ->).
  assert (Ecl : cl1 = cl2).
  { rewrite (analyzeClarityAndRequirement_congr s1 s2) in Hc1.
    - congruence.
    - pose proof (String_match_ignores_case _ _ E) as M.
      unfold sameMatch in M.
      now destruct (String_match s1 _), (String_match s2 _).
    - unfold String_length. now rewrite (sameIgnoringCase_length _ _ E).
    - now apply toLowerCase_ignores_case. }
  subst cl2.
  destruct (investScores_ignore_case _ _ _ _ _ E I1 I2)
    as (S1 & S2 & S3 & S4 & S5 & S6 & S7).
  rewrite S7 in Hb1. assert (band1 = band2) by congruence. subst band2.
  do 2 eexists. split; [reflexivity|]. split; [reflexivity|].
  unfold investScoreList.
  cbn [scoredReport Report.overallReadinessScore
       Report.clarityAndRequirementAnalysis Report.investCriteriaAssessment
       Report.outstandingQueriesAndConflicts Report.actionableRecommendations
       spreadInvest InvestSection.independent InvestSection.negotiable
       InvestSection.valuable InvestSection.estimable InvestSection.small
       InvestSection.testable].
  destruct (generateQueriesAndRecommendations_lists s1 cl1 inv1) as [-> ->].
  destruct (generateQueriesAndRecommendations_lists s2 cl1 inv2) as [-> ->].
  rewrite S1, S2, S3, S4, S5, S6, S7. repeat split; reflexivity.
Qed.

Lemma scores_ignore_case_witness :
  exists r1 r2,
    analyzeUserStory (JsString (lit "as a USER, i want x, SO THAT we might win"))
                     (textArg None) = Normal r1
    /\ analyzeUserStory
         (JsString (lit "As a user, I want x, so that we MIGHT win"))
         (textArg None) = Normal r2
    /\ Report.overallReadinessScore r1 = Report.overallReadinessScore r2
    /\ Report.clarityAndRequirementAnalysis r1
       = Report.clarityAndRequirementAnalysis r2
    /\ investScoreList r1 = investScoreList r2
    /\ Report.outstandingQueriesAndConflicts r1
       = Report.outstandingQueriesAndConflicts r2
    /\ Report.storyDecomposition (Report.actionableRecommendations r1)
       = Report.storyDecomposition (Report.actionableRecommendations r2).
Proof.
  apply (scores_ignore_case
           (lit "as a USER, i want x, SO THAT we might win")
           (lit "As a user, I want x, so that we MIGHT win") None).
  - vm_compute. reflexivity.
  - vm_compute. discriminate.
Defined.
(** ** What each item depends on *)




(* ================================================================= *)
(** * The Netlify function *)

Lemma destructure_not_null (body : Json) :
  body <> JNull ->
  destructure body (lit "story") = Normal (storyOf body)
  /\ destructure body (lit "acceptanceCriteria") = Normal (criteriaOf body).
Proof. destruct body; try (split; reflexivity). now intros []. Qed.

Lemma falsyOrText_orElse (v : JsValue) :
  falsyOrText (orElse v (JsString [])) <-> falsyOrText v.
Proof.
  unfold orElse. destruct (ToBoolean v) eqn:T; [tauto|].
  split; intros _; [now left | right; eauto].
Qed.

(** The answer to a POST request, by cases on the parsed body. *)
Lemma handler_post (JSON_parse : jsstring -> option Json) (event : Event) :
  httpMethod event = lit "POST" ->
  handler JSON_parse event
  = match JSON_parse (bodyText event) with
    | None => respond 400 (ErrorPayload (lit "Invalid JSON in request body."))
    | Some JNull =>
        respond 500 (FailurePayload (lit "Internal Server Error") TypeError)
    | Some body =>
        if missingStory (storyOf body) then
          respond 400 (ErrorPayload (lit "Missing 'story' in request body."))
        else
          match analyzeUserStory (storyOf body)
                  (orElse (criteriaOf body) (JsString [])) with
          | Normal r => respond 200 (ReportPayload r)
          | Throw e => respond 500 (FailurePayload (lit "Internal Server Error") e)
          end
    end.
Proof.
  intros M. unfold handler, handlerBody. rewrite M.
  change (negb (String_eq (lit "POST") (lit "POST"))) with false.
  cbv iota. fold (bodyText event).
  destruct (JSON_parse (bodyText event)) as [body|]; [|reflexivity].
  destruct body as [ | b | x | s | items | members]; try reflexivity.
  cbn [destructure storyOf criteriaOf].
  destruct (member members (lit "story")) as [j|]; [|reflexivity].
  destruct j; cbn [valueOf]; try reflexivity;
    match goal with
    | |- context [analyzeUserStory ?a ?b] => now destruct (analyzeUserStory a b)
    end.
Qed.

Lemma blankStory_dec (story : JsValue) : {blankStory story} + {~ blankStory story}.
Proof.
  destruct story; try (left; exact I).
  cbn [blankStory]. apply list_eq_dec, N.eq_dec.
Qed.

Lemma falsyOrText_dec (v : JsValue) : {falsyOrText v} + {~ falsyOrText v}.
Proof.
  destruct (ToBoolean v) eqn:T; [|left; now left].
  destruct v; try (right; intros [F | [a E]]; congruence).
  left. right. eauto.
Qed.

(** The status of the answer to a POST request whose body parses to a
    value other than [null] and holds a story. *)
Lemma handler_post_story (JSON_parse : jsstring -> option Json)
  (event : Event) (body : Json) :
  httpMethod event = lit "POST" ->
  JSON_parse (bodyText event) = Some body ->
  body <> JNull -> missingStory (storyOf body) = false ->
  (blankStory (storyOf body) \/ falsyOrText (criteriaOf body) ->
   exists r,
     analyzeUserStory (storyOf body) (orElse (criteriaOf body) (JsString []))
     = Normal r
     /\ handler JSON_parse event = respond 200 (ReportPayload r))
  /\ (~ blankStory (storyOf body) /\ ~ falsyOrText (criteriaOf body) ->
      handler JSON_parse event
      = respond 500 (FailurePayload (lit "Internal Server Error") TypeError)).
Proof.
  intros M P N S. rewrite (handler_post _ _ M), P.
  assert (E : forall A (x y : A),
             match body with JNull => x | _ => y end = y)
    by (intros; destruct body; [contradiction | reflexivity ..]).
  rewrite E, S.
  destruct (analyzeUserStory_outcome
              (storyOf body) (orElse (criteriaOf body) (JsString [])))
    as [T R].
  rewrite falsyOrText_orElse in T, R.
  split.
  - intros H. destruct (R H) as [r Hr]. exists r. now rewrite Hr.
  - intros H. apply T in H. now rewrite H.
Qed.

Ltac status_cases :=
  intros;
  repeat match goal with
         | H : _ /\ _ |- _ => destruct H
         | H : _ \/ _ |- _ => destruct H
         | H : exists _, _ |- _ => destruct H
         | H : Some _ = None |- _ => discriminate H
         | H : None = Some _ |- _ => discriminate H
         | H : Some _ = Some _ |- _ => injection H as H; subst
         end;
  try tauto; try congruence; try contradiction; try lia;
  try (match goal with
       | B : ~ blankStory (storyOf ?x), S : missingStory (storyOf ?x) = true
         |- _ => destruct (storyOf x); try discriminate; now destruct B
       end);
  try (eexists; split; [eassumption || reflexivity | auto 6]; fail);
  try (right; eexists; split; [eassumption || reflexivity | auto 6]; fail).

(** X11. The function answers 405 to every method but POST. To a POST it
    answers 400 when the body is no JSON text or holds no story (absent or
    null), 500 when the body is the JSON null or the engine throws, which
    is the case of a story text that is not blank with acceptance criteria
    that are truthy and no text, and 200 in every other case. *)
Theorem handler_status_codes (JSON_parse : jsstring -> option Json)
  (event : Event) :
  (statusCode (handler JSON_parse event) = 405
   <-> httpMethod event <> lit "POST")
  /\ (statusCode (handler JSON_parse event) = 400
      <-> httpMethod event = lit "POST"
          /\ (JSON_parse (bodyText event) = None
              \/ exists body,
                  JSON_parse (bodyText event) = Some body
                  /\ body <> JNull /\ missingStory (storyOf body) = true))
  /\ (statusCode (handler JSON_parse event) = 500
      <-> httpMethod event = lit "POST"
          /\ exists body,
              JSON_parse (bodyText event) = Some body
              /\ (body = JNull
                  \/ (~ blankStory (storyOf body)
                      /\ ~ falsyOrText (criteriaOf body))))
  /\ (statusCode (handler JSON_parse event) = 200
      <-> httpMethod event = lit "POST"
          /\ exists body,
              JSON_parse (bodyText event) = Some body
              /\ body <> JNull /\ missingStory (storyOf body) = false
              /\ (blankStory (storyOf body)
                  \/ falsyOrText (criteriaOf body))).
Proof.
  destruct (list_eq_dec N.eq_dec (httpMethod event) (lit "POST")) as [M|M].
  2:{ assert (H : statusCode (handler JSON_parse event) = 405).
      { unfold handler. apply String_eq_false in M. now rewrite M. }
      rewrite H. repeat split; status_cases. }
  destruct (JSON_parse (bodyText event)) as [body|] eqn:P.
  2:{ assert (H : statusCode (handler JSON_parse event) = 400)
        by (now rewrite (handler_post _ _ M), P).
      rewrite H. repeat split; status_cases. }
  assert (Cases :
            body = JNull
            \/ (body <> JNull /\ missingStory (storyOf body) = true)
            \/ (body <> JNull /\ missingStory (storyOf body) = false)).
  { destruct body; try (now left);
      destruct (missingStory _); right; (left + right); split;
        (discriminate || reflexivity). }
  destruct Cases as [-> | [[N S] | [N S]]].
  - assert (H : statusCode (handler JSON_parse event) = 500)
      by (now rewrite (handler_post _ _ M), P).
    rewrite H. repeat split; status_cases.
  - assert (H : statusCode (handler JSON_parse event) = 400).
    { rewrite (handler_post _ _ M), P.
      destruct body; try contradiction; now rewrite ?S. }
    rewrite H. repeat split; status_cases.
  - destruct (handler_post_story _ _ _ M P N S) as [Ok Ko].
    destruct (blankStory_dec (storyOf body)) as [B|B].
    + destruct (Ok (or_introl B)) as (r & _ & ->). cbn [statusCode respond].
      repeat split; status_cases.
    + destruct (falsyOrText_dec (criteriaOf body)) as [F|F].
      * destruct (Ok (or_intror F)) as (r & _ & ->). cbn [statusCode respond].
        repeat split; status_cases.
      * rewrite (Ko (conj B F)). cbn [statusCode respond].
        repeat split; status_cases.
Qed.

(** X12. For a POST whose body holds a story text, with acceptance
    criteria that are a text or falsy, the answer is 200 and carries the
    report of the engine for the story and [acceptanceCriteria || ""]. A
    blank story is served like this too: it gets the empty report with its
    error text and rating 0, not the 400 of a missing story. *)
Theorem handler_returns_engine_report (JSON_parse : jsstring -> option Json)
  (event : Event) (body : Json) (s : jsstring) :
  httpMethod event = lit "POST" ->
  JSON_parse (bodyText event) = Some body ->
  storyOf body = JsString s ->
  trim s = [] \/ falsyOrText (criteriaOf body) ->
  exists r,
    handler JSON_parse event = respond 200 (ReportPayload r)
    /\ analyzeUserStory (JsString s) (orElse (criteriaOf body) (JsString []))
       = Normal r
    /\ (trim s = [] ->
        Report.error r
        = Some (lit "Story is empty or missing. Please provide a user story to analyze.")
        /\ Overall.readinessRating (Report.overallReadinessScore r) = 0).
Proof.
  intros M P S H.
  assert (N : body <> JNull) by (intros ->; discriminate).
  assert (Ms : missingStory (storyOf body) = false) by now rewrite S.
  destruct (handler_post_story _ _ _ M P N Ms) as [Ok _].
  rewrite S in Ok. cbn [blankStory] in Ok.
  destruct (Ok H) as (r & Hr & Hh).
  exists r. split; [assumption|]. split; [assumption|].
  intros B.
  rewrite (analyzeUserStory_blank (JsString s)) in Hr
    by (now apply blankStory_storyText).
  vm_compute in Hr. injection Hr as <-. split; reflexivity.
Qed.

Lemma handler_returns_engine_report_witness :
  exists r,
    handler
      (fun _ => Some (JObject [(lit "story", JString (lit " "))]))
      {| httpMethod := lit "POST"; body := Some (lit "{}") |}
    = respond 200 (ReportPayload r)
    /\ analyzeUserStory (JsString (lit " "))
         (orElse (criteriaOf (JObject [(lit "story", JString (lit " "))]))
                 (JsString []))
       = Normal r
    /\ (trim (lit " ") = [] ->
        Report.error r
        = Some (lit "Story is empty or missing. Please provide a user story to analyze.")
        /\ Overall.readinessRating (Report.overallReadinessScore r) = 0).
Proof.
  apply (handler_returns_engine_report
           (fun _ => Some (JObject [(lit "story", JString (lit " "))]))
           {| httpMethod := lit "POST"; body := Some (lit "{}") |}
           (JObject [(lit "story", JString (lit " "))]) (lit " "));
    try reflexivity.
  left. reflexivity.
Defined.

(** X13. A POST without a body, or with an empty one, is parsed as the
    text of an empty object: with a parser that reads that text as an
    object without members the answer is the 400 of a missing story. *)
Theorem handler_without_body (JSON_parse : jsstring -> option Json)
  (event : Event) :
  httpMethod event = lit "POST" ->
  body event = None \/ body event = Some [] ->
  JSON_parse (lit "{}") = Some (JObject []) ->
  handler JSON_parse event
  = respond 400 (ErrorPayload (lit "Missing 'story' in request body.")).
Proof.
  intros M B P. rewrite (handler_post _ _ M).
  assert (T : bodyText event = lit "{}")
    by (unfold bodyText; destruct B as [-> | ->]; reflexivity).
  now rewrite T, P.
Qed.

Lemma handler_without_body_witness :
  handler
    (fun text =>
       if String_eq text (lit "{}") then Some (JObject []) else None)
    {| httpMethod := lit "POST"; body := None |}
  = respond 400 (ErrorPayload (lit "Missing 'story' in request body.")).
Proof.
  apply (handler_without_body
           (fun text =>
              if String_eq text (lit "{}") then Some (JObject []) else None)
           {| httpMethod := lit "POST"; body := None |});
    [reflexivity | now left | reflexivity].
Defined.
(* ================================================================= *)
(** * The sibling versions *)

(** X14. The table of bands and the chain of comparisons of the first
    version agree on every score from 0 on: same label, same summary. Below
    0 the chain still answers Not Ready while the table finds no band. *)
Theorem classifier_versions_agree (score : Z) :
  (0 <= score ->
   exists band,
     getReadinessCategory score = Some band
     /\ Band.label band = V1.label (V1.getReadinessCategory score)
     /\ Band.summary band = V1.summary (V1.getReadinessCategory score))
  /\ (score < 0 ->
      getReadinessCategory score = None
      /\ V1.label (V1.getReadinessCategory score) = notReadyLabel).
Proof.
  unfold getReadinessCategory, V1.getReadinessCategory.
  cbn [READINESS_CATEGORIES CONFIG find Band.score].
  destruct (Z.leb_spec 90 score), (Z.leb_spec 71 score),
    (Z.leb_spec 50 score), (Z.leb_spec 0 score);
    split; intros; try lia; try (eexists; repeat split; reflexivity);
    split; reflexivity.
Qed.

(** ** The helpers of version 3.0.0 *)

Lemma split_no_sep (sep : CodeUnit) (l : jsstring) :
  ~ In sep l -> split sep l = [l].
Proof.
  induction l as [|c l IH]; [reflexivity|].
  intros N. cbn [split].
  destruct (N.eqb_spec c sep) as [->|_]; [destruct N; now left|].
  rewrite IH; [reflexivity|]. intros H. apply N. now right.
Qed.

Lemma split_app_sep (sep : CodeUnit) (l rest : jsstring) :
  ~ In sep l -> split sep (l ++ sep :: rest) = l :: split sep rest.
Proof.
  induction l as [|c l IH]; intros N; cbn [app split].
  - now rewrite N.eqb_refl.
  - destruct (N.eqb_spec c sep) as [->|_]; [destruct N; now left|].
    rewrite IH; [reflexivity|]. intros H. apply N. now right.
Qed.

Lemma oneLine_no_newline (l : jsstring) : oneLine l -> ~ In 0x0A%N l.
Proof.
  intros O H. unfold oneLine in O. rewrite Forall_forall in O.
  specialize (O _ H). discriminate.
Qed.

Lemma startsWith_app (kw a b : jsstring) :
  startsWith kw a = true -> startsWith kw (a ++ b) = true.
Proof.
  revert a. induction kw as [|k kw IH]; intros [|x a]; cbn [startsWith app];
    try reflexivity; try discriminate.
  intros H. apply andb_true_iff in H as [-> H]. now apply IH.
Qed.

Lemma includes_prefix (kw a b : jsstring) :
  startsWith kw a = true -> includes (a ++ b) kw = true.
Proof.
  intros H. apply (startsWith_app kw a b) in H.
  destruct (a ++ b); cbn [includes]; now rewrite H.
Qed.

Lemma toLowerCase_app (a b : jsstring) :
  toLowerCase (a ++ b) = toLowerCase a ++ toLowerCase b.
Proof. apply flat_map_app. Qed.

Lemma hasTestableKeyword_prefix (kw a b : jsstring) :
  In kw (TESTABLE_AC (KEYWORDS CONFIG)) ->
  startsWith kw (toLowerCase a) = true ->
  hasTestableKeyword (a ++ b) = true.
Proof.
  intros K H. unfold hasTestableKeyword. apply existsb_exists.
  exists kw. split; [assumption|].
  rewrite toLowerCase_app. now apply includes_prefix.
Qed.

Lemma trim_nonblank_head (p rest : jsstring) :
  match p with c :: _ => isTrimmed c | [] => true end = false ->
  trim (p ++ rest) <> [].
Proof.
  intros H T. apply trim_nil_iff in T.
  destruct p as [|c p]; [discriminate|]. cbn in T.
  apply andb_true_iff in T as [T _]. congruence.
Qed.

Lemma no_newline_parts (p g q : jsstring) :
  existsb (N.eqb 0x0A) p = false -> existsb (N.eqb 0x0A) q = false ->
  oneLine g -> ~ In 0x0A%N (p ++ g ++ q).
Proof.
  intros Hp Hq Og H. rewrite !in_app_iff in H.
  destruct H as [H | [H | H]].
  - assert (existsb (N.eqb 0x0A) p = true)
      by (apply existsb_exists; exists 0x0A%N; split; [assumption | reflexivity]).
    congruence.
  - now apply (oneLine_no_newline g Og).
  - assert (existsb (N.eqb 0x0A) q = true)
      by (apply existsb_exists; exists 0x0A%N; split; [assumption | reflexivity]).
    congruence.
Qed.

(** X15. The three criteria that version 3.0.0 infers from a matched
    story with a goal pass the analyzer of the engine when they are fed
    back joined by line breaks: they come out as the three criteria, none
    counts as non-testable, and the acceptance-criteria sub-score is 15. *)
Theorem inferred_criteria_are_testable (s persona goal value s' : jsstring) :
  String_match s (STORY_FORMAT_REGEX CONFIG) = Some [persona; goal; value] ->
  goal <> [] ->
  exists acA cl,
    List.length (V3.inferAcceptanceCriteria (Some [persona; goal; value]))
    = 3%nat
    /\ analyzeAcceptanceCriteria
         (JsString
            (join [0x0A]%N
               (V3.inferAcceptanceCriteria (Some [persona; goal; value]))))
       = Normal acA
    /\ criteria acA = V3.inferAcceptanceCriteria (Some [persona; goal; value])
    /\ nonTestableCount acA = 0
    /\ testableKeywordsFound acA = true
    /\ analyzeClarityAndRequirement s'
         (JsString
            (join [0x0A]%N
               (V3.inferAcceptanceCriteria (Some [persona; goal; value]))))
       = Normal cl
    /\ Clarity.score (Clarity.acceptanceCriteria cl) = 15.
Proof.
  intros M G.
  destruct (String_match_captures s _ M)
    as (before & article & p' & want & g' & sothat & v' & after
        & [= <- <- <-] & _ & _ & _ & _ & Og & _).
  unfold V3.inferAcceptanceCriteria. cbn [group Nat.pred nth_error].
  apply String_eq_false in G. rewrite G.
  set (l1 := lit "Given the user is on the relevant page, when they attempt to "
             ++ goal ++ lit ", then the expected outcome occurs.").
  set (l2 := lit "Given the user provides invalid input for '" ++ goal
             ++ lit "', when they submit, then a clear error message is displayed.").
  set (l3 := lit "Verify that the action to '" ++ goal
             ++ lit "' is logged for analytics.").
  assert (N1 : ~ In 0x0A%N l1) by (apply no_newline_parts; auto).
  assert (N2 : ~ In 0x0A%N l2) by (apply no_newline_parts; auto).
  assert (N3 : ~ In 0x0A%N l3) by (apply no_newline_parts; auto).
  assert (T1 : trim l1 <> [])
    by (apply trim_nonblank_head; vm_compute; reflexivity).
  assert (T2 : trim l2 <> [])
    by (apply trim_nonblank_head; vm_compute; reflexivity).
  assert (T3 : trim l3 <> [])
    by (apply trim_nonblank_head; vm_compute; reflexivity).
  assert (K1 : hasTestableKeyword l1 = true).
  { apply (hasTestableKeyword_prefix (lit "given"));
      [cbn; tauto | vm_compute; reflexivity]. }
  assert (K2 : hasTestableKeyword l2 = true).
  { apply (hasTestableKeyword_prefix (lit "given"));
      [cbn; tauto | vm_compute; reflexivity]. }
  assert (K3 : hasTestableKeyword l3 = true).
  { apply (hasTestableKeyword_prefix (lit "verify that"));
      [cbn; tauto | vm_compute; reflexivity]. }
  assert (L : nonBlankLines (join [0x0A]%N [l1; l2; l3]) = [l1; l2; l3]).
  { unfold nonBlankLines. cbn [join app].
    rewrite (split_app_sep _ l1), (split_app_sep _ l2), (split_no_sep _ l3)
      by assumption.
    cbn [filter]. apply String_eq_false in T1, T2, T3.
    now rewrite T1, T2, T3. }
  assert (B : String_eq (trim (join [0x0A]%N [l1; l2; l3])) [] = false).
  { apply String_eq_false. rewrite <- nonBlankLines_nil_iff, L. discriminate. }
  pose proof (analyzeAcceptanceCriteria_run (join [0x0A]%N [l1; l2; l3])) as R.
  rewrite B, L in R. cbn [filter existsb] in R. rewrite K1, K2, K3 in R.
  cbn [negb orb List.length] in R.
  destruct (analyzeClarityAndRequirement_scores s' _ _ R) as (cl & Hcl & Ccl).
  unfold clarityScores in Ccl. destruct Ccl as (_ & _ & Sc & _).
  eexists. exists cl. split; [reflexivity|]. split; [exact R|].
  cbn [criteria nonTestableCount testableKeywordsFound].
  do 3 (split; [reflexivity|]). split; [exact Hcl|].
  rewrite Sc. unfold acSubScore.
  cbn [criteria nonTestableCount ToBoolean].
  assert (E : String_eq (join [0x0A]%N [l1; l2; l3]) [] = false).
  { apply String_eq_false. intros Z. rewrite Z in B. discriminate. }
  rewrite E. reflexivity.
Qed.

Lemma inferred_criteria_are_testable_witness :
  exists acA cl,
    List.length
      (V3.inferAcceptanceCriteria
         (Some [lit "user"; lit "manage my tasks"; lit "I stay organised"]))
    = 3%nat
    /\ analyzeAcceptanceCriteria
         (JsString
            (join [0x0A]%N
               (V3.inferAcceptanceCriteria
                  (Some [lit "user"; lit "manage my tasks";
                         lit "I stay organised"]))))
       = Normal acA
    /\ criteria acA
       = V3.inferAcceptanceCriteria
           (Some [lit "user"; lit "manage my tasks"; lit "I stay organised"])
    /\ nonTestableCount acA = 0
    /\ testableKeywordsFound acA = true
    /\ analyzeClarityAndRequirement (lit "x")
         (JsString
            (join [0x0A]%N
               (V3.inferAcceptanceCriteria
                  (Some [lit "user"; lit "manage my tasks";
                         lit "I stay organised"]))))
       = Normal cl
    /\ Clarity.score (Clarity.acceptanceCriteria cl) = 15.
Proof.
  apply (inferred_criteria_are_testable
           (lit "As a user, I want manage my tasks, so that I stay organised")
           (lit "user") (lit "manage my tasks") (lit "I stay organised")
           (lit "x")).
  - vm_compute. reflexivity.
  - vm_compute. discriminate.
Defined.

Lemma oneLine_lit (w : string) :
  forallb (fun c => negb (isLineTerminator c)) (lit w) = true ->
  oneLine (lit w).
Proof.
  intros H. unfold oneLine. apply Forall_forall. intros c Hc.
  rewrite forallb_forall in H. specialize (H c Hc).
  now destruct (isLineTerminator c).
Qed.

Lemma suggested_story_follows_template (persona value : jsstring) (mid : string) :
  oneLine persona -> oneLine value ->
  forallb (fun c => negb (isLineTerminator c)) (lit mid) = true ->
  followsTemplate
    (lit "As a " ++ persona
     ++ (lit ", I want " ++ lit mid ++ lit ", so that ") ++ value ++ lit ".").
Proof.
  intros Op Ov Om.
  exists [], (lit "As a "), persona, (lit ", I want "), (lit mid),
    (lit ", so that "), (value ++ lit "."), [].
  split; [now rewrite <- !app_assoc, app_nil_r|].
  split; [left; reflexivity|].
  split; [assumption|].
  split; [reflexivity|].
  split; [now apply oneLine_lit|].
  split; [reflexivity|].
  apply Forall_app. split; [assumption|].
  apply oneLine_lit. reflexivity.
Qed.

(** X16. On a match of the story-format regex [suggestDecomposition] of
    version 3.0.0 does not throw. When the goal mentions "manage" in any
    case it proposes three stories, and each of them is matched by the
    same regex again; otherwise it gives one generic hint. *)
Theorem decomposition_follows_template (s : jsstring) (m : list jsstring) :
  String_match s (STORY_FORMAT_REGEX CONFIG) = Some m ->
  exists goal stories,
    group m 2 = Some goal
    /\ V3.suggestDecomposition (Some m) = Normal stories
    /\ (includes (toLowerCase goal) (lit "manage") = true ->
        List.length stories = 3%nat
        /\ Forall
             (fun story =>
                followsTemplate story
                /\ truthyMatch (String_match story (STORY_FORMAT_REGEX CONFIG))
                   = true)
             stories)
    /\ (includes (toLowerCase goal) (lit "manage") = false ->
        List.length stories = 1%nat
        /\ Forall (fun story => ~ followsTemplate story) stories).
Proof.
  intros M.
  destruct (String_match_captures s _ M)
    as (before & article & persona & want & goal & sothat & value & after
        & -> & _ & _ & Op & _ & _ & _ & Ov & _).
  exists goal. unfold V3.suggestDecomposition.
  cbn [group Nat.pred nth_error V3.printed getProp bind].
  destruct (includes (toLowerCase goal) (lit "manage")).
  - eexists. split; [reflexivity|]. split; [reflexivity|].
    split; [|discriminate]. intros _. split; [reflexivity|].
    assert (F : forall mid,
               forallb (fun c => negb (isLineTerminator c)) (lit mid) = true ->
               followsTemplate
                 (lit "As a " ++ persona
                  ++ (lit ", I want " ++ lit mid ++ lit ", so that ")
                  ++ value ++ lit ".")
               /\ truthyMatch
                    (String_match
                       (lit "As a " ++ persona
                        ++ (lit ", I want " ++ lit mid ++ lit ", so that ")
                        ++ value ++ lit ".")
                       (STORY_FORMAT_REGEX CONFIG)) = true).
    { intros mid Hm. rewrite String_match_template.
      split; now apply suggested_story_follows_template. }
    repeat constructor.
    + exact (proj1 (F "to create a new item"%string eq_refl)).
    + exact (proj2 (F "to create a new item"%string eq_refl)).
    + exact (proj1 (F "to edit an existing item"%string eq_refl)).
    + exact (proj2 (F "to edit an existing item"%string eq_refl)).
    + exact (proj1 (F "to delete an item"%string eq_refl)).
    + exact (proj2 (F "to delete an item"%string eq_refl)).
  - eexists. split; [reflexivity|]. split; [reflexivity|].
    split; [discriminate|]. intros _. split; [reflexivity|].
    constructor; [|constructor].
    rewrite <- String_match_template. vm_compute. discriminate.
Qed.

Lemma decomposition_follows_template_witness :
  exists goal stories,
    group [lit "user"; lit "Manage my tasks"; lit "I stay organised"] 2
    = Some goal
    /\ V3.suggestDecomposition
         (Some [lit "user"; lit "Manage my tasks"; lit "I stay organised"])
       = Normal stories
    /\ (includes (toLowerCase goal) (lit "manage") = true ->
        List.length stories = 3%nat
        /\ Forall
             (fun story =>
                followsTemplate story
                /\ truthyMatch (String_match story (STORY_FORMAT_REGEX CONFIG))
                   = true)
             stories)
    /\ (includes (toLowerCase goal) (lit "manage") = false ->
        List.length stories = 1%nat
        /\ Forall (fun story => ~ followsTemplate story) stories).
Proof.
  apply (decomposition_follows_template
           (lit "As a user, I want Manage my tasks, so that I stay organised")).
  vm_compute. reflexivity.
Defined.
